(** * Text-Generator: generation back-end dispatch and question classifier

    A shallow embedding of [src/algorithms/mcts/models/model.py] and
    [src/algorithms/QuestionDifficultyClassifier.py], and the properties of
    the retry loops, response decoders, usage counters and batch driver.

    Conventions of the embedding.
    - A Python [str] is a [string]: the sequence of the bytes of its UTF-8
      encoding.  Every separator and prefix the program searches for is
      ASCII, so searching, splitting and slicing behind an ASCII prefix
      agree on bytes and on code points; [strip] goes by code points.
    - Python exceptions are values of [Exn]; a computation that can raise
      returns an [Outcome].  Only the class [Exception] is modelled (every
      [except Exception] handler of the sources catches every [Exn]).
    - Code with effects runs in the monad [M W], a state monad over a world
      [W] whose result is an [Outcome].  The outside world (HTTP gateway,
      hosted chat API, pandas, the file system, the generator back end) is
      an environment record of functions; each world keeps the trace of the
      interactions that happened so far. *)

From Stdlib Require Import ZArith NArith QArith Ascii String List Lia Bool.
From stdpp Require Import base option list strings pretty gmap.

Set Warnings "-register-all".
Local Open Scope string_scope.
Local Open Scope list_scope.
Local Open Scope nat_scope.

(* ===================================================================== *)
(** ** Python string primitives *)
(* ===================================================================== *)

Module PyStr.

(** The characters that cannot be written inside a literal here. *)
Definition nl : string := String "010" EmptyString.   (* line feed *)
Definition dq : string := String "034" EmptyString.   (* double quote *)

(** [s.startswith(p)] *)
Definition startswith (s p : string) : bool := String.prefix p s.

(** [s[n:]] for [n >= 0] *)
Fixpoint slice_from (n : nat) (s : string) : string :=
  match n, s with
  | O, _ => s
  | S _, EmptyString => EmptyString
  | S k, String _ s' => slice_from k s'
  end.

(** [len(s)] *)
Definition len (s : string) : nat := String.length s.

(** First occurrence of [sep] in [s], scanning from the left: the text
    before it and the text after it ([str.partition] without the middle). *)
Fixpoint find_sep (sep s : string) : option (string * string) :=
  if startswith s sep then Some (EmptyString, slice_from (len sep) s)
  else match s with
       | EmptyString => None
       | String c s' =>
           match find_sep sep s' with
           | Some (a, b) => Some (String c a, b)
           | None => None
           end
       end.

(** [s.split(sep)] for a non-empty [sep]: cut at the first occurrence and
    go on behind it.  The text behind a non-empty separator is strictly
    shorter, so [len s] rounds are enough ([split_unfold] below). *)
Fixpoint split_fuel (fuel : nat) (sep s : string) : list string :=
  match find_sep sep s with
  | None => [s]
  | Some (a, b) =>
      a :: match fuel with
           | O => []
           | S f => split_fuel f sep b
           end
  end.

Definition split (s sep : string) : list string := split_fuel (len s) sep s.

(** [sep in s] *)
Definition contains (s sep : string) : bool :=
  match find_sep sep s with Some _ => true | None => false end.

(** [c.lower()] on one byte; bytes outside [A-Z] are left alone. *)
Definition lower_ascii (c : ascii) : ascii :=
  let n := nat_of_ascii c in
  if (65 <=? n)%nat && (n <=? 90)%nat then ascii_of_nat (n + 32) else c.

(** [s.lower()] on the letters of ASCII.  Python lowers the capital
    letters beyond ASCII too; the only ones that give an ASCII letter are
    U+212A (a [k]) and U+0130 (an [i] followed by U+0307), so [s.lower()]
    is one of [local], [aisuite], [request] exactly when [lower s] is: the
    comparisons of [__init_model__] are decided by [lower].  The text of
    [s.lower()] itself is not computed: an error message that holds it
    names it ([ArgLower]). *)
Fixpoint lower (s : string) : string :=
  match s with
  | EmptyString => EmptyString
  | String c s' => String (lower_ascii c) (lower s')
  end.

(** The white space of [str.strip()], by the bytes of its UTF-8 encoding.
    One byte: U+0009 to U+000D, U+001C to U+001F and the space.  Two bytes:
    U+0085 and U+00A0 (C2 85, C2 A0).  Three bytes: U+1680 (E1 9A 80),
    U+2000 to U+200A, U+2028, U+2029 and U+202F (E2 80 80 to E2 80 8A,
    E2 80 A8, E2 80 A9, E2 80 AF), U+205F (E2 81 9F) and U+3000
    (E3 80 80). *)
Definition space1 (a : ascii) : bool :=
  let x := nat_of_ascii a in
  ((9 <=? x)%nat && (x <=? 13)%nat) || ((28 <=? x)%nat && (x <=? 32)%nat).
Definition space2 (a b : ascii) : bool :=
  let x := nat_of_ascii a in
  let y := nat_of_ascii b in
  (x =? 194)%nat && ((y =? 133)%nat || (y =? 160)%nat).
Definition space3 (a b c : ascii) : bool :=
  let x := nat_of_ascii a in
  let y := nat_of_ascii b in
  let z := nat_of_ascii c in
  ((x =? 225)%nat && (y =? 154)%nat && (z =? 128)%nat)
  || ((x =? 226)%nat && (y =? 128)%nat
      && (((128 <=? z)%nat && (z <=? 138)%nat)
          || (z =? 168)%nat || (z =? 169)%nat || (z =? 175)%nat))
  || ((x =? 226)%nat && (y =? 129)%nat && (z =? 159)%nat)
  || ((x =? 227)%nat && (y =? 128)%nat && (z =? 128)%nat).

(** The bytes that are left once the white space at the head is dropped,
    code point by code point.  With [backwards] the bytes come last byte
    first, as [rstrip] meets them: a lead byte opens a code point, so in a
    text that is UTF-8 the bytes of a white space at the end are that code
    point. *)
Fixpoint skip_spaces (backwards : bool) (bs : list ascii) : list ascii :=
  match bs with
  | [] => []
  | a :: bs1 =>
      if space1 a then skip_spaces backwards bs1
      else
        match bs1 with
        | [] => bs
        | b :: bs2 =>
            if (if backwards then space2 b a else space2 a b)
            then skip_spaces backwards bs2
            else
              match bs2 with
              | [] => bs
              | c :: bs3 =>
                  if (if backwards then space3 c b a else space3 a b c)
                  then skip_spaces backwards bs3
                  else bs
              end
        end
  end.

(** [s.lstrip()], [s.rstrip()], [s.strip()] *)
Definition lstrip (s : string) : string :=
  string_of_list_ascii (skip_spaces false (list_ascii_of_string s)).
Definition rstrip (s : string) : string :=
  string_of_list_ascii (rev (skip_spaces true (rev (list_ascii_of_string s)))).
Definition strip (s : string) : string := rstrip (lstrip s).

(** [bool(s)] for an optional string: [None] and the empty string are
    false. *)
Definition truthy (o : option string) : bool :=
  match o with
  | Some (String _ _) => true
  | _ => false
  end.

(** The substring relation the claims speak of: [sep] occurs in [s]. *)
Definition occurs (sep s : string) : Prop :=
  exists pre post, s = pre +:+ sep +:+ post.

End PyStr.

(* ===================================================================== *)
(** ** Exceptions, outcomes and the state monad *)
(* ===================================================================== *)

(** A value interpolated into an f-string: a text, the lower-cased form
    [s.lower()] of a text [s], or a list of texts. *)
Inductive FmtArg : Type :=
| ArgStr (s : string)
| ArgLower (s : string)
| ArgList (l : list string).

(** [ValueError fmt args] carries the text of the f-string, a pair of braces
    for every interpolation, and the interpolated values in order. *)
Inductive Exn : Type :=
| IndexError
| AttributeError
| ValueError (fmt : string) (args : list FmtArg)
| UnicodeDecodeError
| JSONDecodeError
| OtherException (name : string).

Inductive Outcome (A : Type) : Type :=
| Returns (a : A)
| Raises (e : Exn).
Arguments Returns {A} a.
Arguments Raises {A} e.

Definition M (W A : Type) : Type := W -> Outcome A * W.

Definition ret {W A} (a : A) : M W A := fun w => (Returns a, w).
Definition raise {W A} (e : Exn) : M W A := fun w => (Raises e, w).
Definition bind {W A B} (m : M W A) (k : A -> M W B) : M W B :=
  fun w => match m w with
           | (Returns a, w') => k a w'
           | (Raises e, w') => (Raises e, w')
           end.
(** [try: m  except Exception as e: h e] *)
Definition try_except {W A} (m : M W A) (h : Exn -> M W A) : M W A :=
  fun w => match m w with
           | (Returns a, w') => (Returns a, w')
           | (Raises e, w') => h e w'
           end.
Definition modify {W} (f : W -> W) : M W unit := fun w => (Returns tt, f w).
Definition get {W} : M W W := fun w => (Returns w, w).
Definition lift_outcome {W A} (o : Outcome A) : M W A := fun w => (o, w).

Declare Scope py_scope.
Delimit Scope py_scope with py.
Notation "'let*' x ':=' m 'in' k" := (bind m (fun x => k))
  (at level 10, x name, m at level 100, k at level 200) : py_scope.
Notation "'exec' m 'in' k" := (bind m (fun _ => k))
  (at level 10, m at level 100, k at level 200) : py_scope.

(** [l[0]] *)
Definition index0 {A} (l : list A) : Outcome A :=
  match l with
  | x :: _ => Returns x
  | [] => Raises IndexError
  end.

(** [l[1]] *)
Definition index1 {A} (l : list A) : Outcome A :=
  match l with
  | _ :: x :: _ => Returns x
  | _ => Raises IndexError
  end.

(** Sequencing of pure computations that can raise. *)
Definition obind {A B} (o : Outcome A) (k : A -> Outcome B) : Outcome B :=
  match o with
  | Returns a => k a
  | Raises e => Raises e
  end.

(* ===================================================================== *)
(** ** models/model.py *)
(* ===================================================================== *)

Module Model.
Import PyStr.

(** *** Module constants (lines 22-32) *)
Definition BASE_MODEL_GPT : string := "gpt-3.5-turbo".
Definition URL : string := "https://api.chatglm.cn/v1/chat/completions".
Definition ID : string := "**".
Definition AUTH : string := "**".
Definition CONTENT_TYPE : string := "application/json; charset=utf-8".
Definition BASE_MODEL_GLM : string := "GLM4".

(** *** Data exchanged with the outside world

    [temperature] and [top_p] are floats that the program only passes
    on; they are kept as the rational they denote. *)
Record ChatMessage := { role : string; content : string }.

(** Keyword arguments of [openai.ChatCompletion.create]. *)
Record ChatRequest := {
  cr_model : string;
  cr_messages : list ChatMessage;
  cr_temperature : Q;
  cr_max_tokens : Z;
  cr_n : Z;
  cr_stop : option string }.

(** [res["usage"]]: the token counts the provider reports. *)
Record Usage := { usage_completion_tokens : N; usage_prompt_tokens : N }.

(** [res]: [choices] holds [choice["message"]["content"]] of each choice. *)
Record ChatResponse := { choices : list string; usage : Usage }.

(** The dict handed to [json.dumps] as the body of the gateway request. *)
Inductive Payload :=
| PromptPayload (id prompt : string) (seed : Z) (max_tokens : string)
                (temperature : Q)
| ChatPayload (model : string) (messages : list ChatMessage)
              (temperature top_p : Q) (stream : bool) (max_tokens : Z).

Record PostRequest := {
  pr_url : string;
  pr_headers : list (string * string);
  pr_data : Payload }.

(** [requests.Response]; [resp_content] is the raw body, [response.content]. *)
Record HttpResponse := { resp_content : string }.

(** What [print] is called with. *)
Inductive Diagnostic :=
| ApiKeyBanner (key : string)
| ApiBaseWarning (base : string)
| GptReplyError (e : Exn)
| ProxyReplyRetrying (e : Exn)
| ProxyReplyError
| DecodeReplyError (e : Exn)
| UnsupportedGlmModel.

(** One interaction with the outside world. *)
Inductive Event :=
| CompletionCall (req : ChatRequest) (res : Outcome ChatResponse)
| PostCall (req : PostRequest) (res : Outcome HttpResponse)
| Printed (d : Diagnostic).

(** The outside world: what a call answers, given everything that
    happened before it.  [env_completions] is
    [completions_with_backoff], the hosted API behind its retry-forever
    decorator (line 92), taken when it comes back; [env_post] is
    [requests.post]. *)
Record Env := {
  env_completions : list Event -> ChatRequest -> Outcome ChatResponse;
  env_post : list Event -> PostRequest -> Outcome HttpResponse }.

(** The module globals that change, and the trace so far. *)
Record World := {
  completion_tokens : N;
  prompt_tokens : N;
  trace : list Event }.

Definition log (ev : Event) (w : World) : World :=
  {| completion_tokens := completion_tokens w;
     prompt_tokens := prompt_tokens w;
     trace := trace w ++ [ev] |}.

Definition print (d : Diagnostic) : M World unit := modify (log (Printed d)).

(** The world after the module body has run (lines 78-89). *)
Definition initial_world : World :=
  {| completion_tokens := 0; prompt_tokens := 0;
     trace := [Printed (ApiKeyBanner "sk-**"); Printed (ApiBaseWarning "base")] |}.

(** *** The streamed-event decoder (lines 139-150) *)

(** The [for line in lines] loop: [should_extract] and [extracted_data]
    are the loop's two variables. *)
Fixpoint extract_loop (lines : list string) (should_extract : bool)
    (extracted_data : list string) : list string :=
  match lines with
  | [] => extracted_data
  | line :: rest =>
      if startswith line "event: finish" then
        extract_loop rest true extracted_data
      else if should_extract && startswith line "data: " then
        if (0 <? len (slice_from 6 line))%nat then
          extract_loop rest should_extract (extracted_data ++ [slice_from 6 line])
        else extract_loop rest should_extract extracted_data
      else extract_loop rest should_extract extracted_data
  end.

Definition extract_data (text : string) : list string :=
  let lines := split text nl in
  extract_loop lines false [].

(** *** [bytes.decode('utf-8')]

    The strict decoder accepts exactly the well-formed byte sequences
    (no overlong forms, no surrogates, nothing above U+10FFFF): [need]
    continuation bytes are still owed, the next one within [lo..hi]. *)
Fixpoint utf8_scan (need : nat) (lo hi : N) (bs : list N) : bool :=
  match bs with
  | [] => (need =? 0)%nat
  | b :: rest =>
      match need with
      | O =>
          if (b <? 128)%N then utf8_scan 0 128 191 rest
          else if (194 <=? b)%N && (b <=? 223)%N then utf8_scan 1 128 191 rest
          else if (b =? 224)%N then utf8_scan 2 160 191 rest
          else if (225 <=? b)%N && (b <=? 236)%N then utf8_scan 2 128 191 rest
          else if (b =? 237)%N then utf8_scan 2 128 159 rest
          else if (238 <=? b)%N && (b <=? 239)%N then utf8_scan 2 128 191 rest
          else if (b =? 240)%N then utf8_scan 3 144 191 rest
          else if (241 <=? b)%N && (b <=? 243)%N then utf8_scan 3 128 191 rest
          else if (b =? 244)%N then utf8_scan 3 128 143 rest
          else false
      | S k =>
          if (lo <=? b)%N && (b <=? hi)%N then utf8_scan k 128 191 rest
          else false
      end
  end.

Definition decode_utf8 (raw : string) : Outcome string :=
  if utf8_scan 0 128 191 (map N_of_ascii (list_ascii_of_string raw))
  then Returns raw
  else Raises UnicodeDecodeError.

(** *** The two markers of the delimited-field decoders (lines 222, 260) *)

(** The literal of the leading marker: a quote, [content], a quote, a
    colon and a quote. *)
Definition content_marker : string := dq +:+ "content" +:+ dq +:+ ":" +:+ dq.
(** The literal of the terminating marker: quote, comma, quote, [role],
    quote, colon, quote, [assistant], quote. *)
Definition role_marker : string :=
  dq +:+ "," +:+ dq +:+ "role" +:+ dq +:+ ":" +:+ dq +:+ "assistant" +:+ dq.

(** Line 222, the expression of the GLM4 branch:
    [reply.split(content_marker)[1].split(role_marker)[0]]. *)
Definition GLM4_content (reply : string) : Outcome string :=
  obind (index1 (split reply content_marker)) (fun rest =>
  index0 (split rest role_marker)).

(** Line 260, the same expression written again in the GLM3 branch. *)
Definition GLM3_content (reply : string) : Outcome string :=
  obind (index1 (split reply content_marker)) (fun rest =>
  index0 (split rest role_marker)).

(** The result of [gpt_usage]; [cost] is a float in the source and is kept
    as the rational its formula denotes. *)
Record UsageReport := {
  report_completion_tokens : N;
  report_prompt_tokens : N;
  report_cost : Q }.

Definition N2Q (k : N) : Q := inject_Z (Z.of_N k).

Local Open Scope py_scope.

Section WithEnv.
Variable env : Env.

(** Lines 92-94.  The decorator of line 92 calls the API again, without
    a limit, for as long as it raises [openai.APIError]: the call comes
    back with the first answer that is not this error, or never.  A call that never
    comes back is no value of [M]; what is proved of the callers is about
    the calls that come back. *)
Definition completions_with_backoff (req : ChatRequest) : M World ChatResponse :=
  fun w => let r := env_completions env (trace w) req in
           (r, log (CompletionCall req r) w).

Definition requests_post (req : PostRequest) : M World HttpResponse :=
  fun w => let r := env_post env (trace w) req in
           (r, log (PostCall req r) w).

(** [completion_tokens += k] and [prompt_tokens += k] (lines 123-124). *)
Definition add_completion_tokens (k : N) : M World unit :=
  modify (fun w => {| completion_tokens := completion_tokens w + k;
                      prompt_tokens := prompt_tokens w;
                      trace := trace w |}).
Definition add_prompt_tokens (k : N) : M World unit :=
  modify (fun w => {| completion_tokens := completion_tokens w;
                      prompt_tokens := prompt_tokens w + k;
                      trace := trace w |}).

(** The [while n > 0] loop of [chatgpt] (lines 115-124).  Every round
    takes at least 1 off [n], so [Z.to_nat n] rounds of fuel are enough
    ([chatgpt_loop_unfold] below). *)
Fixpoint chatgpt_loop (fuel : nat) (messages : list ChatMessage) (model : string)
    (temperature : Q) (max_tokens : Z) (stop : option string)
    (n : Z) (outputs : list string) : M World (list string) :=
  match fuel with
  | O => ret outputs
  | S fuel' =>
      if (n >? 0)%Z then
        let cnt := Z.min n 20 in
        let n := (n - cnt)%Z in
        let* res := completions_with_backoff
                      {| cr_model := model; cr_messages := messages;
                         cr_temperature := temperature;
                         cr_max_tokens := max_tokens;
                         cr_n := cnt; cr_stop := stop |} in
        let outputs := outputs ++ choices res in
        exec add_completion_tokens (usage_completion_tokens (usage res)) in
        exec add_prompt_tokens (usage_prompt_tokens (usage res)) in
        chatgpt_loop fuel' messages model temperature max_tokens stop n outputs
      else ret outputs
  end.

(** Lines 112-125. *)
Definition chatgpt (messages : list ChatMessage) (model : string)
    (temperature : Q) (max_tokens n : Z) (stop : option string)
    : M World (list string) :=
  chatgpt_loop (Z.to_nat n) messages model temperature max_tokens stop n [].

(** The [while cnt] loop of [gpt] (lines 101-108); leaving the loop
    through [break] returns the new [out]. *)
Fixpoint gpt_loop (cnt : nat) (messages : list ChatMessage) (model : string)
    (temperature : Q) (max_tokens n : Z) (stop : option string)
    (out : list string) : M World (list string) :=
  match cnt with
  | O => ret out
  | S cnt' =>
      try_except
        (let* outputs := chatgpt messages model temperature max_tokens n stop in
         let* first := lift_outcome (index0 outputs) in
         ret (split first nl))
        (fun e =>
           exec print (GptReplyError e) in
           gpt_loop cnt' messages model temperature max_tokens n stop out)
  end.

(** Lines 97-109. *)
Definition gpt (prompt model : string) (temperature : Q) (max_tokens n : Z)
    (stop : option string) : M World (list string) :=
  let messages := [{| role := "user"; content := prompt |}] in
  gpt_loop 5 messages model temperature max_tokens n stop [].

(** Lines 128-136. *)
Definition gpt_usage (backend : string) : M World UsageReport :=
  let* w := get in
  let cost :=
    if String.eqb backend "gpt-4" then
      (N2Q (completion_tokens w) / 1000 * (6 # 100)
       + N2Q (prompt_tokens w) / 1000 * (3 # 100))%Q
    else if String.eqb backend "gpt-3.5-turbo" then
      (N2Q (completion_tokens w) / 1000 * (2 # 1000)
       + N2Q (prompt_tokens w) / 1000 * (15 # 10000))%Q
    else (-1)%Q in
  ret {| report_completion_tokens := completion_tokens w;
         report_prompt_tokens := prompt_tokens w;
         report_cost := cost |}.

(** The [while tol] loop around [requests.post], written three times in
    the source with the same text (lines 172-180, 205-213, 243-251);
    [None] is [response = None]. *)
Fixpoint post_loop (tol : nat) (req : PostRequest) : M World (option HttpResponse) :=
  match tol with
  | O => ret None
  | S tol' =>
      try_except
        (let* response := requests_post req in ret (Some response))
        (fun e =>
           exec print (ProxyReplyRetrying e) in
           post_loop tol' req)
  end.

Definition glm_headers : list (string * string) :=
  [("Authorization", AUTH); ("Content-Type", CONTENT_TYPE)].

(** The requests of the three branches (lines 159-170, 191-203, 229-241). *)
Definition ChatGLM2_request (query : string) (temperature : Q)
    (max_tokens seed : Z) : PostRequest :=
  {| pr_url := URL; pr_headers := glm_headers;
     pr_data := PromptPayload ID query seed (pretty max_tokens) temperature |}.

Definition GLM4_request (query : string) (temperature : Q)
    (max_tokens : Z) : PostRequest :=
  {| pr_url := URL; pr_headers := glm_headers;
     pr_data := ChatPayload "glm4-alltools-130b-awq"
                  [{| role := "user"; content := query |}]
                  temperature (7 # 10) false max_tokens |}.

Definition GLM3_request (query : string) (temperature : Q)
    (max_tokens : Z) : PostRequest :=
  {| pr_url := URL; pr_headers := glm_headers;
     pr_data := ChatPayload "chatglm3-32b-v0.8"
                  [{| role := "user"; content := query |}]
                  temperature (7 # 10) false max_tokens |}.

(** Lines 182-188: what the ChatGLM2 branch does with [response]. *)
Definition ChatGLM2_decode (response : option HttpResponse) : M World (list string) :=
  match response with
  | None => exec print ProxyReplyError in ret []
  | Some response =>
      let* reply := lift_outcome (decode_utf8 (resp_content response)) in
      let replies := extract_data reply in
      ret replies
  end.

(** Lines 158-188. *)
Definition get_glm_reply_ChatGLM2 (query : string) (temperature : Q)
    (max_tokens seed : Z) : M World (list string) :=
  let* response := post_loop 3 (ChatGLM2_request query temperature max_tokens seed) in
  ChatGLM2_decode response.

(** Lines 215-226: what the GLM4 branch does with [response]. *)
Definition GLM4_decode (response : option HttpResponse) : M World (list string) :=
  match response with
  | None => exec print ProxyReplyError in ret []
  | Some response =>
      let* reply := lift_outcome (decode_utf8 (resp_content response)) in
      match GLM4_content reply with
      | Raises e => exec print (DecodeReplyError e) in ret []
      | Returns content => ret (split content nl)
      end
  end.

(** Lines 190-226. *)
Definition get_glm_reply_GLM4 (query : string) (temperature : Q)
    (max_tokens : Z) : M World (list string) :=
  let* response := post_loop 3 (GLM4_request query temperature max_tokens) in
  GLM4_decode response.

(** Lines 253-264: what the GLM3 branch does with [response]. *)
Definition GLM3_decode (response : option HttpResponse) : M World (list string) :=
  match response with
  | None => exec print ProxyReplyError in ret []
  | Some response =>
      let* reply := lift_outcome (decode_utf8 (resp_content response)) in
      match GLM3_content reply with
      | Raises e => exec print (DecodeReplyError e) in ret []
      | Returns content => ret (split content nl)
      end
  end.

(** Lines 228-264. *)
Definition get_glm_reply_GLM3 (query : string) (temperature : Q)
    (max_tokens : Z) : M World (list string) :=
  let* response := post_loop 3 (GLM3_request query temperature max_tokens) in
  GLM3_decode response.

(** Lines 157-268. *)
Definition get_glm_reply (query model : string) (temperature : Q)
    (max_tokens seed : Z) : M World (list string) :=
  if String.eqb model "ChatGLM2" then
    get_glm_reply_ChatGLM2 query temperature max_tokens seed
  else if String.eqb model "GLM4" then
    get_glm_reply_GLM4 query temperature max_tokens
  else if String.eqb model "GLM3" then
    get_glm_reply_GLM3 query temperature max_tokens
  else
    exec print UnsupportedGlmModel in ret [].

(** Lines 153-154. *)
Definition glm (prompt model : string) (temperature : Q)
    (max_tokens seed : Z) : M World (list string) :=
  get_glm_reply prompt model temperature max_tokens seed.

End WithEnv.
End Model.

(* ===================================================================== *)
(** ** QuestionDifficultyClassifier.py *)
(* ===================================================================== *)

Module Classifier.
Import PyStr.

(** A value that [json.loads] yields, which is also what a cell of the
    frame holds.  A float keeps its lexeme: nothing computes with it. *)
Inductive Json : Type :=
| JNull
| JBool (b : bool)
| JInt (z : Z)
| JFloat (lexeme : string)
| JStr (s : string)
| JArr (items : list Json)
| JObj (fields : list (string * Json)).

(** A pandas frame read with [lines=True]: the column labels in order and
    one record per row, labelled 0, 1, ...; a cell that was never given a
    value (NaN) is absent from its record. *)
Record DataFrame := {
  columns : list string;
  rows : list (gmap string Json) }.

Definition empty_frame : DataFrame := {| columns := []; rows := [] |}.

(** The frame once the cell of row [idx] in column [col] holds [v]: a new
    column is appended, the other rows keep no value in it. *)
Definition at_set (df : DataFrame) (idx : nat) (col : string) (v : Json) : DataFrame :=
  {| columns := if bool_decide (col ∈ columns df) then columns df
                else columns df ++ [col];
     rows := alter (fun r => <[col := v]> r) idx (rows df) |}.

(** The frame with the column [col], which holds no value when it is new. *)
Definition add_column (df : DataFrame) (col : string) : DataFrame :=
  {| columns := if bool_decide (col ∈ columns df) then columns df
                else columns df ++ [col];
     rows := rows df |}.

(** What pandas makes of [dataframe.at[idx, col] = v] for a row label
    [idx] of the frame.  It stores a value in the cell: [v], or what the
    type of the column makes of [v].  Or it refuses [v] and raises (a list
    for a cell, a number for a column of texts); when the column was
    missing, pandas may have added it by then, without a value. *)
Inductive AtAnswer :=
| Stored (held : Json)
| Refused (e : Exn) (column_added : bool).

(** [d.get(key, default)] on a parsed value: only a dict has [get]. *)
Fixpoint assoc_get (key : string) (fields : list (string * Json)) : option Json :=
  match fields with
  | [] => None
  | (k, v) :: rest => if String.eqb k key then Some v else assoc_get key rest
  end.

Definition py_get (classification : Json) (key : string) (dflt : Json) : Outcome Json :=
  match classification with
  | JObj fields => Returns (default dflt (assoc_get key fields))
  | _ => Raises AttributeError
  end.

(** [posixpath.dirname]: the text up to the last slash, without trailing
    slashes unless it is made of slashes only. *)
Definition slash : ascii := "/"%char.
Fixpoint drop_until_slash (rev_p : list ascii) : list ascii :=
  match rev_p with
  | [] => []
  | c :: rest => if Ascii.eqb c slash then rev_p else drop_until_slash rest
  end.
Fixpoint drop_slashes (rev_p : list ascii) : list ascii :=
  match rev_p with
  | [] => []
  | c :: rest => if Ascii.eqb c slash then drop_slashes rest else rev_p
  end.
Definition os_path_dirname (p : string) : string :=
  let rev_head := drop_until_slash (rev (list_ascii_of_string p)) in
  match drop_slashes rev_head with
  | [] => string_of_list_ascii (rev rev_head)
  | stripped => string_of_list_ascii (rev stripped)
  end.

Inductive GeneratorKind := LocalModelGenerator | APIGenerator_aisuite | APIGenerator_request.

Inductive Diagnostic :=
| JsonParseWarning (classification_str : string)
| ClassificationParseError (e : Exn)
| ResultsSaved (output_file : string)
| RunError (e : Exn).

Section WithGenerator.
(** The class of the objects that [utils] builds; the module and its
    three generator classes are not part of the sources at hand. *)
Context {Generator : Type}.

Inductive Event :=
| GeneratorInit (kind : GeneratorKind) (config : gmap string string)
                (res : Outcome Generator)
| ReadJson (path : string) (res : Outcome DataFrame)
| GenerateText (prompts : list string) (res : Outcome (list string))
| MakeDirs (dir : string) (res : Outcome unit)
| ToJson (df : DataFrame) (path : string) (res : Outcome unit)
| Printed (d : Diagnostic).

(** The outside world of the classifier: the constructors and the
    [generate_text_from_input] method of the generators, the prompt
    template, [pd.read_json], [json.loads], the assignment through
    [DataFrame.at], [os.makedirs] and [DataFrame.to_json].  An answer may
    depend on what happened before. *)
Record Env := {
  env_generator_init :
    list Event -> GeneratorKind -> gmap string string -> Outcome Generator;
  env_question_synthesis_prompt : option Json -> Outcome string;
  env_read_json : list Event -> string -> Outcome DataFrame;
  env_generate_text_from_input :
    list Event -> Generator -> list string -> Outcome (list string);
  env_json_loads : string -> Outcome Json;
  env_at_set : list Event -> DataFrame -> nat -> string -> Json -> AtAnswer;
  env_makedirs : list Event -> string -> Outcome unit;
  env_to_json : list Event -> DataFrame -> string -> Outcome unit }.

(** The trace, and the frame object bound to [dataframe] in [run], which
    the loop changes in place. *)
Record World := {
  trace : list Event;
  dataframe : DataFrame }.

Definition initial_world : World := {| trace := []; dataframe := empty_frame |}.

Definition log (ev : Event) (w : World) : World :=
  {| trace := trace w ++ [ev]; dataframe := dataframe w |}.
Definition set_dataframe (df : DataFrame) (w : World) : World :=
  {| trace := trace w; dataframe := df |}.

(** The fields of [self]. *)
Record QuestionCategoryClassifier := {
  config : gmap string string;
  input_file : string;
  output_file : string;
  input_key : string;
  output_key : string;
  model : Generator }.

Local Open Scope py_scope.

Variable env : Env.

Definition call {A} (answer : list Event -> Outcome A)
    (ev : Outcome A -> Event) : M World A :=
  fun w => let r := answer (trace w) in (r, log (ev r) w).

Definition print (d : Diagnostic) : M World unit := modify (log (Printed d)).

Definition new_generator (kind : GeneratorKind) (config : gmap string string)
    : M World Generator :=
  call (fun tr => env_generator_init env tr kind config) (GeneratorInit kind config).

(** Lines 28-41. *)
Definition __init_model__ (config : gmap string string) : M World Generator :=
  let configured := default "local" (config !! "generator_type") in
  let generator_type := lower configured in
  if String.eqb generator_type "local" then
    new_generator LocalModelGenerator config
  else if String.eqb generator_type "aisuite" then
    new_generator APIGenerator_aisuite config
  else if String.eqb generator_type "request" then
    new_generator APIGenerator_request config
  else raise (ValueError "Invalid generator type: {}" [ArgLower configured]).

(** Lines 8-26; building the prompt template (line 13) is taken to
    succeed. *)
Definition __init__ (config : gmap string string) : M World QuestionCategoryClassifier :=
  let input_file := config !! "input_file" in
  let output_file := config !! "output_file" in
  let input_key := default "question" (config !! "input_key") in
  let output_key := default "classification_result" (config !! "output_key") in
  if negb (truthy input_file) || negb (truthy output_file) then
    raise (ValueError "Both input_file and output_file must be specified in the config." [])
  else
    let* model := __init_model__ config in
    ret {| config := config;
           input_file := default EmptyString input_file;
           output_file := default EmptyString output_file;
           input_key := input_key; output_key := output_key;
           model := model |}.

(** The loop of [_reformat_prompt] (lines 52-55). *)
Fixpoint format_loop (texts : list (option Json)) (formatted_prompts : list string)
    : Outcome (list string) :=
  match texts with
  | [] => Returns formatted_prompts
  | text :: rest =>
      obind (env_question_synthesis_prompt env text) (fun used_prompt =>
      format_loop rest (formatted_prompts ++ [strip used_prompt]))
  end.

(** Lines 43-57. *)
Definition _reformat_prompt (self : QuestionCategoryClassifier) (df : DataFrame)
    : Outcome (list string) :=
  if negb (bool_decide (input_key self ∈ columns df)) then
    Raises (ValueError "input_key: {} not found in the dataframe. Available keys: {}"
              [ArgStr (input_key self); ArgList (columns df)])
  else format_loop (map (fun r => r !! input_key self) (rows df)) [].

(** [dataframe.at[idx, col] = v] (lines 78 and 79). *)
Definition at_assign (idx : nat) (col : string) (v : Json) : M World unit :=
  fun w =>
    match env_at_set env (trace w) (dataframe w) idx col v with
    | Stored held => (Returns tt, set_dataframe (at_set (dataframe w) idx col held) w)
    | Refused e column_added =>
        (Raises e,
         if column_added then set_dataframe (add_column (dataframe w) col) w else w)
    end.

(** The body of the loop of [run] (lines 75-84). *)
Definition classify_row (idx : nat) (classification_str : string) : M World unit :=
  try_except
    (let* classification :=
       lift_outcome (if truthy (Some classification_str)
                     then env_json_loads env classification_str
                     else Returns (JObj [])) in
     let* primary :=
       lift_outcome (py_get classification "primary_category" (JStr EmptyString)) in
     exec at_assign idx "primary_category" primary in
     let* secondary :=
       lift_outcome (py_get classification "secondary_category" (JStr EmptyString)) in
     at_assign idx "secondary_category" secondary)
    (fun e =>
       match e with
       | JSONDecodeError => print (JsonParseWarning classification_str)
       | _ => print (ClassificationParseError e)
       end).

(** The loop of [run] (line 74) over
    [enumerate(zip(dataframe.iterrows(), responses))]; [iterrows] takes
    the rows as they are when the loop starts, and the body does not
    read them. *)
Fixpoint classify_loop (idx : nat) (pairs : list (gmap string Json * string))
    : M World unit :=
  match pairs with
  | [] => ret tt
  | (row, classification_str) :: rest =>
      exec classify_row idx classification_str in
      classify_loop (S idx) rest
  end.

(** Lines 59-100. *)
Definition run (self : QuestionCategoryClassifier) : M World unit :=
  try_except
    (let* df := call (fun tr => env_read_json env tr (input_file self))
                     (ReadJson (input_file self)) in
     exec modify (set_dataframe df) in
     let* formatted_prompts := lift_outcome (_reformat_prompt self df) in
     let* responses :=
       call (fun tr => env_generate_text_from_input env tr (model self) formatted_prompts)
            (GenerateText formatted_prompts) in
     exec classify_loop 0 (zip (rows df) responses) in
     let* w := get in
     if bool_decide (output_key self ∈ columns (dataframe w)) then
       raise (ValueError
                "Found {} in the dataframe, which would overwrite an existing column. Please use a different output_key."
                [ArgStr (output_key self)])
     else
       let output_dir := os_path_dirname (output_file self) in
       exec call (fun tr => env_makedirs env tr output_dir) (MakeDirs output_dir) in
       exec call (fun tr => env_to_json env tr (dataframe w) (output_file self))
                 (ToJson (dataframe w) (output_file self)) in
       print (ResultsSaved (output_file self)))
    (fun e => print (RunError e)).

End WithGenerator.
Arguments Event : clear implicits.
Arguments Env : clear implicits.
Arguments World : clear implicits.
Arguments QuestionCategoryClassifier : clear implicits.
End Classifier.

(* ===================================================================== *)
(** ** Reference definitions and sample inputs *)
(* ===================================================================== *)

Module Spec.
Import PyStr Model.

(** *** Delimited fields *)

(** The text in front of the first [sep] of [s], all of [s] without one. *)
Definition before_first (sep s : string) : string :=
  match find_sep sep s with
  | Some (a, _) => a
  | None => s
  end.

(** The request of the GLM4 or of the GLM3 branch. *)
Definition chat_request (model query : string) (temperature : Q)
    (max_tokens : Z) : PostRequest :=
  if String.eqb model "GLM4" then GLM4_request query temperature max_tokens
  else GLM3_request query temperature max_tokens.

(** A body that opens the content field and never closes it, a body
    without the content field, and a complete one. *)
Definition truncated_body : string :=
  "{" +:+ dq +:+ "choices" +:+ dq +:+ ":[{" +:+ content_marker +:+ "hello".
Definition error_body : string := "{" +:+ dq +:+ "error" +:+ dq +:+ ":500}".
Definition complete_body : string :=
  "{" +:+ content_marker +:+ "one" +:+ nl +:+ "two" +:+ role_marker +:+ "}".

(** A gateway that answers every request with [body], next to a hosted
    API that fails. *)
Definition gateway_answering (body : string) : Env :=
  {| env_completions := fun _ _ => Raises (OtherException "Timeout");
     env_post := fun _ _ => Returns {| resp_content := body |} |}.

(** *** Retries *)

(** The world after more events. *)
Definition logs (evs : list Event) (w : World) : World :=
  {| completion_tokens := completion_tokens w;
     prompt_tokens := prompt_tokens w;
     trace := trace w ++ evs |}.

(** The number of times [requests.post] was invoked in a trace. *)
Definition is_post_call (ev : Event) : bool :=
  match ev with PostCall _ _ => true | _ => false end.
Definition post_attempts (tr : list Event) : nat :=
  length (List.filter is_post_call tr).

(** The number of times the hosted API was invoked in a trace. *)
Definition is_completion_call (ev : Event) : bool :=
  match ev with CompletionCall _ _ => true | _ => false end.
Definition completion_attempts (tr : list Event) : nat :=
  length (List.filter is_completion_call tr).

(** What one failed attempt of the gateway loop leaves in the trace. *)
Definition failed_post (req : PostRequest) (e : Exn) : list Event :=
  [PostCall req (Raises e); Printed (ProxyReplyRetrying e)].

(** The request that [get_glm_reply] sends for [model]. *)
Definition glm_request (model query : string) (temperature : Q)
    (max_tokens seed : Z) : PostRequest :=
  if String.eqb model "ChatGLM2" then ChatGLM2_request query temperature max_tokens seed
  else chat_request model query temperature max_tokens.

(** A gateway whose answer depends on how many requests it has received so
    far and not on what they hold. *)
Definition answers_by_turn (env : Env) : Prop :=
  ∀ tr tr' req req',
    post_attempts tr = post_attempts tr' → env_post env tr req = env_post env tr' req'.

(** A gateway that cannot be reached, next to a hosted API that fails. *)
Definition gateway_down : Env :=
  {| env_completions := fun _ _ => Raises (OtherException "Timeout");
     env_post := fun _ _ => Raises (OtherException "ConnectionError") |}.

(** *** The hosted API *)

(** [chatgpt]'s request for [cnt] samples. *)
Definition chat_completion_request (messages : list ChatMessage) (model : string)
    (temperature : Q) (max_tokens : Z) (stop : option string) (cnt : Z) : ChatRequest :=
  {| cr_model := model; cr_messages := messages; cr_temperature := temperature;
     cr_max_tokens := max_tokens; cr_n := cnt; cr_stop := stop |}.

(** The sample counts of the calls that serve [n] samples under the
    ceiling of 20: there are [ceiling (n / 20)] calls, and call number [k]
    (from 0) asks for the smaller of 20 and what is left, [n - 20 k]. *)
Definition ceil_div20 (n : Z) : Z := ((n + 19) / 20)%Z.
Definition chunk_sizes (n : Z) : list Z :=
  map (fun k => Z.min 20 (n - 20 * Z.of_nat k)) (seq 0 (Z.to_nat (ceil_div20 n))).

(** The world after a successful provider call has been accounted. *)
Definition record_usage (u : Usage) (w : World) : World :=
  {| completion_tokens := completion_tokens w + usage_completion_tokens u;
     prompt_tokens := prompt_tokens w + usage_prompt_tokens u;
     trace := trace w |}.

(** The usage that the successful hosted-API calls of a trace reported. *)
Definition reported (ev : Event) : Usage :=
  match ev with
  | CompletionCall _ (Returns res) => usage res
  | _ => {| usage_completion_tokens := 0; usage_prompt_tokens := 0 |}
  end.
Fixpoint completion_sum (tr : list Event) : N :=
  match tr with
  | [] => 0
  | ev :: rest => usage_completion_tokens (reported ev) + completion_sum rest
  end.
Fixpoint prompt_sum (tr : list Event) : N :=
  match tr with
  | [] => 0
  | ev :: rest => usage_prompt_tokens (reported ev) + prompt_sum rest
  end.

(** A hosted API that answers every request with as many copies of [text]
    as samples are asked for, and reports 7 and 3 tokens. *)
Definition echo_api (text : string) : Env :=
  {| env_completions := fun _ req =>
       Returns {| choices := replicate (Z.to_nat (cr_n req)) text;
                  usage := {| usage_completion_tokens := 7;
                              usage_prompt_tokens := 3 |} |};
     env_post := fun _ _ => Raises (OtherException "ConnectionError") |}.

(** A hosted API that fails the first [k] times it is invoked and answers
    like [echo_api] from then on. *)
Definition flaky_api (k : nat) (text : string) : Env :=
  {| env_completions := fun tr req =>
       if (completion_attempts tr <? k)%nat then Raises (OtherException "Timeout")
       else env_completions (echo_api text) tr req;
     env_post := fun _ _ => Raises (OtherException "ConnectionError") |}.

(** *** Streamed events *)

(** What the decoder keeps of a line that follows the finish marker: the
    payload of a [data: ] line, when it is not empty. *)
Definition data_payload (line : string) : option string :=
  if startswith line "data: " && (0 <? len (slice_from 6 line))%nat
  then Some (slice_from 6 line)
  else None.

(** The lines behind the first line that starts with [event: finish]. *)
Fixpoint after_finish (lines : list string) : list string :=
  match lines with
  | [] => []
  | line :: rest =>
      if startswith line "event: finish" then rest else after_finish rest
  end.

Definition extract_data_spec (text : string) : list string :=
  omap data_payload (after_finish (split text nl)).

(** The stream [event: finish], [data: abc], [data: ], [data: def]. *)
Definition finish_stream : string :=
  "event: finish" +:+ nl +:+ "data: abc" +:+ nl +:+ "data: " +:+ nl +:+ "data: def".

(** A stream whose marker line is longer than [event: finish]. *)
Definition finished_stream : string :=
  "event: finished" +:+ nl +:+ "data: x".

(** A stream without a marker line. *)
Definition unfinished_stream : string :=
  "event: add" +:+ nl +:+ "data: abc" +:+ nl +:+ "data: def".

(** *** Sequences of calls into the module *)

(** A call of one of the functions of the module, with its arguments. *)
Inductive Call :=
| CallGpt (prompt model : string) (temperature : Q) (max_tokens n : Z)
          (stop : option string)
| CallChatgpt (messages : list ChatMessage) (model : string) (temperature : Q)
              (max_tokens n : Z) (stop : option string)
| CallGptUsage (backend : string)
| CallExtractData (text : string)
| CallGlm (prompt model : string) (temperature : Q) (max_tokens seed : Z)
| CallGetGlmReply (query model : string) (temperature : Q) (max_tokens seed : Z).

(** The world after a call, whether it returned or raised. *)
Definition run_call (env : Env) (c : Call) (w : World) : World :=
  match c with
  | CallGpt prompt model temperature max_tokens n stop =>
      (gpt env prompt model temperature max_tokens n stop w).2
  | CallChatgpt messages model temperature max_tokens n stop =>
      (chatgpt env messages model temperature max_tokens n stop w).2
  | CallGptUsage backend => (gpt_usage backend w).2
  | CallExtractData text => let _ := extract_data text in w
  | CallGlm prompt model temperature max_tokens seed =>
      (glm env prompt model temperature max_tokens seed w).2
  | CallGetGlmReply query model temperature max_tokens seed =>
      (get_glm_reply env query model temperature max_tokens seed w).2
  end.

Definition run_calls (env : Env) (calls : list Call) (w : World) : World :=
  fold_left (fun w c => run_call env c w) calls w.

(** [w'] comes after [w]: the trace has grown by [new], and each counter
    by what the successful hosted-API calls of [new] reported. *)
Definition advances_by (new : list Event) (w w' : World) : Prop :=
  trace w' = trace w ++ new
  ∧ completion_tokens w' = (completion_tokens w + completion_sum new)%N
  ∧ prompt_tokens w' = (prompt_tokens w + prompt_sum new)%N.

Definition advances (w w' : World) : Prop := ∃ new, advances_by new w w'.

(** A computation that only ever advances the world. *)
Definition grows {A} (m : M World A) : Prop := ∀ w, advances w (m w).2.

(** The counters agree with the trace. *)
Definition accounted (w : World) : Prop :=
  completion_tokens w = completion_sum (trace w)
  ∧ prompt_tokens w = prompt_sum (trace w).

(** A session: two samples asked of a hosted API that fails once, a look at
    the usage, two calls through the gateway. *)
Definition sample_session : list Call :=
  [CallGpt "hello" BASE_MODEL_GPT (7 # 10) 1000 2 None;
   CallGptUsage BASE_MODEL_GPT;
   CallChatgpt [] BASE_MODEL_GPT (7 # 10) 1000 45 None;
   CallGlm "hello" BASE_MODEL_GLM (7 # 10) 1000 170;
   CallExtractData finish_stream].

(** *** The gateway, further *)

(** The world after the gateway loop has failed with [es], one after the
    other. *)
Definition after_failed_posts (req : PostRequest) (es : list Exn) (w : World) : World :=
  logs (concat (map (failed_post req) es)) w.

(** Asked for [req] from [w] on, the gateway raises [es], one exception per
    invocation, and answers the next invocation with [response]. *)
Definition fails_then_answers (env : Env) (req : PostRequest) (es : list Exn)
    (response : HttpResponse) (w : World) : Prop :=
  (∀ i e, es !! i = Some e →
          env_post env (trace (after_failed_posts req (take i es) w)) req = Raises e)
  ∧ env_post env (trace (after_failed_posts req es w)) req = Returns response.

(** What the branch of [model] does with the response. *)
Definition glm_decode (model : string) : option HttpResponse → M World (list string) :=
  if String.eqb model "ChatGLM2" then ChatGLM2_decode
  else if String.eqb model "GLM4" then GLM4_decode
  else GLM3_decode.

(** A gateway that cannot be reached the first [k] times and answers with
    [body] from then on. *)
Definition flaky_gateway (k : nat) (body : string) : Env :=
  {| env_completions := fun _ _ => Raises (OtherException "Timeout");
     env_post := fun tr _ =>
       if (post_attempts tr <? k)%nat then Raises (OtherException "ConnectionError")
       else Returns {| resp_content := body |} |}.

(** A body that is not UTF-8: the single byte FF. *)
Definition broken_body : string := String "255" EmptyString.

(** The diagnostics of failed rounds of [gpt] in a trace. *)
Definition is_gpt_failure (ev : Event) : bool :=
  match ev with Printed (GptReplyError _) => true | _ => false end.
Definition gpt_failures (tr : list Event) : nat :=
  length (List.filter is_gpt_failure tr).

(** A hosted API that answers [k] calls like [echo_api] and fails from then
    on. *)
Definition tiring_api (k : nat) (text : string) : Env :=
  {| env_completions := fun tr req =>
       if (completion_attempts tr <? k)%nat then env_completions (echo_api text) tr req
       else Raises (OtherException "RateLimit");
     env_post := fun _ _ => Raises (OtherException "ConnectionError") |}.

End Spec.

Module ClassifierSpec.
Import PyStr Classifier.

(** The generator kinds that [__init_model__] names. *)
Definition supported_kinds : list string := ["local"; "aisuite"; "request"].

(** The generator type that a configuration asks for, as written. *)
Definition configured_generator_type (config : gmap string string) : string :=
  default "local" (config !! "generator_type").

(** The events that touch the output: [os.makedirs] and [to_json]. *)
Definition is_write {G} (ev : Event G) : bool :=
  match ev with
  | MakeDirs _ _ | ToJson _ _ _ => true
  | _ => false
  end.
Definition writes {G} (tr : list (Event G)) : bool := existsb is_write tr.

(** The schema fault of line 88. *)
Definition output_key_fault (output_key : string) : Exn :=
  ValueError
    "Found {} in the dataframe, which would overwrite an existing column. Please use a different output_key."
    [ArgStr output_key].

(** The cell of row [idx] in column [col]; [None] when it holds no value. *)
Definition cell (df : DataFrame) (idx : nat) (col : string) : option Json :=
  rows df !! idx ≫= fun r => r !! col.

(** A response that is not JSON: [json.loads] raises [JSONDecodeError]. *)
Definition not_json {G} (env : Env G) (classification_str : string) : Prop :=
  env_json_loads env classification_str = Raises JSONDecodeError.

(** The frame stores [v] as it is given, in whatever cell. *)
Definition stores {G} (env : Env G) (v : Json) : Prop :=
  ∀ tr df idx col, env_at_set env tr df idx col v = Stored v.

(** What the handlers of lines 80-84 print for a fault of a row. *)
Definition row_diagnostic (classification_str : string) (e : Exn) : Diagnostic :=
  match e with
  | JSONDecodeError => JsonParseWarning classification_str
  | _ => ClassificationParseError e
  end.

(** What line 76 makes of a response: [json.loads] of it, the empty dict for
    an empty one. *)
Definition parsed {G} (env : Env G) (classification_str : string) : Outcome Json :=
  if truthy (Some classification_str) then env_json_loads env classification_str
  else Returns (JObj []).

(** The world of [run] once the frame has been read and the back end has
    answered. *)
Definition answered {G} (self : QuestionCategoryClassifier G) (df : DataFrame)
    (prompts responses : list string) (w : World G) : World G :=
  log (GenerateText prompts (Returns responses))
    (set_dataframe df (log (ReadJson (input_file self) (Returns df)) w)).

(** *** A sample batch *)

Definition math_json : string :=
  "{" +:+ dq +:+ "primary_category" +:+ dq +:+ ": " +:+ dq +:+ "math" +:+ dq +:+ ", "
  +:+ dq +:+ "secondary_category" +:+ dq +:+ ": " +:+ dq +:+ "arithmetic" +:+ dq +:+ "}".

(** [json.loads] on the strings that the samples use. *)
Definition sample_json_loads (s : string) : Outcome Json :=
  if String.eqb s "{}" then Returns (JObj [])
  else if String.eqb s math_json then
    Returns (JObj [("primary_category", JStr "math");
                   ("secondary_category", JStr "arithmetic")])
  else Raises JSONDecodeError.

(** Two questions, one per line of the input file. *)
Definition sample_frame : DataFrame :=
  {| columns := ["question"];
     rows := [{["question" := JStr "2+2?"]}; {["question" := JStr "3*3?"]}] |}.

(** A world where every collaborator works, the frame stores every value
    as it is given, and the back end answers the batch with [responses];
    the generators are units. *)
Definition sample_env (responses : list string) : Env unit :=
  {| env_generator_init := fun _ _ _ => Returns tt;
     env_question_synthesis_prompt := fun _ => Returns " Classify the question. ";
     env_read_json := fun _ _ => Returns sample_frame;
     env_generate_text_from_input := fun _ _ _ => Returns responses;
     env_json_loads := sample_json_loads;
     env_at_set := fun _ _ _ _ v => Stored v;
     env_makedirs := fun _ _ => Returns tt;
     env_to_json := fun _ _ _ => Returns tt |}.

Definition sample_config (generator_type output_key : string) : gmap string string :=
  {["input_file" := "in/questions.jsonl";
    "output_file" := "out/labels.jsonl";
    "generator_type" := generator_type;
    "output_key" := output_key]}.

(** The classifier that [__init__] builds from [sample_config]. *)
Definition sample_classifier (output_key : string) : QuestionCategoryClassifier unit :=
  {| config := sample_config "local" output_key;
     input_file := "in/questions.jsonl";
     output_file := "out/labels.jsonl";
     input_key := "question";
     output_key := output_key;
     model := tt |}.

(** *** Further reference definitions *)

(** The two columns that the loop of [run] assigns. *)
Definition category_columns : list string := ["primary_category"; "secondary_category"].

(** A frame and what the loop can make of it: the rows are as many, the
    cells outside the two category columns are the same, and the columns
    are the old ones with category columns behind them. *)
Definition kept (df df' : DataFrame) : Prop :=
  length (rows df') = length (rows df)
  ∧ (∀ k col, col ∉ category_columns → cell df' k col = cell df k col)
  ∧ (∃ added, columns df' = columns df ++ added
              ∧ ∀ c, c ∈ added → c ∈ category_columns).

(** The name under which [__init_model__] knows a generator class. *)
Definition kind_name (kind : GeneratorKind) : string :=
  match kind with
  | LocalModelGenerator => "local"
  | APIGenerator_aisuite => "aisuite"
  | APIGenerator_request => "request"
  end.

(** A response that yields a dict with the fields [fields]. *)
Definition is_object {G} (env : Env G) (classification_str : string)
    (fields : list (string * Json)) : Prop :=
  parsed env classification_str = Returns (JObj fields).

(** A response that yields no dict: [json.loads] raises, or returns a list,
    a number, a string, a boolean or null. *)
Definition no_object {G} (env : Env G) (classification_str : string) : Prop :=
  ∀ fields, parsed env classification_str ≠ Returns (JObj fields).

(** Bytes without white space at their head; [backwards] as for
    [skip_spaces]. *)
Definition no_space_ahead (backwards : bool) (bs : list ascii) : bool :=
  match bs with
  | [] => true
  | a :: bs1 =>
      negb (space1 a)
      && match bs1 with
         | [] => true
         | b :: bs2 =>
             negb (if backwards then space2 b a else space2 a b)
             && match bs2 with
                | [] => true
                | c :: _ => negb (if backwards then space3 c b a else space3 a b c)
                end
         end
  end.

(** A text without white space at either end. *)
Definition stripped (s : string) : Prop := lstrip s = s ∧ rstrip s = s.

(** A prompt between an ideographic space (U+3000) and a next-line mark
    (U+0085) with a line feed. *)
Definition framed_prompt : string :=
  String "227" (String "128" (String "128" EmptyString))
  +:+ "Classify the question."
  +:+ String "194" (String "133" EmptyString) +:+ nl.

(** A world like [sample_env] where the input file cannot be read. *)
Definition unreadable_env (responses : list string) : Env unit :=
  {| env_generator_init := fun _ _ _ => Returns tt;
     env_question_synthesis_prompt := fun _ => Returns " Classify the question. ";
     env_read_json := fun _ _ => Raises (OtherException "FileNotFoundError");
     env_generate_text_from_input := fun _ _ _ => Returns responses;
     env_json_loads := sample_json_loads;
     env_at_set := fun _ _ _ _ v => Stored v;
     env_makedirs := fun _ _ => Returns tt;
     env_to_json := fun _ _ _ => Returns tt |}.

(** A classifier like [sample_classifier] that reads the column [input_key]. *)
Definition sample_classifier_reading (input_key : string) : QuestionCategoryClassifier unit :=
  {| config := sample_config "local" "label";
     input_file := "in/questions.jsonl";
     output_file := "out/labels.jsonl";
     input_key := input_key;
     output_key := "label";
     model := tt |}.

(** A world like [sample_env] whose template frames the prompt with white
    space beyond ASCII. *)
Definition framed_env : Env unit :=
  {| env_generator_init := fun _ _ _ => Returns tt;
     env_question_synthesis_prompt := fun _ => Returns framed_prompt;
     env_read_json := fun _ _ => Returns sample_frame;
     env_generate_text_from_input := fun _ _ _ => Returns [];
     env_json_loads := sample_json_loads;
     env_at_set := fun _ _ _ _ v => Stored v;
     env_makedirs := fun _ _ => Returns tt;
     env_to_json := fun _ _ _ => Returns tt |}.

(** [json.loads] on the samples and on the list [[1, 2]]. *)
Definition listing_json_loads (s : string) : Outcome Json :=
  if String.eqb s "[1, 2]" then Returns (JArr [JInt 1; JInt 2]) else sample_json_loads s.

(** A world like [sample_env] whose [json.loads] knows the list. *)
Definition listing_env (responses : list string) : Env unit :=
  {| env_generator_init := fun _ _ _ => Returns tt;
     env_question_synthesis_prompt := fun _ => Returns " Classify the question. ";
     env_read_json := fun _ _ => Returns sample_frame;
     env_generate_text_from_input := fun _ _ _ => Returns responses;
     env_json_loads := listing_json_loads;
     env_at_set := fun _ _ _ _ v => Stored v;
     env_makedirs := fun _ _ => Returns tt;
     env_to_json := fun _ _ _ => Returns tt |}.

(** The two rows of [sample_frame]. *)
Definition first_row : gmap string Json := {["question" := JStr "2+2?"]}.
Definition second_row : gmap string Json := {["question" := JStr "3*3?"]}.

End ClassifierSpec.

(* ===================================================================== *)
(** * Properties *)
(* ===================================================================== *)

(** ** Facts about the string primitives *)

Section PyStrFacts.
Import PyStr.

Lemma str_app_nil_l (s : string) : EmptyString +:+ s = s.
Proof. reflexivity. Qed.

Lemma str_app_cons (c : ascii) (a b : string) : String c a +:+ b = String c (a +:+ b).
Proof. reflexivity. Qed.

Lemma str_app_assoc (a b c : string) : (a +:+ b) +:+ c = a +:+ b +:+ c.
Proof.
  induction a as [|x a IH]; [reflexivity|].
  rewrite !str_app_cons. by rewrite IH.
Qed.

Lemma len_app (a b : string) : len (a +:+ b) = len a + len b.
Proof.
  induction a as [|x a IH]; [reflexivity|].
  rewrite str_app_cons. unfold len in *. simpl. by rewrite IH.
Qed.

Lemma startswith_app (p r : string) : startswith (p +:+ r) p = true.
Proof.
  unfold startswith. induction p as [|x p IH]; simpl.
  - by destruct r.
  - by destruct (ascii_dec x x).
Qed.

Lemma startswith_inv (s p : string) :
  startswith s p = true → ∃ r, s = p +:+ r.
Proof.
  unfold startswith. revert s. induction p as [|x p IH]; intros s H.
  - by exists s.
  - destruct s as [|y s]; simpl in H; [done|].
    destruct (ascii_dec x y) as [->|]; [|done].
    destruct (IH _ H) as [r ->]. by exists r.
Qed.

Lemma slice_from_app (p r : string) : slice_from (len p) (p +:+ r) = r.
Proof.
  induction p as [|x p IH]; [by destruct r|].
  rewrite str_app_cons. exact IH.
Qed.

Lemma startswith_cut (s p : string) :
  startswith s p = true → s = p +:+ slice_from (len p) s.
Proof.
  intros [r ->]%startswith_inv. by rewrite slice_from_app.
Qed.

Lemma find_sep_unfold (sep s : string) :
  find_sep sep s =
    if startswith s sep then Some (EmptyString, slice_from (len sep) s)
    else match s with
         | EmptyString => None
         | String c s' =>
             match find_sep sep s' with
             | Some (a, b) => Some (String c a, b)
             | None => None
             end
         end.
Proof. by destruct s. Qed.

(** What [find_sep] returns is a cut of the text around the separator. *)
Lemma find_sep_Some (sep s a b : string) :
  find_sep sep s = Some (a, b) → s = a +:+ sep +:+ b.
Proof.
  revert a b. induction s as [|c s IH]; intros a b; rewrite find_sep_unfold.
  - destruct (startswith EmptyString sep) eqn:Hp; [|done].
    intros [= <- <-]. rewrite str_app_nil_l. by apply startswith_cut.
  - destruct (startswith (String c s) sep) eqn:Hp.
    + intros [= <- <-]. rewrite str_app_nil_l. by apply startswith_cut.
    + destruct (find_sep sep s) as [[a' b']|] eqn:Hf; [|done].
      intros [= <- <-]. rewrite str_app_cons. f_equal. by apply IH.
Qed.

(** ... and the cut is at the first occurrence. *)
Lemma find_sep_first (sep s a b a' b' : string) :
  find_sep sep s = Some (a, b) → s = a' +:+ sep +:+ b' → (len a ≤ len a')%nat.
Proof.
  revert a b a'. induction s as [|c s IH]; intros a b a'; rewrite find_sep_unfold.
  - destruct (startswith EmptyString sep); [|done].
    intros [= <- <-] _. unfold len; simpl; lia.
  - destruct (startswith (String c s) sep) eqn:Hp.
    + intros [= <- <-] _. unfold len; simpl; lia.
    + destruct (find_sep sep s) as [[a0 b0]|] eqn:Hf; [|done].
      intros [= <- <-] Hs. destruct a' as [|c' a'].
      * rewrite str_app_nil_l in Hs. rewrite Hs, startswith_app in Hp. done.
      * rewrite str_app_cons in Hs. injection Hs as -> Hs.
        specialize (IH _ _ _ eq_refl Hs). unfold len in *; simpl; lia.
Qed.

Lemma find_sep_None (sep s : string) :
  find_sep sep s = None ↔ ¬ occurs sep s.
Proof.
  split.
  - induction s as [|c s IH]; rewrite find_sep_unfold; intros H [pre [post Hs]].
    + destruct (startswith EmptyString sep) eqn:Hp; [done|].
      destruct pre; [|done]. rewrite str_app_nil_l in Hs.
      rewrite Hs, startswith_app in Hp. done.
    + destruct (startswith (String c s) sep) eqn:Hp; [done|].
      destruct pre as [|c' pre].
      * rewrite str_app_nil_l in Hs. rewrite Hs, startswith_app in Hp. done.
      * rewrite str_app_cons in Hs. injection Hs as -> Hs.
        destruct (find_sep sep s) as [[a b]|]; [done|].
        apply IH; [done|]. by exists pre, post.
  - intros Hno. destruct (find_sep sep s) as [[a b]|] eqn:Hf; [|done].
    exfalso. apply Hno. exists a, b. by apply find_sep_Some.
Qed.

Lemma contains_occurs (sep s : string) : contains s sep = true ↔ occurs sep s.
Proof.
  unfold contains. destruct (find_sep sep s) as [[a b]|] eqn:Hf.
  - split; [|done]. intros _. exists a, b. by apply find_sep_Some.
  - split; [done|]. intros Ho. by apply find_sep_None in Hf.
Qed.

Lemma find_sep_shorter (sep s a b : string) :
  sep ≠ EmptyString → find_sep sep s = Some (a, b) → (len b < len s)%nat.
Proof.
  intros Hsep Hf. apply find_sep_Some in Hf as ->.
  rewrite !len_app. destruct sep; [done|]. unfold len; simpl; lia.
Qed.

Lemma split_fuel_enough (sep : string) (f1 f2 : nat) (s : string) :
  sep ≠ EmptyString → (len s ≤ f1)%nat → (len s ≤ f2)%nat →
  split_fuel f1 sep s = split_fuel f2 sep s.
Proof.
  intros Hsep. revert f2 s. induction f1 as [|f1 IH]; intros f2 s H1 H2.
  - destruct f2 as [|f2]; [done|]. simpl.
    destruct (find_sep sep s) as [[a b]|] eqn:Hf; [|done].
    apply find_sep_shorter in Hf; [lia|done].
  - simpl. destruct (find_sep sep s) as [[a b]|] eqn:Hf.
    + pose proof (find_sep_shorter _ _ _ _ Hsep Hf) as Hlt.
      destruct f2 as [|f2]; [lia|]. simpl. rewrite Hf. f_equal.
      apply IH; lia.
    + destruct f2; simpl; by rewrite Hf.
Qed.

(** The equation of [str.split]: the fuel of [split] never runs out. *)
Lemma split_unfold (s sep : string) :
  sep ≠ EmptyString →
  split s sep = match find_sep sep s with
                | None => [s]
                | Some (a, b) => a :: split b sep
                end.
Proof.
  intros Hsep. unfold split. destruct (len s) as [|n] eqn:Hn; simpl.
  - destruct (find_sep sep s) as [[a b]|] eqn:Hf; [|done].
    apply find_sep_shorter in Hf; [lia|done].
  - destruct (find_sep sep s) as [[a b]|] eqn:Hf; [|done].
    f_equal. pose proof (find_sep_shorter _ _ _ _ Hsep Hf).
    apply split_fuel_enough; [done|lia|lia].
Qed.

Lemma split_not_nil (s sep : string) : split s sep ≠ [].
Proof. unfold split. destruct (len s); simpl; by destruct (find_sep sep s) as [[? ?]|]. Qed.

Lemma split_absent (s sep : string) : ¬ occurs sep s → split s sep = [s].
Proof.
  intros H%find_sep_None. unfold split.
  destruct (len s); simpl; by rewrite H.
Qed.

(** A part of a text holds no separator that the text does not hold. *)
Lemma occurs_inside (sep pre s post : string) :
  occurs sep s → occurs sep (pre +:+ s +:+ post).
Proof.
  intros [a [b ->]]. exists (pre +:+ a), (b +:+ post).
  by rewrite !str_app_assoc.
Qed.

End PyStrFacts.

(** ** The streamed-event decoder *)

Section ExtractData.
Import PyStr Model Spec.

Lemma finish_not_data (line : string) :
  startswith line "event: finish" = true → data_payload line = None.
Proof.
  intros [r ->]%startswith_inv. reflexivity.
Qed.

Lemma extract_loop_cons (line : string) (rest : list string) (b : bool)
    (acc : list string) :
  extract_loop (line :: rest) b acc =
    if startswith line "event: finish" then extract_loop rest true acc
    else if b && startswith line "data: " then
           if (0 <? len (slice_from 6 line))%nat
           then extract_loop rest b (acc ++ [slice_from 6 line])
           else extract_loop rest b acc
         else extract_loop rest b acc.
Proof. reflexivity. Qed.

Lemma omap_payload_cons (line : string) (rest : list string) :
  omap data_payload (line :: rest) =
    match data_payload line with
    | Some p => p :: omap data_payload rest
    | None => omap data_payload rest
    end.
Proof. reflexivity. Qed.

Lemma extract_loop_extracting (lines acc : list string) :
  extract_loop lines true acc = acc ++ omap data_payload lines.
Proof.
  revert acc. induction lines as [|line rest IH]; intros acc.
  - simpl. by rewrite app_nil_r.
  - rewrite extract_loop_cons, omap_payload_cons.
    destruct (startswith line "event: finish") eqn:Hfin.
    + rewrite (finish_not_data _ Hfin). apply IH.
    + unfold data_payload. rewrite andb_true_l.
      destruct (startswith line "data: "); [|apply IH].
      rewrite andb_true_l.
      destruct (0 <? len (slice_from 6 line))%nat; [|apply IH].
      rewrite IH. by rewrite <- app_assoc.
Qed.

Lemma extract_loop_waiting (lines acc : list string) :
  extract_loop lines false acc = acc ++ omap data_payload (after_finish lines).
Proof.
  revert acc. induction lines as [|line rest IH]; intros acc.
  - simpl. by rewrite app_nil_r.
  - rewrite extract_loop_cons. simpl after_finish.
    destruct (startswith line "event: finish"); [apply extract_loop_extracting|].
    rewrite andb_false_l. apply IH.
Qed.

Lemma after_finish_none (lines : list string) :
  (∀ line, line ∈ lines → startswith line "event: finish" = false) →
  after_finish lines = [].
Proof.
  induction lines as [|line rest IH]; intros H; simpl; [done|].
  rewrite (H line) by (apply elem_of_cons; by left).
  apply IH. intros l Hl. apply H. apply elem_of_cons. by right.
Qed.

(** C5, as the code has it: [extract_data] starts to extract behind the
    first line that STARTS WITH [event: finish] (the claim says: is equal
    to), then keeps, in order, the payload of every following [data: ]
    line whose payload is not empty, and drops everything before the
    marker; on the stream [event: finish / data: abc / data:  / data: def]
    it returns [abc; def]; on a text with no line that starts with
    [event: finish] it returns the empty list. *)
Theorem extract_data_after_finish_prefix :
  (∀ text, extract_data text = extract_data_spec text)
  ∧ extract_data finish_stream = ["abc"; "def"]
  ∧ (∀ text,
       (∀ line, line ∈ split text nl → startswith line "event: finish" = false) →
       extract_data text = []).
Proof.
  split; [|split].
  - intros text. unfold extract_data, extract_data_spec.
    by rewrite extract_loop_waiting.
  - reflexivity.
  - intros text H. unfold extract_data.
    rewrite extract_loop_waiting, (after_finish_none _ H). reflexivity.
Qed.

Lemma extract_data_after_finish_prefix_witness :
  extract_data unfinished_stream = [].
Proof.
  apply (proj2 (proj2 extract_data_after_finish_prefix)).
  intros line Hin.
  change (split unfinished_stream nl) with ["event: add"; "data: abc"; "data: def"] in Hin.
  repeat (apply elem_of_cons in Hin as [->|Hin]; [reflexivity|]).
  by apply elem_of_nil in Hin.
Defined.

(** C5 as it is stated fails: no line of [finished_stream] is equal to
    [event: finish], and its data line is extracted all the same. *)
Lemma extract_data_finish_equal_counterexample :
  (∀ line, line ∈ split finished_stream nl → line ≠ "event: finish")
  ∧ extract_data finished_stream = ["x"].
Proof.
  split; [|reflexivity].
  intros line Hin.
  change (split finished_stream nl) with ["event: finished"; "data: x"] in Hin.
  repeat (apply elem_of_cons in Hin as [->|Hin]; [done|]).
  by apply elem_of_nil in Hin.
Qed.

End ExtractData.

(** ** The delimited-field decoders *)

Section DelimitedFields.
Import PyStr Model Spec.

Lemma content_marker_not_empty : content_marker ≠ EmptyString.
Proof. done. Qed.

Lemma role_marker_not_empty : role_marker ≠ EmptyString.
Proof. done. Qed.

(** Without the leading marker [split] yields one piece and [[1]] fails. *)
Lemma GLM4_content_no_leading (reply : string) :
  ¬ occurs content_marker reply → GLM4_content reply = Raises IndexError.
Proof.
  intros H. unfold GLM4_content. by rewrite (split_absent _ _ H).
Qed.

(** With the leading marker and without the terminating one, [[1]] is the
    text up to the next leading marker and [[0]] is all of it. *)
Lemma GLM4_content_no_terminating (reply pre rest : string) :
  find_sep content_marker reply = Some (pre, rest) →
  ¬ occurs role_marker reply →
  GLM4_content reply = Returns (before_first content_marker rest).
Proof.
  intros Hf Hno. unfold GLM4_content.
  rewrite (split_unfold reply) by apply content_marker_not_empty.
  rewrite Hf. rewrite (split_unfold rest) by apply content_marker_not_empty.
  assert (¬ occurs role_marker (before_first content_marker rest)) as Hseg.
  { intros Hin. apply Hno. apply find_sep_Some in Hf as ->.
    unfold before_first in Hin.
    destruct (find_sep content_marker rest) as [[a b]|] eqn:Hr.
    - apply find_sep_Some in Hr as ->.
      replace (pre +:+ content_marker +:+ a +:+ content_marker +:+ b)
        with ((pre +:+ content_marker) +:+ a +:+ (content_marker +:+ b))
        by (by rewrite !str_app_assoc).
      by apply occurs_inside.
    - replace (pre +:+ content_marker +:+ rest)
        with ((pre +:+ content_marker) +:+ rest +:+ EmptyString).
      + by apply occurs_inside.
      + rewrite str_app_assoc. do 2 f_equal.
        clear. induction rest as [|c r IH]; [done|].
        rewrite str_app_cons. by rewrite IH. }
  unfold before_first in *.
  destruct (find_sep content_marker rest) as [[a b]|]; simpl;
    by rewrite (split_absent _ _ Hseg).
Qed.

Lemma get_glm_reply_GLM4_eq (env : Env) (query : string) (temperature : Q)
    (max_tokens seed : Z) :
  get_glm_reply env query "GLM4" temperature max_tokens seed
  = get_glm_reply_GLM4 env query temperature max_tokens.
Proof. reflexivity. Qed.

Lemma get_glm_reply_GLM3_eq (env : Env) (query : string) (temperature : Q)
    (max_tokens seed : Z) :
  get_glm_reply env query "GLM3" temperature max_tokens seed
  = get_glm_reply_GLM3 env query temperature max_tokens.
Proof. reflexivity. Qed.

(** The two branches are the same text but for the request. *)
Lemma get_glm_reply_chat (env : Env) (model query : string) (temperature : Q)
    (max_tokens seed : Z) (w : World) :
  model = "GLM4" ∨ model = "GLM3" →
  get_glm_reply env query model temperature max_tokens seed w
  = bind (post_loop env 3 (chat_request model query temperature max_tokens))
         (GLM4_decode) w.
Proof. by intros [-> | ->]. Qed.

(** C1, as the code has it.  Let the GLM4 or GLM3 branch receive a
    response whose body decodes to [reply].  When the LEADING marker is
    absent from [reply] the call prints a diagnostic and returns the empty
    list.  When the leading marker is there and the TERMINATING marker is
    absent, the call returns the text behind the first leading marker, up
    to the next leading marker if there is one, split on newlines: a list
    that is never empty (the claim says: the empty list). *)
Theorem glm_reply_missing_marker (env : Env) (model query : string)
    (temperature : Q) (max_tokens seed : Z) (w w' : World)
    (response : HttpResponse) (reply : string) :
  model = "GLM4" ∨ model = "GLM3" →
  post_loop env 3 (chat_request model query temperature max_tokens) w
    = (Returns (Some response), w') →
  decode_utf8 (resp_content response) = Returns reply →
  (¬ occurs content_marker reply →
     get_glm_reply env query model temperature max_tokens seed w
     = (Returns [], log (Printed (DecodeReplyError IndexError)) w'))
  ∧ (occurs content_marker reply → ¬ occurs role_marker reply →
     ∃ pre rest,
       reply = pre +:+ content_marker +:+ rest
       ∧ find_sep content_marker reply = Some (pre, rest)
       ∧ get_glm_reply env query model temperature max_tokens seed w
         = (Returns (split (before_first content_marker rest) nl), w')
       ∧ split (before_first content_marker rest) nl ≠ []).
Proof.
  intros Hmodel Hpost Hdec.
  assert (get_glm_reply env query model temperature max_tokens seed w
          = match GLM4_content reply with
            | Raises e => (Returns [], log (Printed (DecodeReplyError e)) w')
            | Returns content => (Returns (split content nl), w')
            end) as Hrun.
  { rewrite (get_glm_reply_chat _ _ _ _ _ _ _ Hmodel).
    unfold bind at 1. rewrite Hpost. unfold GLM4_decode, bind, lift_outcome.
    rewrite Hdec. by destruct (GLM4_content reply). }
  rewrite Hrun. split.
  - intros Hno. by rewrite (GLM4_content_no_leading _ Hno).
  - intros Hlead Hno.
    destruct (find_sep content_marker reply) as [[pre rest]|] eqn:Hf.
    + exists pre, rest. split; [by apply find_sep_Some|]. split; [done|].
      rewrite (GLM4_content_no_terminating _ _ _ Hf Hno).
      split; [done|apply split_not_nil].
    + by apply find_sep_None in Hf.
Qed.

Lemma glm_reply_missing_marker_witness :
  get_glm_reply (gateway_answering error_body) "q" "GLM3" (7 # 10) 1000 175 initial_world
  = (Returns [],
     log (Printed (DecodeReplyError IndexError))
       (log (PostCall (GLM3_request "q" (7 # 10) 1000)
               (Returns {| resp_content := error_body |})) initial_world))
  ∧ fst (get_glm_reply (gateway_answering truncated_body) "q" "GLM4" (7 # 10) 1000 175
           initial_world) = Returns ["hello"].
Proof.
  split.
  - refine (proj1 (glm_reply_missing_marker (gateway_answering error_body) "GLM3" "q"
                     (7 # 10) 1000 175 initial_world _
                     {| resp_content := error_body |} error_body _ _ _) _).
    + by right.
    + reflexivity.
    + reflexivity.
    + apply find_sep_None. reflexivity.
  - destruct (proj2 (glm_reply_missing_marker (gateway_answering truncated_body) "GLM4" "q"
                       (7 # 10) 1000 175 initial_world
                       (log (PostCall (GLM4_request "q" (7 # 10) 1000)
                               (Returns {| resp_content := truncated_body |}))
                          initial_world)
                       {| resp_content := truncated_body |} truncated_body
                       (or_introl eq_refl) eq_refl eq_refl))
      as (pre & rest & _ & Hf & Hrun & _).
    + apply contains_occurs. reflexivity.
    + apply find_sep_None. reflexivity.
    + rewrite Hrun. injection Hf as _ <-. reflexivity.
Defined.

(** C1 as it is stated fails: [truncated_body] holds no terminating
    marker, and the GLM4 branch returns the text behind the leading
    marker. *)
Lemma glm_reply_truncated_counterexample :
  ¬ occurs role_marker truncated_body
  ∧ fst (get_glm_reply (gateway_answering truncated_body) "q" "GLM4" (7 # 10) 1000 175
           initial_world) = Returns ["hello"]
  ∧ fst (get_glm_reply (gateway_answering truncated_body) "q" "GLM3" (7 # 10) 1000 175
           initial_world) = Returns ["hello"].
Proof.
  split; [|split]; [|reflexivity|reflexivity].
  apply find_sep_None. reflexivity.
Qed.

End DelimitedFields.

(** ** The bounded retry around the gateway *)

Section GatewayRetry.
Import PyStr Model Spec.

Lemma logs_nil (w : World) : logs [] w = w.
Proof. destruct w. unfold logs. simpl. by rewrite app_nil_r. Qed.

Lemma log_logs (ev : Event) (w : World) : log ev w = logs [ev] w.
Proof. reflexivity. Qed.

Lemma logs_logs (a b : list Event) (w : World) :
  logs b (logs a w) = logs (a ++ b) w.
Proof. unfold logs. simpl. by rewrite app_assoc. Qed.

Lemma post_loop_S (env : Env) (tol : nat) (req : PostRequest) (w : World) :
  post_loop env (S tol) req w =
    match env_post env (trace w) req with
    | Returns response => (Returns (Some response), log (PostCall req (Returns response)) w)
    | Raises e => post_loop env tol req (logs (failed_post req e) w)
    end.
Proof.
  simpl. unfold try_except, bind, requests_post.
  destruct (env_post env (trace w) req); [done|].
  unfold print, modify. by rewrite !log_logs, logs_logs.
Qed.

(** A gateway that never answers uses up the whole allowance, one failed
    attempt after the other. *)
Lemma post_loop_exhausted (env : Env) (tol : nat) (req : PostRequest) (w : World) :
  (∀ tr rq, ∃ e, env_post env tr rq = Raises e) →
  ∃ es, length es = tol
        ∧ post_loop env tol req w
          = (Returns None, logs (concat (map (failed_post req) es)) w).
Proof.
  intros Hdown. revert w. induction tol as [|tol IH]; intros w.
  - exists []. split; [done|]. simpl. by rewrite logs_nil.
  - rewrite post_loop_S. destruct (Hdown (trace w) req) as [e He]. rewrite He.
    destruct (IH (logs (failed_post req e) w)) as (es & Hlen & Hrun).
    exists (e :: es). split; [simpl; by rewrite Hlen|].
    rewrite Hrun, logs_logs. reflexivity.
Qed.

Lemma get_glm_reply_supported (env : Env) (model query : string) (temperature : Q)
    (max_tokens seed : Z) (w : World) :
  model ∈ ["ChatGLM2"; "GLM4"; "GLM3"] →
  ∃ decode,
    decode ∈ [ChatGLM2_decode; GLM4_decode; GLM3_decode]
    ∧ get_glm_reply env query model temperature max_tokens seed w
      = bind (post_loop env 3 (glm_request model query temperature max_tokens seed))
             decode w.
Proof.
  intros Hm. repeat (apply elem_of_cons in Hm as [->|Hm]).
  - exists ChatGLM2_decode. split; [set_solver|reflexivity].
  - exists GLM4_decode. split; [set_solver|reflexivity].
  - exists GLM3_decode. split; [set_solver|reflexivity].
  - by apply elem_of_nil in Hm.
Qed.

(** C3: when [requests.post] raises at every invocation, each of the three
    gateway branches of [get_glm_reply] invokes it exactly 3 times, one
    attempt right after the diagnostic of the one before (the loop holds
    no wait), and then returns the empty list: the call returns, it does
    not raise. *)
Theorem get_glm_reply_gateway_down (env : Env) (query model : string)
    (temperature : Q) (max_tokens seed : Z) (w : World) :
  model ∈ ["ChatGLM2"; "GLM4"; "GLM3"] →
  (∀ tr req, ∃ e, env_post env tr req = Raises e) →
  ∃ e1 e2 e3 w',
    let req := glm_request model query temperature max_tokens seed in
    get_glm_reply env query model temperature max_tokens seed w = (Returns [], w')
    ∧ w' = logs [PostCall req (Raises e1); Printed (ProxyReplyRetrying e1);
                 PostCall req (Raises e2); Printed (ProxyReplyRetrying e2);
                 PostCall req (Raises e3); Printed (ProxyReplyRetrying e3);
                 Printed ProxyReplyError] w
    ∧ post_attempts (trace w') = post_attempts (trace w) + 3.
Proof.
  intros Hm Hdown.
  destruct (get_glm_reply_supported env model query temperature max_tokens seed w Hm)
    as (decode & Hdecode & ->).
  destruct (post_loop_exhausted env 3
              (glm_request model query temperature max_tokens seed) w Hdown)
    as (es & Hlen & Hrun).
  destruct es as [|e1 [|e2 [|e3 [|e4 es]]]]; try discriminate Hlen.
  exists e1, e2, e3. eexists. cbv zeta. split; [|split].
  - unfold bind at 1. rewrite Hrun.
    repeat (apply elem_of_cons in Hdecode as [->|Hdecode]);
      [| | |by apply elem_of_nil in Hdecode];
      simpl; unfold bind, print, modify, ret; rewrite log_logs, logs_logs; reflexivity.
  - reflexivity.
  - unfold post_attempts, logs. simpl trace. rewrite List.filter_app, List.length_app.
    reflexivity.
Qed.

Lemma get_glm_reply_gateway_down_witness :
  fst (get_glm_reply gateway_down "q" "GLM4" (7 # 10) 1000 175 initial_world) = Returns []
  ∧ post_attempts
      (trace (snd (get_glm_reply gateway_down "q" "GLM4" (7 # 10) 1000 175 initial_world)))
    = 3.
Proof.
  destruct (get_glm_reply_gateway_down gateway_down "q" "GLM4" (7 # 10) 1000 175
              initial_world)
    as (e1 & e2 & e3 & w' & Hrun & _ & Hcount).
  - set_solver.
  - intros tr req. by eexists.
  - rewrite Hrun. split; [reflexivity|exact Hcount].
Defined.

End GatewayRetry.

(** ** The two delimited-field branches side by side *)

Section TwoBranches.
Import PyStr Model Spec.

Lemma post_attempts_logs (evs : list Event) (w : World) :
  post_attempts (trace (logs evs w)) = post_attempts (trace w) + post_attempts evs.
Proof.
  unfold post_attempts, logs. simpl trace.
  by rewrite List.filter_app, List.length_app.
Qed.

(** With a gateway that answers by turn, the loop gets the same response
    whatever the request holds. *)
Lemma post_loop_by_turn (env : Env) (tol : nat) (req req' : PostRequest) (w w' : World) :
  answers_by_turn env →
  post_attempts (trace w) = post_attempts (trace w') →
  (post_loop env tol req w).1 = (post_loop env tol req' w').1.
Proof.
  intros Hturn. revert w w'. induction tol as [|tol IH]; intros w w' Hw; [done|].
  rewrite !post_loop_S, (Hturn _ _ req req' Hw).
  destruct (env_post env (trace w') req') as [response|e]; [done|].
  apply IH. rewrite !post_attempts_logs. by rewrite Hw.
Qed.

Lemma GLM4_decode_result (response : option HttpResponse) (w w' : World) :
  (GLM4_decode response w).1 = (GLM4_decode response w').1.
Proof.
  destruct response as [response|]; [|done]. unfold GLM4_decode, bind, lift_outcome.
  destruct (decode_utf8 (resp_content response)) as [reply|]; [|done].
  by destruct (GLM4_content reply).
Qed.

(** C10: on every response the GLM4 branch and the GLM3 branch extract and
    split alike (same list, same diagnostic, same fault on a body that is
    not UTF-8), from the field expression on; the two requests differ in the
    model identifier of the payload and in nothing else; and with a gateway
    whose answers do not depend on what a request holds, the two branches
    return the same result. *)
Theorem glm4_glm3_decoders_agree :
  (∀ reply : string, GLM4_content reply = GLM3_content reply)
  ∧ (∀ (response : option HttpResponse) (w : World),
       GLM4_decode response w = GLM3_decode response w)
  ∧ (∀ (query : string) (temperature : Q) (max_tokens : Z),
       let r4 := GLM4_request query temperature max_tokens in
       let r3 := GLM3_request query temperature max_tokens in
       pr_url r4 = pr_url r3 ∧ pr_headers r4 = pr_headers r3
       ∧ ∃ messages top_p stream,
           pr_data r4 = ChatPayload "glm4-alltools-130b-awq" messages temperature
                          top_p stream max_tokens
           ∧ pr_data r3 = ChatPayload "chatglm3-32b-v0.8" messages temperature
                            top_p stream max_tokens)
  ∧ (∀ (env : Env) (query : string) (temperature : Q) (max_tokens seed : Z) (w : World),
       answers_by_turn env →
       (get_glm_reply env query "GLM4" temperature max_tokens seed w).1
       = (get_glm_reply env query "GLM3" temperature max_tokens seed w).1).
Proof.
  split; [|split; [|split]].
  - reflexivity.
  - reflexivity.
  - intros query temperature max_tokens. simpl. repeat split.
    by eexists _, _, _.
  - intros env query temperature max_tokens seed w Hturn.
    rewrite get_glm_reply_GLM4_eq, get_glm_reply_GLM3_eq.
    unfold get_glm_reply_GLM4, get_glm_reply_GLM3, bind.
    pose proof (post_loop_by_turn env 3 (GLM4_request query temperature max_tokens)
                  (GLM3_request query temperature max_tokens) w w Hturn eq_refl) as Hpost.
    destruct (post_loop env 3 (GLM4_request query temperature max_tokens) w) as [o4 w4].
    destruct (post_loop env 3 (GLM3_request query temperature max_tokens) w) as [o3 w3].
    simpl in Hpost. subst o3. destruct o4 as [response|e]; [|done].
    apply (GLM4_decode_result response w4 w3).
Qed.

Lemma glm4_glm3_decoders_agree_witness :
  (get_glm_reply (gateway_answering complete_body) "q" "GLM4" (7 # 10) 1000 175
     initial_world).1
  = (get_glm_reply (gateway_answering complete_body) "q" "GLM3" (7 # 10) 1000 175
       initial_world).1.
Proof.
  apply (proj2 (proj2 (proj2 glm4_glm3_decoders_agree))).
  intros tr tr' req req' _. reflexivity.
Defined.

End TwoBranches.

(** ** The hosted API: batching *)

Section ChatgptBatches.
Import PyStr Model Spec.

Context (env : Env) (messages : list ChatMessage) (model : string)
        (temperature : Q) (max_tokens : Z) (stop : option string).

Local Abbreviation request := (chat_completion_request messages model temperature max_tokens stop).
Local Abbreviation loop fuel := (chatgpt_loop env fuel messages model temperature max_tokens stop).

(** One round of the loop of [chatgpt]. *)
Lemma chatgpt_loop_round (fuel : nat) (n : Z) (outputs : list string) (w : World) :
  (0 < n)%Z →
  loop (S fuel) n outputs w =
    match env_completions env (trace w) (request (Z.min n 20)) with
    | Returns res =>
        loop fuel (n - Z.min n 20)%Z (outputs ++ choices res)
          (record_usage (usage res)
             (log (CompletionCall (request (Z.min n 20)) (Returns res)) w))
    | Raises e =>
        (Raises e, log (CompletionCall (request (Z.min n 20)) (Raises e)) w)
    end.
Proof.
  intros Hn. simpl. apply Z.gtb_lt in Hn. rewrite Hn.
  unfold bind at 1. unfold completions_with_backoff.
  fold (request (Z.min n 20)).
  destruct (env_completions env (trace w) (request (Z.min n 20))); reflexivity.
Qed.

Lemma chatgpt_loop_done (fuel : nat) (n : Z) (outputs : list string) (w : World) :
  (n ≤ 0)%Z → loop fuel n outputs w = (Returns outputs, w).
Proof.
  intros Hn. destruct fuel; [done|]. simpl.
  destruct (n >? 0)%Z eqn:Hgt; [|done]. apply Z.gtb_lt in Hgt. lia.
Qed.

(** The loop never runs out of fuel: more fuel changes nothing. *)
Lemma chatgpt_loop_fuel (f1 f2 : nat) (n : Z) (outputs : list string) (w : World) :
  Z.to_nat n ≤ f1 → Z.to_nat n ≤ f2 →
  loop f1 n outputs w = loop f2 n outputs w.
Proof.
  revert f2 n outputs w. induction f1 as [|f1 IH]; intros f2 n outputs w H1 H2.
  - rewrite !chatgpt_loop_done by lia. done.
  - destruct (Z_le_gt_dec n 0) as [Hle|Hgt].
    + rewrite !chatgpt_loop_done by lia. done.
    + destruct f2 as [|f2]; [lia|].
      rewrite !chatgpt_loop_round by lia.
      destruct (env_completions env (trace w) (request (Z.min n 20))); [|done].
      apply IH; lia.
Qed.

(** The equation of the [while n > 0] loop of [chatgpt]. *)
Lemma chatgpt_loop_unfold (n : Z) (outputs : list string) (w : World) :
  loop (Z.to_nat n) n outputs w =
    if (n >? 0)%Z then
      match env_completions env (trace w) (request (Z.min n 20)) with
      | Returns res =>
          loop (Z.to_nat (n - Z.min n 20)) (n - Z.min n 20)%Z (outputs ++ choices res)
            (record_usage (usage res)
               (log (CompletionCall (request (Z.min n 20)) (Returns res)) w))
      | Raises e =>
          (Raises e, log (CompletionCall (request (Z.min n 20)) (Raises e)) w)
      end
    else (Returns outputs, w).
Proof.
  destruct (Z.gtb_spec n 0) as [Hgt|Hle].
  - destruct (Z.to_nat n) as [|f] eqn:Hf; [lia|].
    rewrite chatgpt_loop_round by lia.
    destruct (env_completions env (trace w) (request (Z.min n 20))); [|done].
    apply chatgpt_loop_fuel; lia.
  - by apply chatgpt_loop_done.
Qed.

Lemma ceil_div20_step (n : Z) :
  (0 < n)%Z →
  Z.to_nat (ceil_div20 n) = S (Z.to_nat (ceil_div20 (n - Z.min n 20))).
Proof.
  intros Hn. unfold ceil_div20.
  destruct (Z_le_gt_dec n 20) as [Hle|Hgt].
  - rewrite Z.min_l by lia. replace (n - n + 19)%Z with 19%Z by lia.
    replace ((n + 19) / 20)%Z with 1%Z; [reflexivity|].
    apply Z.div_unique with (r := (n - 1)%Z); lia.
  - rewrite Z.min_r by lia.
    replace (n + 19)%Z with ((n - 20 + 19) + 1 * 20)%Z by lia.
    rewrite Z.div_add by lia.
    assert (0 ≤ (n - 20 + 19) / 20)%Z by (apply Z.div_pos; lia). lia.
Qed.

Lemma chunk_sizes_done (n : Z) : (n ≤ 0)%Z → chunk_sizes n = [].
Proof.
  intros Hn. unfold chunk_sizes, ceil_div20.
  assert ((n + 19) / 20 ≤ 0)%Z as H.
  { destruct (Z_le_gt_dec ((n + 19) / 20) 0) as [|Hgt]; [done|].
    assert (20 * ((n + 19) / 20) ≤ n + 19)%Z by (apply Z.mul_div_le; lia). lia. }
  replace (Z.to_nat ((n + 19) / 20)) with 0 by lia. reflexivity.
Qed.

(** The sample counts follow the loop: [min n 20] first, then those of
    what is left. *)
Lemma chunk_sizes_step (n : Z) :
  (0 < n)%Z →
  chunk_sizes n = Z.min n 20 :: chunk_sizes (n - Z.min n 20).
Proof.
  intros Hn. unfold chunk_sizes. rewrite (ceil_div20_step n Hn).
  rewrite <- cons_seq, <- seq_shift. simpl map at 1. f_equal.
  - rewrite Z.min_comm. f_equal. lia.
  - destruct (Z_le_gt_dec n 20) as [Hle|Hgt].
    + rewrite Z.min_l by lia. replace (n - n)%Z with 0%Z by lia.
      unfold ceil_div20. reflexivity.
    + rewrite Z.min_r by lia. rewrite map_map. apply map_ext.
      intros k. f_equal. lia.
Qed.

End ChatgptBatches.

Section ChatgptSamples.
Import PyStr Model Spec.

Context (env : Env) (messages : list ChatMessage) (model : string)
        (temperature : Q) (max_tokens : Z) (stop : option string).

Local Abbreviation request := (chat_completion_request messages model temperature max_tokens stop).
Local Abbreviation loop fuel := (chatgpt_loop env fuel messages model temperature max_tokens stop).
Local Abbreviation served cnts responses :=
  (zip_with (fun cnt res => CompletionCall (request cnt) (Returns res)) cnts responses).

(** [ceil_div20 n] is the ceiling of [n / 20]. *)
Lemma ceil_div20_spec (n : Z) :
  (20 * (ceil_div20 n - 1) < n ≤ 20 * ceil_div20 n)%Z.
Proof.
  unfold ceil_div20.
  pose proof (Z.mul_div_le (n + 19) 20 ltac:(lia)).
  pose proof (Z.mul_succ_div_gt (n + 19) 20 ltac:(lia)). lia.
Qed.

Lemma chunk_sizes_lookup (n : Z) (k : nat) (cnt : Z) :
  chunk_sizes n !! k = Some cnt →
  cnt = Z.min 20 (n - 20 * Z.of_nat k) ∧ (Z.of_nat k < ceil_div20 n)%Z.
Proof.
  unfold chunk_sizes. rewrite list_lookup_fmap.
  destruct (seq 0 (Z.to_nat (ceil_div20 n)) !! k) as [j|] eqn:Hj; [|done].
  apply lookup_seq in Hj as [-> Hlt]. simpl. intros [= <-]. split; [done|lia].
Qed.

Lemma chunk_sizes_bounds (n : Z) : Forall (fun cnt => 1 ≤ cnt ≤ 20)%Z (chunk_sizes n).
Proof.
  apply Forall_lookup. intros k cnt [-> Hk]%chunk_sizes_lookup.
  pose proof (ceil_div20_spec n). lia.
Qed.

(** When the provider never raises, the loop serves [n] samples with the
    calls of [chunk_sizes n] and concatenates what they return. *)
Lemma chatgpt_loop_batches (k : nat) (n : Z) (outputs : list string) (w : World) :
  Z.to_nat n ≤ k →
  (∀ tr req, ∃ res, env_completions env tr req = Returns res) →
  ∃ responses w',
    loop (Z.to_nat n) n outputs w
    = (Returns (outputs ++ concat (map choices responses)), w')
    ∧ trace w' = trace w ++ served (chunk_sizes n) responses
    ∧ length responses = length (chunk_sizes n)
    ∧ ((∀ tr req res, (1 ≤ cr_n req ≤ 20)%Z →
          env_completions env tr req = Returns res →
          Z.of_nat (length (choices res)) = cr_n req) →
       Z.of_nat (length (concat (map choices responses))) = Z.max 0 n).
Proof.
  intros Hk Hnever. revert n outputs w Hk.
  induction k as [|k IH]; intros n outputs w Hk.
  - exists [], w. rewrite chatgpt_loop_unfold.
    destruct (Z.gtb_spec n 0) as [Hgt|Hle]; [lia|].
    rewrite chunk_sizes_done by lia. simpl. rewrite !app_nil_r.
    repeat split; try done. intros _. lia.
  - destruct (Z_le_gt_dec n 0) as [Hle|Hgt].
    + exists [], w. rewrite chatgpt_loop_unfold.
      destruct (Z.gtb_spec n 0) as [Hgt|_]; [lia|].
      rewrite chunk_sizes_done by lia. simpl. rewrite !app_nil_r.
      repeat split; try done. intros _. lia.
    + rewrite chatgpt_loop_unfold.
      destruct (Z.gtb_spec n 0) as [_|Hle]; [|lia].
      destruct (Hnever (trace w) (request (Z.min n 20))) as [res Hres]. rewrite Hres.
      destruct (IH (n - Z.min n 20)%Z (outputs ++ choices res)
                  (record_usage (usage res)
                     (log (CompletionCall (request (Z.min n 20)) (Returns res)) w)))
        as (responses & w' & Hrun & Htrace & Hlen & Hsize); [lia|].
      exists (res :: responses), w'. rewrite Hrun, Htrace.
      rewrite (chunk_sizes_step n) by lia. simpl. rewrite <- !app_assoc.
      repeat split; try done.
      * by rewrite Hlen.
      * intros Hchoices. rewrite length_app, Nat2Z.inj_add, (Hsize Hchoices).
        rewrite (Hchoices (trace w) (request (Z.min n 20)) res); simpl; [lia|lia|done].
Qed.

(** C6: for [n >= 1] samples and a provider that answers every call,
    [chatgpt] makes [ceiling (n / 20)] provider calls, call number [k]
    asking for the smaller of 20 and the [n - 20 k] samples still owed, so
    between 1 and 20; it returns the contents of the calls concatenated in
    the order of the calls; and when every call returns as many choices as
    it was asked for, the list returned has [n] elements. *)
Theorem chatgpt_batches_of_20 (n : Z) (w : World) :
  (1 ≤ n)%Z →
  (∀ tr req, ∃ res, env_completions env tr req = Returns res) →
  ∃ responses w',
    chatgpt env messages model temperature max_tokens n stop w
    = (Returns (concat (map choices responses)), w')
    ∧ trace w' = trace w ++ served (chunk_sizes n) responses
    ∧ length responses = length (chunk_sizes n)
    ∧ Z.of_nat (length responses) = ceil_div20 n
    ∧ (20 * (ceil_div20 n - 1) < n ≤ 20 * ceil_div20 n)%Z
    ∧ (∀ k cnt, chunk_sizes n !! k = Some cnt →
         cnt = Z.min 20 (n - 20 * Z.of_nat k) ∧ (1 ≤ cnt ≤ 20)%Z)
    ∧ ((∀ tr req res, (1 ≤ cr_n req ≤ 20)%Z →
          env_completions env tr req = Returns res →
          Z.of_nat (length (choices res)) = cr_n req) →
       Z.of_nat (length (concat (map choices responses))) = n).
Proof.
  intros Hn Hnever.
  destruct (chatgpt_loop_batches (Z.to_nat n) n [] w (le_n _) Hnever)
    as (responses & w' & Hrun & Htrace & Hlen & Hsize).
  exists responses, w'. unfold chatgpt. rewrite Hrun.
  pose proof (ceil_div20_spec n) as Hceil.
  split; [by rewrite app_nil_l|]. split; [done|]. split; [done|].
  split; [|split; [done|split]].
  - rewrite Hlen. unfold chunk_sizes. rewrite length_map, length_seq. lia.
  - intros k cnt [-> Hk]%chunk_sizes_lookup. split; [done|lia].
  - intros Hchoices. rewrite (Hsize Hchoices). lia.
Qed.

End ChatgptSamples.

Section ChatgptSamplesWitness.
Import PyStr Model Spec.

Lemma chatgpt_batches_of_20_witness :
  ∃ outputs w',
    chatgpt (echo_api "hi") [] BASE_MODEL_GPT (7 # 10) 1000 45 None initial_world
    = (Returns outputs, w')
    ∧ length outputs = 45
    ∧ chunk_sizes 45 = [20; 20; 5]%Z.
Proof.
  destruct (chatgpt_batches_of_20 (echo_api "hi") [] BASE_MODEL_GPT (7 # 10) 1000 None
              45 initial_world)
    as (responses & w' & Hrun & _ & _ & _ & _ & _ & Hsize).
  - lia.
  - intros tr req. by eexists.
  - exists (concat (map choices responses)), w'. split; [exact Hrun|]. split.
    + apply Nat2Z.inj. apply Hsize. intros tr req res Hreq [= <-]. simpl.
      rewrite length_replicate. lia.
    + reflexivity.
Defined.

End ChatgptSamplesWitness.

(** ** The usage counters *)

Section UsageCounters.
Import PyStr Model Spec.

Lemma completion_sum_app (a b : list Event) :
  completion_sum (a ++ b) = (completion_sum a + completion_sum b)%N.
Proof. induction a as [|ev a IH]; simpl; [done|]. rewrite IH. lia. Qed.

Lemma prompt_sum_app (a b : list Event) :
  prompt_sum (a ++ b) = (prompt_sum a + prompt_sum b)%N.
Proof. induction a as [|ev a IH]; simpl; [done|]. rewrite IH. lia. Qed.

Lemma advances_refl (w : World) : advances w w.
Proof.
  exists []. unfold advances_by. simpl. rewrite app_nil_r. repeat split; lia.
Qed.

Lemma advances_trans (w1 w2 w3 : World) :
  advances w1 w2 → advances w2 w3 → advances w1 w3.
Proof.
  intros (a & Ha1 & Ha2 & Ha3) (b & Hb1 & Hb2 & Hb3). exists (a ++ b).
  unfold advances_by. rewrite Hb1, Ha1, Hb2, Ha2, Hb3, Ha3.
  rewrite completion_sum_app, prompt_sum_app, app_assoc. repeat split; lia.
Qed.

(** An event other than a successful hosted-API call moves no counter. *)
Lemma advances_log (ev : Event) (w : World) :
  reported ev = {| usage_completion_tokens := 0; usage_prompt_tokens := 0 |} →
  advances w (log ev w).
Proof.
  intros Hev. exists [ev]. unfold advances_by. simpl. rewrite Hev. simpl.
  repeat split; lia.
Qed.

(** A successful hosted-API call, once accounted, moves both counters by
    what it reported. *)
Lemma advances_record (req : ChatRequest) (res : ChatResponse) (w : World) :
  advances w (record_usage (usage res) (log (CompletionCall req (Returns res)) w)).
Proof.
  exists [CompletionCall req (Returns res)]. unfold advances_by. simpl.
  repeat split; lia.
Qed.

Lemma grows_ret {A} (a : A) : grows (ret a : M World A).
Proof. intros w. apply advances_refl. Qed.

Lemma grows_raise {A} (e : Exn) : grows (raise e : M World A).
Proof. intros w. apply advances_refl. Qed.

Lemma grows_lift_outcome {A} (o : Outcome A) : grows (lift_outcome o : M World A).
Proof. intros w. apply advances_refl. Qed.

Lemma grows_get : grows (get : M World World).
Proof. intros w. apply advances_refl. Qed.

Lemma grows_print (d : Diagnostic) : grows (print d).
Proof. intros w. by apply advances_log. Qed.

Lemma grows_bind {A B} (m : M World A) (k : A → M World B) :
  grows m → (∀ a, grows (k a)) → grows (bind m k).
Proof.
  intros Hm Hk w. unfold bind. specialize (Hm w).
  destruct (m w) as [[a|e] w1]; simpl in *; [|done].
  eapply advances_trans; [exact Hm|apply Hk].
Qed.

Lemma grows_try_except {A} (m : M World A) (h : Exn → M World A) :
  grows m → (∀ e, grows (h e)) → grows (try_except m h).
Proof.
  intros Hm Hh w. unfold try_except. specialize (Hm w).
  destruct (m w) as [[a|e] w1]; simpl in *; [done|].
  eapply advances_trans; [exact Hm|apply Hh].
Qed.

Lemma grows_requests_post (env : Env) (req : PostRequest) : grows (requests_post env req).
Proof. intros w. by apply advances_log. Qed.

Lemma grows_chatgpt_loop (env : Env) (fuel : nat) (messages : list ChatMessage)
    (model : string) (temperature : Q) (max_tokens : Z) (stop : option string)
    (n : Z) (outputs : list string) :
  grows (chatgpt_loop env fuel messages model temperature max_tokens stop n outputs).
Proof.
  revert n outputs. induction fuel as [|fuel IH]; intros n outputs w.
  - apply advances_refl.
  - destruct (Z_le_gt_dec n 0) as [Hle|Hgt].
    + rewrite chatgpt_loop_done by done. apply advances_refl.
    + rewrite chatgpt_loop_round by lia.
      destruct (env_completions env (trace w) _) as [res|e].
      * eapply advances_trans; [apply advances_record|apply IH].
      * by apply advances_log.
Qed.

Lemma grows_chatgpt (env : Env) (messages : list ChatMessage) (model : string)
    (temperature : Q) (max_tokens n : Z) (stop : option string) :
  grows (chatgpt env messages model temperature max_tokens n stop).
Proof. apply grows_chatgpt_loop. Qed.

Lemma grows_gpt_loop (env : Env) (cnt : nat) (messages : list ChatMessage)
    (model : string) (temperature : Q) (max_tokens n : Z) (stop : option string)
    (out : list string) :
  grows (gpt_loop env cnt messages model temperature max_tokens n stop out).
Proof.
  induction cnt as [|cnt IH]; simpl; [apply grows_ret|].
  apply grows_try_except.
  - apply grows_bind; [apply grows_chatgpt|]. intros outputs.
    apply grows_bind; [apply grows_lift_outcome|]. intros first. apply grows_ret.
  - intros e. apply grows_bind; [apply grows_print|]. intros _. apply IH.
Qed.

Lemma grows_post_loop (env : Env) (tol : nat) (req : PostRequest) :
  grows (post_loop env tol req).
Proof.
  induction tol as [|tol IH]; simpl; [apply grows_ret|].
  apply grows_try_except.
  - apply grows_bind; [apply grows_requests_post|]. intros r. apply grows_ret.
  - intros e. apply grows_bind; [apply grows_print|]. intros _. apply IH.
Qed.

Lemma grows_get_glm_reply (env : Env) (query model : string) (temperature : Q)
    (max_tokens seed : Z) :
  grows (get_glm_reply env query model temperature max_tokens seed).
Proof.
  unfold get_glm_reply.
  destruct (String.eqb model "ChatGLM2"); [|destruct (String.eqb model "GLM4");
    [|destruct (String.eqb model "GLM3")]].
  - apply grows_bind; [apply grows_post_loop|]. intros [r|]; simpl.
    + apply grows_bind; [apply grows_lift_outcome|]. intros reply. apply grows_ret.
    + apply grows_bind; [apply grows_print|]. intros _. apply grows_ret.
  - apply grows_bind; [apply grows_post_loop|]. intros [r|]; simpl.
    + apply grows_bind; [apply grows_lift_outcome|]. intros reply.
      destruct (GLM4_content reply); [apply grows_ret|].
      apply grows_bind; [apply grows_print|]. intros _. apply grows_ret.
    + apply grows_bind; [apply grows_print|]. intros _. apply grows_ret.
  - apply grows_bind; [apply grows_post_loop|]. intros [r|]; simpl.
    + apply grows_bind; [apply grows_lift_outcome|]. intros reply.
      destruct (GLM3_content reply); [apply grows_ret|].
      apply grows_bind; [apply grows_print|]. intros _. apply grows_ret.
    + apply grows_bind; [apply grows_print|]. intros _. apply grows_ret.
  - apply grows_bind; [apply grows_print|]. intros _. apply grows_ret.
Qed.

Lemma advances_run_call (env : Env) (c : Call) (w : World) :
  advances w (run_call env c w).
Proof.
  destruct c; simpl.
  - apply grows_gpt_loop.
  - apply grows_chatgpt.
  - apply advances_refl.
  - apply advances_refl.
  - apply grows_get_glm_reply.
  - apply grows_get_glm_reply.
Qed.

Lemma advances_run_calls (env : Env) (calls : list Call) (w : World) :
  advances w (run_calls env calls w).
Proof.
  revert w. induction calls as [|c calls IH]; intros w; simpl.
  - apply advances_refl.
  - eapply advances_trans; [apply advances_run_call|apply IH].
Qed.

Lemma accounted_advances (w w' : World) : accounted w → advances w w' → accounted w'.
Proof.
  intros [Hc Hp] (new & Ht & Hc' & Hp'). unfold accounted.
  rewrite Ht, Hc', Hp', completion_sum_app, prompt_sum_app, Hc, Hp. done.
Qed.

Lemma no_completion_no_usage (new : list Event) :
  completion_attempts new = 0 → completion_sum new = 0%N ∧ prompt_sum new = 0%N.
Proof.
  unfold completion_attempts.
  induction new as [|ev new IH]; simpl; [done|].
  destruct ev as [req res| |]; simpl; [done| |]; intros H; destruct (IH H); lia.
Qed.

(** C2: the two counters are zero when the module has been loaded; after
    any sequence of calls into the module, whatever the hosted API and the
    gateway answer, each counter is the sum of what the successful hosted-API
    calls of the trace reported; no sequence of calls makes a counter
    smaller; and one call moves a counter by exactly what the successful
    hosted-API calls made during it reported, so by nothing when it made
    none (every such call is made by [chatgpt] through
    [completions_with_backoff]). *)
Theorem usage_counters_account (env : Env) :
  (completion_tokens initial_world = 0%N ∧ prompt_tokens initial_world = 0%N)
  ∧ (∀ calls,
       completion_tokens (run_calls env calls initial_world)
       = completion_sum (trace (run_calls env calls initial_world))
       ∧ prompt_tokens (run_calls env calls initial_world)
         = prompt_sum (trace (run_calls env calls initial_world)))
  ∧ (∀ calls w,
       (completion_tokens w ≤ completion_tokens (run_calls env calls w))%N
       ∧ (prompt_tokens w ≤ prompt_tokens (run_calls env calls w))%N)
  ∧ (∀ c w, ∃ new,
       trace (run_call env c w) = trace w ++ new
       ∧ completion_tokens (run_call env c w)
         = (completion_tokens w + completion_sum new)%N
       ∧ prompt_tokens (run_call env c w) = (prompt_tokens w + prompt_sum new)%N
       ∧ (completion_attempts new = 0 →
          completion_tokens (run_call env c w) = completion_tokens w
          ∧ prompt_tokens (run_call env c w) = prompt_tokens w)).
Proof.
  split; [done|]. split; [|split].
  - intros calls. apply (accounted_advances initial_world); [done|].
    apply advances_run_calls.
  - intros calls w. destruct (advances_run_calls env calls w) as (new & _ & Hc & Hp).
    rewrite Hc, Hp. lia.
  - intros c w. destruct (advances_run_call env c w) as (new & Ht & Hc & Hp).
    exists new. split; [done|]. split; [done|]. split; [done|].
    intros [Hcs Hps]%no_completion_no_usage. rewrite Hc, Hp, Hcs, Hps. lia.
Qed.

Lemma usage_counters_account_witness :
  completion_tokens (run_calls (flaky_api 1 "hi") sample_session initial_world) = 28%N
  ∧ prompt_tokens (run_calls (flaky_api 1 "hi") sample_session initial_world) = 12%N
  ∧ completion_tokens
      (run_call (flaky_api 1 "hi") (CallGlm "hello" BASE_MODEL_GLM (7 # 10) 1000 170)
         initial_world) = 0%N.
Proof.
  pose proof (usage_counters_account (flaky_api 1 "hi")) as (_ & Hsum & _ & Hcall).
  destruct (Hsum sample_session) as [Hc Hp]. rewrite Hc, Hp.
  split; [reflexivity|]. split; [reflexivity|].
  destruct (Hcall (CallGlm "hello" BASE_MODEL_GLM (7 # 10) 1000 170) initial_world)
    as (new & Ht & _ & _ & Hnone).
  vm_compute in Ht. injection Ht as Ht. subst new.
  exact (proj1 (Hnone eq_refl)).
Defined.

End UsageCounters.

(** ** The bounded retry of [gpt] *)

Section GptRetry.
Import PyStr Model Spec.

Context (env : Env) (prompt model : string) (temperature : Q)
        (max_tokens n : Z) (stop : option string).

Local Abbreviation messages := [{| role := "user"; content := prompt |}].
(** One attempt: the call of [chatgpt] that every round of [gpt] issues. *)
Local Abbreviation attempt :=
  (chatgpt env messages model temperature max_tokens n stop).
(** The world after the diagnostic of a failed attempt. *)
Local Abbreviation failed e w := (log (Printed (GptReplyError e)) w).
Local Abbreviation rounds cnt :=
  (gpt_loop env cnt messages model temperature max_tokens n stop []).

(** One round of the loop of [gpt]: a successful attempt with a first output
    leaves the loop; anything else costs one of the rounds. *)
Lemma gpt_loop_round (cnt : nat) (w : World) :
  rounds (S cnt) w =
    match attempt w with
    | (Returns (first :: _), w') => (Returns (split first nl), w')
    | (Returns [], w') => rounds cnt (failed IndexError w')
    | (Raises e, w') => rounds cnt (failed e w')
    end.
Proof.
  simpl. unfold try_except, bind.
  destruct (attempt w) as [[[|first others]|e] w']; reflexivity.
Qed.

(** C4: when the call of [chatgpt] raises in each of the first 4 rounds and
    returns in the 5th, [gpt] returns the first output of that 5th call split
    on newlines, and the world it leaves is the one the 5th call left:
    nothing is attempted after the success.  When the call raises in all 5
    rounds, [gpt] returns the empty list; it does not raise. *)
Theorem gpt_five_attempts (w0 : World) :
  (∀ e1 w1 e2 w2 e3 w3 e4 w4 first others w5,
     attempt w0 = (Raises e1, w1) →
     attempt (failed e1 w1) = (Raises e2, w2) →
     attempt (failed e2 w2) = (Raises e3, w3) →
     attempt (failed e3 w3) = (Raises e4, w4) →
     attempt (failed e4 w4) = (Returns (first :: others), w5) →
     gpt env prompt model temperature max_tokens n stop w0
     = (Returns (split first nl), w5))
  ∧ (∀ e1 w1 e2 w2 e3 w3 e4 w4 e5 w5,
       attempt w0 = (Raises e1, w1) →
       attempt (failed e1 w1) = (Raises e2, w2) →
       attempt (failed e2 w2) = (Raises e3, w3) →
       attempt (failed e3 w3) = (Raises e4, w4) →
       attempt (failed e4 w4) = (Raises e5, w5) →
       gpt env prompt model temperature max_tokens n stop w0
       = (Returns [], failed e5 w5)).
Proof.
  split.
  - intros e1 w1 e2 w2 e3 w3 e4 w4 first others w5 H1 H2 H3 H4 H5. unfold gpt.
    rewrite gpt_loop_round, H1, gpt_loop_round, H2, gpt_loop_round, H3,
      gpt_loop_round, H4, gpt_loop_round, H5. reflexivity.
  - intros e1 w1 e2 w2 e3 w3 e4 w4 e5 w5 H1 H2 H3 H4 H5. unfold gpt.
    rewrite gpt_loop_round, H1, gpt_loop_round, H2, gpt_loop_round, H3,
      gpt_loop_round, H4, gpt_loop_round, H5. reflexivity.
Qed.

(** An attempt that returns no output at all counts as a failed one. *)
Lemma gpt_loop_no_output (cnt : nat) (w w' : World) :
  attempt w = (Returns [], w') →
  rounds (S cnt) w = rounds cnt (failed IndexError w').
Proof. intros H. by rewrite gpt_loop_round, H. Qed.

End GptRetry.

Section GptRetryWitness.
Import PyStr Model Spec.

Lemma gpt_five_attempts_witness :
  (gpt (flaky_api 4 ("one" +:+ nl +:+ "two")) "hello" BASE_MODEL_GPT (7 # 10) 1000 1 None
     initial_world).1 = Returns ["one"; "two"]
  ∧ completion_attempts
      (trace (gpt (flaky_api 4 ("one" +:+ nl +:+ "two")) "hello" BASE_MODEL_GPT (7 # 10)
                1000 1 None initial_world).2) = 5
  ∧ (gpt gateway_down "hello" BASE_MODEL_GPT (7 # 10) 1000 1 None initial_world).1
    = Returns [].
Proof.
  assert (∃ w5,
            gpt (flaky_api 4 ("one" +:+ nl +:+ "two")) "hello" BASE_MODEL_GPT (7 # 10) 1000 1
              None initial_world = (Returns (split ("one" +:+ nl +:+ "two") nl), w5)
            ∧ completion_attempts (trace w5) = 5) as (w5 & Hrun & Hcount).
  { eexists. split.
    - eapply (proj1 (gpt_five_attempts (flaky_api 4 ("one" +:+ nl +:+ "two")) "hello"
                       BASE_MODEL_GPT (7 # 10) 1000 1 None initial_world));
        lazy; reflexivity.
    - reflexivity. }
  assert (∃ w,
            gpt gateway_down "hello" BASE_MODEL_GPT (7 # 10) 1000 1 None initial_world
            = (Returns [], w)) as (w & Hdown).
  { eexists.
    eapply (proj2 (gpt_five_attempts gateway_down "hello" BASE_MODEL_GPT (7 # 10) 1000 1
                     None initial_world));
      lazy; reflexivity. }
  rewrite Hrun, Hdown. split; [reflexivity|]. split; [exact Hcount|reflexivity].
Defined.

End GptRetryWitness.

(** ** The classifier: construction *)

Section ClassifierInit.
Import PyStr Classifier ClassifierSpec.

Context {G : Type} (env : Env G).

Lemma init_model_unsupported (config : gmap string string) (w : World G) :
  lower (configured_generator_type config) ∉ supported_kinds →
  __init_model__ env config w
  = (Raises (ValueError "Invalid generator type: {}"
               [ArgLower (configured_generator_type config)]), w).
Proof.
  intros Hkind. unfold __init_model__. fold (configured_generator_type config).
  destruct (String.eqb_spec (lower (configured_generator_type config)) "local") as [E|_].
  { exfalso. apply Hkind. rewrite E. set_solver. }
  destruct (String.eqb_spec (lower (configured_generator_type config)) "aisuite") as [E|_].
  { exfalso. apply Hkind. rewrite E. set_solver. }
  destruct (String.eqb_spec (lower (configured_generator_type config)) "request") as [E|_].
  { exfalso. apply Hkind. rewrite E. set_solver. }
  reflexivity.
Qed.

(** C8, as the code has it: when the configured [generator_type], put in
    LOWER CASE (the claim says: as written), is none of [local], [aisuite]
    and [request], the construction raises a [ValueError] and leaves the
    world as it was: no generator was built, nothing was generated, nothing
    was tried again.  With both file names configured the error is the one
    of [__init_model__], whose message holds the lower-cased form of the
    configured type. *)
Theorem init_rejects_unsupported_generator (config : gmap string string) (w : World G) :
  lower (configured_generator_type config) ∉ supported_kinds →
  (∃ fmt args, __init__ env config w = (Raises (ValueError fmt args), w))
  ∧ (truthy (config !! "input_file") = true →
     truthy (config !! "output_file") = true →
     __init__ env config w
     = (Raises (ValueError "Invalid generator type: {}"
                  [ArgLower (configured_generator_type config)]), w)).
Proof.
  intros Hkind. unfold __init__.
  destruct (truthy (config !! "input_file")), (truthy (config !! "output_file")); simpl;
    (split; [|try done]).
  - eexists _, _. unfold bind. by rewrite init_model_unsupported.
  - intros _ _. unfold bind. by rewrite init_model_unsupported.
  - by eexists _, _.
  - by eexists _, _.
  - by eexists _, _.
Qed.

End ClassifierInit.

Section ClassifierInitSamples.
Import PyStr Classifier ClassifierSpec.

Lemma init_rejects_unsupported_generator_witness :
  __init__ (sample_env []) (sample_config "vLLM" "label") initial_world
  = (Raises (ValueError "Invalid generator type: {}" [ArgLower "vLLM"]), initial_world).
Proof.
  refine (proj2 (init_rejects_unsupported_generator (sample_env [])
                   (sample_config "vLLM" "label") initial_world _) eq_refl eq_refl).
  vm_compute. intros Hin.
  repeat (apply elem_of_cons in Hin as [Hin|Hin]; [discriminate Hin|]).
  by apply elem_of_nil in Hin.
Defined.

(** C8 as it is stated fails: [LOCAL] is none of the three kinds as they are
    written, and the construction succeeds with a local generator. *)
Lemma init_accepts_upper_case_counterexample :
  configured_generator_type (sample_config "LOCAL" "label") = "LOCAL"
  ∧ ("LOCAL" ∉ supported_kinds)
  ∧ (∃ self,
       fst (__init__ (sample_env []) (sample_config "LOCAL" "label") initial_world)
       = Returns self
       ∧ snd (__init__ (sample_env []) (sample_config "LOCAL" "label") initial_world)
         = log (GeneratorInit LocalModelGenerator (sample_config "LOCAL" "label")
                  (Returns tt)) initial_world).
Proof.
  split; [reflexivity|]. split.
  - intros Hin.
    repeat (apply elem_of_cons in Hin as [Hin|Hin]; [discriminate Hin|]).
    by apply elem_of_nil in Hin.
  - eexists. split; reflexivity.
Qed.

End ClassifierInitSamples.

(** ** The classifier: the batch *)

Section ClassifierRun.
Import PyStr Classifier ClassifierSpec.

Context {G : Type} (env : Env G).

(** What happens to one response, case by case. *)
Lemma classify_row_cases (idx : nat) (classification_str : string) (w : World G) :
  classify_row env idx classification_str w =
    match parsed env classification_str with
    | Returns (JObj fields) =>
        match env_at_set env (trace w) (dataframe w) idx "primary_category"
                (default (JStr EmptyString) (assoc_get "primary_category" fields)) with
        | Refused e column_added =>
            (Returns tt,
             log (Printed (row_diagnostic classification_str e))
               (if column_added
                then set_dataframe (add_column (dataframe w) "primary_category") w
                else w))
        | Stored primary =>
            let w1 := set_dataframe (at_set (dataframe w) idx "primary_category" primary) w in
            match env_at_set env (trace w1) (dataframe w1) idx "secondary_category"
                    (default (JStr EmptyString) (assoc_get "secondary_category" fields)) with
            | Refused e column_added =>
                (Returns tt,
                 log (Printed (row_diagnostic classification_str e))
                   (if column_added
                    then set_dataframe (add_column (dataframe w1) "secondary_category") w1
                    else w1))
            | Stored secondary =>
                (Returns tt,
                 set_dataframe (at_set (dataframe w1) idx "secondary_category" secondary) w1)
            end
        end
    | Returns _ =>
        (Returns tt, log (Printed (ClassificationParseError AttributeError)) w)
    | Raises e => (Returns tt, log (Printed (row_diagnostic classification_str e)) w)
    end.
Proof.
  unfold classify_row, try_except, bind, lift_outcome, parsed.
  destruct (if truthy (Some classification_str)
            then env_json_loads env classification_str
            else Returns (JObj [])) as [[| | | | | |fields]|e]; try reflexivity.
  - cbn [py_get]. unfold at_assign at 1.
    destruct (env_at_set env (trace w) (dataframe w) idx "primary_category" _)
      as [primary|e column_added]; [|by destruct e].
    unfold at_assign. cbv zeta.
    destruct (env_at_set env _ _ idx "secondary_category" _)
      as [secondary|e column_added]; [reflexivity|by destruct e].
  - by destruct e.
Qed.

Lemma at_set_columns (df : DataFrame) (idx : nat) (col : string) (v : Json) (c : string) :
  c ∈ columns df → c ∈ columns (at_set df idx col v).
Proof.
  intros Hc. unfold at_set. simpl. case_bool_decide; [done|].
  apply elem_of_app. by left.
Qed.

Lemma add_column_columns (df : DataFrame) (col c : string) :
  c ∈ columns df → c ∈ columns (add_column df col).
Proof.
  intros Hc. unfold add_column. simpl. case_bool_decide; [done|].
  apply elem_of_app. by left.
Qed.

Lemma at_set_rows_ne (df : DataFrame) (idx k : nat) (col : string) (v : Json) :
  k ≠ idx → rows (at_set df idx col v) !! k = rows df !! k.
Proof. intros Hk. unfold at_set. simpl. by apply list_lookup_alter_ne. Qed.

(** One response never ends the loop: the row's step returns, leaves
    nothing but diagnostics in the trace, keeps every column and touches no
    other row. *)
Lemma classify_row_frame (idx : nat) (classification_str : string) (w : World G) :
  ∃ w' ds,
    classify_row env idx classification_str w = (Returns tt, w')
    ∧ trace w' = trace w ++ map Printed ds
    ∧ (∀ c, c ∈ columns (dataframe w) → c ∈ columns (dataframe w'))
    ∧ (∀ k, k ≠ idx → rows (dataframe w') !! k = rows (dataframe w) !! k).
Proof.
  rewrite classify_row_cases.
  destruct (parsed env classification_str) as [[| | | | | |fields]|e].
  1-6, 8: eexists _, [_]; split; [reflexivity|]; split; [reflexivity|]; by split.
  destruct (env_at_set env (trace w) (dataframe w) idx "primary_category" _)
    as [primary|e [|]].
  - cbv zeta. destruct (env_at_set env _ _ idx "secondary_category" _)
      as [secondary|e [|]].
    + eexists _, []. split; [reflexivity|].
      split; [symmetry; apply app_nil_r|]. split.
      * intros c Hc. by do 2 apply at_set_columns.
      * intros k Hk. cbn [dataframe set_dataframe]. by rewrite !at_set_rows_ne.
    + eexists _, [_]. split; [reflexivity|]. split; [reflexivity|]. split.
      * intros c Hc. by apply add_column_columns, at_set_columns.
      * intros k Hk. cbn [dataframe set_dataframe log add_column rows].
        by rewrite at_set_rows_ne.
    + eexists _, [_]. split; [reflexivity|]. split; [reflexivity|]. split.
      * intros c Hc. by apply at_set_columns.
      * intros k Hk. cbn [dataframe set_dataframe log]. by rewrite at_set_rows_ne.
  - eexists _, [_]. split; [reflexivity|]. split; [reflexivity|]. split.
    + intros c Hc. by apply add_column_columns.
    + done.
  - eexists _, [_]. split; [reflexivity|]. split; [reflexivity|]. by split.
Qed.

Lemma classify_loop_cons (idx : nat) (row : gmap string Json) (s : string)
    (rest : list (gmap string Json * string)) (w : World G) :
  classify_loop env idx ((row, s) :: rest) w
  = classify_loop env (S idx) rest (classify_row env idx s w).2.
Proof.
  simpl. unfold bind.
  destruct (classify_row_frame idx s w) as (w' & ds & -> & _). reflexivity.
Qed.

(** The loop never raises; it leaves diagnostics only, keeps the columns,
    and touches only the rows it was given. *)
Lemma classify_loop_frame (idx : nat) (pairs : list (gmap string Json * string))
    (w : World G) :
  ∃ w' ds,
    classify_loop env idx pairs w = (Returns tt, w')
    ∧ trace w' = trace w ++ map Printed ds
    ∧ (∀ c, c ∈ columns (dataframe w) → c ∈ columns (dataframe w'))
    ∧ (∀ k, k < idx ∨ idx + length pairs ≤ k →
            rows (dataframe w') !! k = rows (dataframe w) !! k).
Proof.
  revert idx w. induction pairs as [|[row s] rest IH]; intros idx w.
  - exists w, []. simpl. rewrite app_nil_r. by repeat split.
  - rewrite classify_loop_cons.
    destruct (classify_row_frame idx s w) as (w1 & ds1 & -> & Ht1 & Hc1 & Hr1). simpl.
    destruct (IH (S idx) w1) as (w2 & ds2 & Hrun & Ht2 & Hc2 & Hr2).
    exists w2, (ds1 ++ ds2). split; [done|]. split; [|split].
    + by rewrite Ht2, Ht1, map_app, app_assoc.
    + intros c Hc. by apply Hc2, Hc1.
    + intros k Hk. simpl in Hk. rewrite Hr2 by lia. apply Hr1. lia.
Qed.

Lemma classify_loop_app (idx : nat) (pre post : list (gmap string Json * string))
    (w : World G) :
  classify_loop env idx (pre ++ post) w
  = classify_loop env (idx + length pre) post (classify_loop env idx pre w).2.
Proof.
  revert idx w. induction pre as [|[row s] pre IH]; intros idx w.
  - simpl. by rewrite Nat.add_0_r.
  - rewrite <- app_comm_cons, !classify_loop_cons, IH. simpl length.
    by replace (S idx + length pre) with (idx + S (length pre)) by lia.
Qed.

Lemma cell_at_set_same (df : DataFrame) (idx : nat) (col : string) (v : Json) :
  idx < length (rows df) → cell (at_set df idx col v) idx col = Some v.
Proof.
  intros Hlt. unfold cell, at_set. simpl. rewrite list_lookup_alter_eq.
  destruct (lookup_lt_is_Some_2 _ _ Hlt) as [r Hr]. rewrite Hr. simpl.
  apply lookup_insert_eq.
Qed.

Lemma cell_at_set_other (df : DataFrame) (idx k : nat) (col c : string) (v : Json) :
  c ≠ col → cell (at_set df idx col v) k c = cell df k c.
Proof.
  intros Hc. unfold cell, at_set. simpl.
  destruct (decide (idx = k)) as [->|Hk].
  - rewrite list_lookup_alter_eq. destruct (rows df !! k) as [r|]; [|done]. simpl.
    by apply lookup_insert_ne.
  - by rewrite list_lookup_alter_ne.
Qed.

Lemma length_rows_at_set (df : DataFrame) (idx : nat) (col : string) (v : Json) :
  length (rows (at_set df idx col v)) = length (rows df).
Proof. unfold at_set. simpl. apply length_alter. Qed.

(** The row of an empty response, in a frame that stores the empty string:
    both cells hold it and nothing is printed. *)
Lemma classify_row_empty (idx : nat) (w : World G) :
  stores env (JStr EmptyString) →
  idx < length (rows (dataframe w)) →
  ∃ w',
    classify_row env idx EmptyString w = (Returns tt, w')
    ∧ trace w' = trace w
    ∧ cell (dataframe w') idx "primary_category" = Some (JStr EmptyString)
    ∧ cell (dataframe w') idx "secondary_category" = Some (JStr EmptyString).
Proof.
  intros Hst Hlt. rewrite classify_row_cases.
  change (parsed env EmptyString) with (@Returns Json (JObj [])).
  cbn [assoc_get default]. rewrite Hst. cbv zeta. rewrite Hst.
  eexists. split; [reflexivity|]. split; [reflexivity|].
  cbn [dataframe set_dataframe]. split.
  - rewrite cell_at_set_other by done. by apply cell_at_set_same.
  - apply cell_at_set_same. by rewrite length_rows_at_set.
Qed.

(** C9, as the code has it.  Let the response of one row (the row behind
    the rows answered by [pre]) be a string that is not JSON.  The loop
    works on the row, goes on with every row behind it, and returns: the
    batch is not given up.  When the string is not empty, its row costs the
    warning and nothing else: [primary_category] and [secondary_category]
    are not assigned, so the cells of the row are left as they were read,
    without a value where the input had none (the claim says: they are the
    empty string).  When the string is empty, line 76 takes the empty dict
    for it: in a frame that stores the empty string both cells hold the
    empty string, as the claim says, and nothing is printed. *)
Theorem classify_loop_skips_bad_json (idx : nat)
    (pre post : list (gmap string Json * string))
    (row : gmap string Json) (classification_str : string) (w : World G) :
  not_json env classification_str →
  ∃ w1 w1' w2,
    classify_loop env idx pre w = (Returns tt, w1)
    ∧ classify_row env (idx + length pre) classification_str w1 = (Returns tt, w1')
    ∧ classify_loop env (S (idx + length pre)) post w1' = (Returns tt, w2)
    ∧ classify_loop env idx (pre ++ (row, classification_str) :: post) w
      = (Returns tt, w2)
    ∧ (classification_str ≠ EmptyString →
       w1' = log (Printed (JsonParseWarning classification_str)) w1
       ∧ rows (dataframe w2) !! (idx + length pre) = rows (dataframe w) !! (idx + length pre)
       ∧ (∀ col, cell (dataframe w2) (idx + length pre) col
                 = cell (dataframe w) (idx + length pre) col))
    ∧ (classification_str = EmptyString →
       stores env (JStr EmptyString) →
       idx + length pre < length (rows (dataframe w)) →
       trace w1' = trace w1
       ∧ cell (dataframe w2) (idx + length pre) "primary_category"
         = Some (JStr EmptyString)
       ∧ cell (dataframe w2) (idx + length pre) "secondary_category"
         = Some (JStr EmptyString)).
Proof.
  intros Hbad.
  destruct (classify_loop_frame idx pre w) as (w1 & ds1 & Hpre & _ & _ & Hr1).
  destruct (classify_row_frame (idx + length pre) classification_str w1)
    as (w1' & ds & Hrow & _).
  destruct (classify_loop_frame (S (idx + length pre)) post w1')
    as (w2 & ds2 & Hpost & _ & _ & Hr2).
  exists w1, w1', w2. split; [done|]. split; [done|]. split; [done|].
  split; [|split].
  - rewrite classify_loop_app, Hpre. simpl snd.
    rewrite classify_loop_cons, Hrow. simpl snd. exact Hpost.
  - intros Hne.
    assert (w1' = log (Printed (JsonParseWarning classification_str)) w1) as ->.
    { rewrite classify_row_cases in Hrow. unfold parsed in Hrow.
      destruct classification_str; [done|]. simpl truthy in Hrow. cbv iota in Hrow.
      unfold not_json in Hbad. rewrite Hbad in Hrow. by injection Hrow as <-. }
    assert (rows (dataframe w2) !! (idx + length pre)
            = rows (dataframe w) !! (idx + length pre)) as Hrows.
    { rewrite Hr2 by lia. simpl. apply Hr1. lia. }
    split; [done|]. split; [done|]. intros col. unfold cell. by rewrite Hrows.
  - intros -> Hst Hlt.
    assert (idx + length pre < length (rows (dataframe w1))) as Hlt1.
    { apply lookup_lt_is_Some. rewrite Hr1 by lia. by apply lookup_lt_is_Some. }
    destruct (classify_row_empty (idx + length pre) w1 Hst Hlt1)
      as (w' & Hrow' & Ht & Hp & Hs).
    rewrite Hrow' in Hrow. injection Hrow as <-.
    split; [done|]. unfold cell in *. by rewrite Hr2 by lia.
Qed.

Lemma writes_app (a b : list (Event G)) : writes (a ++ b) = writes a || writes b.
Proof. apply existsb_app. Qed.

Lemma writes_prints (ds : list Diagnostic) : writes (map (@Printed G) ds) = false.
Proof. induction ds as [|d ds IH]; [done|]. exact IH. Qed.

(** [run] step by step: every path ends in [Returns], the faults end in
    the diagnostic of the handler of line 99. *)
Lemma run_cases (self : QuestionCategoryClassifier G) (w : World G) :
  run env self w =
    match env_read_json env (trace w) (input_file self) with
    | Raises e =>
        (Returns tt,
         log (Printed (RunError e)) (log (ReadJson (input_file self) (Raises e)) w))
    | Returns df =>
        let w1 := set_dataframe df (log (ReadJson (input_file self) (Returns df)) w) in
        match _reformat_prompt env self df with
        | Raises e => (Returns tt, log (Printed (RunError e)) w1)
        | Returns prompts =>
            match env_generate_text_from_input env (trace w1) (model self) prompts with
            | Raises e =>
                (Returns tt,
                 log (Printed (RunError e)) (log (GenerateText prompts (Raises e)) w1))
            | Returns responses =>
                let w2 := (classify_loop env 0 (zip (rows df) responses)
                             (log (GenerateText prompts (Returns responses)) w1)).2 in
                if bool_decide (output_key self ∈ columns (dataframe w2)) then
                  (Returns tt,
                   log (Printed (RunError (output_key_fault (output_key self)))) w2)
                else
                  let dir := os_path_dirname (output_file self) in
                  match env_makedirs env (trace w2) dir with
                  | Raises e =>
                      (Returns tt,
                       log (Printed (RunError e)) (log (MakeDirs dir (Raises e)) w2))
                  | Returns u =>
                      let w3 := log (MakeDirs dir (Returns u)) w2 in
                      match env_to_json env (trace w3) (dataframe w2) (output_file self) with
                      | Raises e =>
                          (Returns tt,
                           log (Printed (RunError e))
                             (log (ToJson (dataframe w2) (output_file self) (Raises e)) w3))
                      | Returns u' =>
                          (Returns tt,
                           log (Printed (ResultsSaved (output_file self)))
                             (log (ToJson (dataframe w2) (output_file self) (Returns u')) w3))
                      end
                  end
            end
        end
    end.
Proof.
  unfold run, try_except, bind, call, modify, lift_outcome, get, raise, print.
  destruct (env_read_json env (trace w) (input_file self)) as [df|e]; [|reflexivity].
  destruct (_reformat_prompt env self df) as [prompts|e]; [|reflexivity].
  cbn [trace set_dataframe log].
  destruct (env_generate_text_from_input env _ (model self) prompts)
    as [responses|e]; [|reflexivity].
  match goal with
  | |- context [classify_loop env 0 ?p ?W] =>
      destruct (classify_loop_frame 0 p W) as (w2 & ds & Hloop & _)
  end.
  unfold log, set_dataframe in *. cbn [trace dataframe] in *. rewrite Hloop.
  cbn [snd]. case_bool_decide; [reflexivity|].
  destruct (env_makedirs env (trace w2) _) as [u|e]; [|reflexivity].
  cbn [trace]. destruct (env_to_json env _ _ _) as [u'|e]; reflexivity.
Qed.

(** C7, as the code has it.  Let the frame read from the input file have a
    column named [output_key].  Then [run] RETURNS to its caller (the claim
    says: raises to it): whatever fault ends the work is caught by [run]
    itself, which prints it.  Nothing touches the output: no directory is
    made and no file is written.  When the prompts are built and the back
    end answers, the fault is the schema fault of line 88, raised once the
    back end has been called and the loop has worked on every row that has
    a response (the claim says: immediately): [run] ends in the world that
    the whole loop leaves, with the fault printed behind it. *)
Theorem run_output_key_exists (self : QuestionCategoryClassifier G) (w : World G)
    (df : DataFrame) :
  env_read_json env (trace w) (input_file self) = Returns df →
  output_key self ∈ columns df →
  (∃ e mid w',
     run env self w = (Returns tt, w')
     ∧ trace w' = trace w ++ ReadJson (input_file self) (Returns df) :: mid
                  ++ [Printed (RunError e)]
     ∧ writes mid = false)
  ∧ (∀ prompts responses,
       _reformat_prompt env self df = Returns prompts →
       env_generate_text_from_input env
         (trace w ++ [ReadJson (input_file self) (Returns df)]) (model self) prompts
       = Returns responses →
       ∃ w2 ds,
         classify_loop env 0 (zip (rows df) responses)
           (answered self df prompts responses w) = (Returns tt, w2)
         ∧ trace w2 = trace w
                      ++ [ReadJson (input_file self) (Returns df);
                          GenerateText prompts (Returns responses)]
                      ++ map Printed ds
         ∧ run env self w
           = (Returns tt,
              log (Printed (RunError (output_key_fault (output_key self)))) w2)).
Proof.
  intros Hread Hkey. rewrite run_cases, Hread. cbv zeta.
  destruct (_reformat_prompt env self df) as [prompts|e] eqn:Hfmt.
  - cbn [trace set_dataframe log].
    destruct (env_generate_text_from_input env _ (model self) prompts)
      as [responses|e] eqn:Hgen.
    + match goal with
      | |- context [classify_loop env 0 ?p ?W] =>
          destruct (classify_loop_frame 0 p W) as (w2 & ds & Hloop & Ht & Hc & _)
      end.
      rewrite Hloop. cbn [snd].
      rewrite bool_decide_eq_true_2 by (by apply Hc).
      cbn [trace set_dataframe log] in Ht. split.
      * exists (output_key_fault (output_key self)),
          (GenerateText prompts (Returns responses) :: map Printed ds).
        eexists. split; [reflexivity|]. split; [|apply writes_prints].
        cbn [trace log]. rewrite Ht. by rewrite <- !app_assoc.
      * intros prompts' responses' [= <-] Hgen'. rewrite Hgen' in Hgen.
        injection Hgen as <-. exists w2, ds. split; [exact Hloop|]. split; [|done].
        rewrite Ht. by rewrite <- !app_assoc.
    + split.
      * exists e, [GenerateText prompts (Raises e)]. eexists.
        split; [reflexivity|]. split; [|reflexivity].
        cbn [trace log set_dataframe]. by rewrite <- !app_assoc.
      * intros prompts' responses' [= <-] Hgen'. rewrite Hgen' in Hgen. discriminate.
  - split.
    + exists e, []. eexists. split; [reflexivity|]. split; [|reflexivity].
      cbn [trace log set_dataframe]. by rewrite <- !app_assoc.
    + intros prompts' responses' [=].
Qed.

End ClassifierRun.


Section ClassifierRunSamples.
Import PyStr Classifier ClassifierSpec.

(** The back end answers the first question with text that is not JSON and
    the second with a classification. *)
Local Abbreviation answers := ["oops"; math_json].
Local Abbreviation loaded := (set_dataframe sample_frame (initial_world (Generator := unit))).

Lemma classify_loop_skips_bad_json_witness :
  cell (dataframe (classify_loop (sample_env answers) 0
                     (zip (rows sample_frame) answers) loaded).2)
       0 "primary_category" = None
  ∧ cell (dataframe (classify_loop (sample_env answers) 0
                       (zip (rows sample_frame) answers) loaded).2)
         1 "primary_category" = Some (JStr "math")
  ∧ cell (dataframe (classify_loop (sample_env answers) 0
                       (zip (rows sample_frame) [EmptyString; math_json]) loaded).2)
         0 "secondary_category" = Some (JStr EmptyString).
Proof.
  split; [|split; [reflexivity|]].
  - destruct (classify_loop_skips_bad_json (sample_env answers) 0 []
                [({["question" := JStr "3*3?"]}, math_json)]
                {["question" := JStr "2+2?"]} "oops" loaded eq_refl)
      as (w1 & w1' & w2 & _ & _ & _ & Hrun & Hfull & _).
    destruct Hfull as (_ & _ & Hcell); [discriminate|].
    change (zip (rows sample_frame) answers)
      with ([] ++ ({["question" := JStr "2+2?"]} : gmap string Json, "oops")
               :: [({["question" := JStr "3*3?"]} : gmap string Json, math_json)]).
    rewrite Hrun. cbn [snd].
    etrans; [exact (Hcell "primary_category")|reflexivity].
  - destruct (classify_loop_skips_bad_json (sample_env answers) 0 []
                [({["question" := JStr "3*3?"]}, math_json)]
                {["question" := JStr "2+2?"]} EmptyString loaded eq_refl)
      as (w1 & w1' & w2 & _ & _ & _ & Hrun & _ & Hempty).
    destruct (Hempty eq_refl) as (_ & _ & Hcell).
    + intros tr df idx col. reflexivity.
    + simpl. lia.
    + change (zip (rows sample_frame) [EmptyString; math_json])
        with ([] ++ ({["question" := JStr "2+2?"]} : gmap string Json, EmptyString)
                 :: [({["question" := JStr "3*3?"]} : gmap string Json, math_json)]).
      rewrite Hrun. exact Hcell.
Defined.

(** C9 as it is stated fails: after a whole run, the row whose response was
    not JSON holds no value in the two category columns; it does not hold
    the empty string.  (The empty string is what an empty response gets.) *)
Lemma run_bad_json_cells_counterexample :
  not_json (sample_env answers) "oops"
  ∧ fst (run (sample_env answers) (sample_classifier "label") initial_world) = Returns tt
  ∧ (∃ tr df,
       trace (snd (run (sample_env answers) (sample_classifier "label") initial_world))
       = tr ++ [ToJson df "out/labels.jsonl" (Returns tt);
                Printed (ResultsSaved "out/labels.jsonl")]
       ∧ cell df 0 "primary_category" = None
       ∧ cell df 0 "secondary_category" = None
       ∧ cell df 0 "primary_category" ≠ Some (JStr EmptyString)
       ∧ cell df 1 "secondary_category" = Some (JStr "arithmetic"))
  ∧ cell (dataframe (snd (run (sample_env [EmptyString; math_json])
                            (sample_classifier "label") initial_world)))
         0 "primary_category" = Some (JStr EmptyString).
Proof.
  split; [reflexivity|]. split; [reflexivity|]. split.
  - eexists [_; _; _; _], _. split; [reflexivity|].
    split; [reflexivity|]. split; [reflexivity|]. split; [discriminate|reflexivity].
  - reflexivity.
Qed.

Lemma run_output_key_exists_witness :
  fst (run (sample_env answers) (sample_classifier "question") initial_world) = Returns tt
  ∧ writes (trace (snd (run (sample_env answers) (sample_classifier "question")
                          initial_world))) = false
  ∧ ∃ ds,
      trace (snd (run (sample_env answers) (sample_classifier "question") initial_world))
      = [ReadJson "in/questions.jsonl" (Returns sample_frame);
         GenerateText ["Classify the question."; "Classify the question."]
           (Returns answers)]
        ++ map Printed ds
        ++ [Printed (RunError (output_key_fault "question"))].
Proof.
  destruct (run_output_key_exists (sample_env answers) (sample_classifier "question")
              initial_world sample_frame)
    as [(e & mid & w' & Hrun & Ht & Hw) Hfault].
  - reflexivity.
  - set_solver.
  - split; [by rewrite Hrun|]. split.
    + rewrite Hrun. cbn [snd]. rewrite Ht.
      change (ReadJson (input_file (sample_classifier "question")) (Returns sample_frame)
                :: mid ++ [Printed (RunError e)])
        with ([ReadJson (input_file (sample_classifier "question")) (Returns sample_frame)]
                ++ mid ++ [Printed (RunError e)]).
      rewrite !writes_app, Hw. reflexivity.
    + destruct (Hfault ["Classify the question."; "Classify the question."] answers
                  eq_refl eq_refl) as (w2 & ds & _ & Ht2 & Hrun2).
      exists ds. rewrite Hrun2. cbn [snd log trace]. rewrite Ht2.
      cbn [trace initial_world]. rewrite <- !app_assoc. reflexivity.
Defined.

(** C7 as it is stated fails: with [output_key] naming the column
    [question] of the input, [run] returns to its caller, and the schema
    fault comes after the back end was called and the rows were worked on. *)
Lemma run_returns_after_schema_fault_counterexample :
  output_key (sample_classifier "question") ∈ columns sample_frame
  ∧ fst (run (sample_env answers) (sample_classifier "question") initial_world) = Returns tt
  ∧ (∃ prompts,
       trace (snd (run (sample_env answers) (sample_classifier "question") initial_world))
       = [ReadJson "in/questions.jsonl" (Returns sample_frame);
          GenerateText prompts (Returns answers);
          Printed (JsonParseWarning "oops");
          Printed (RunError (output_key_fault "question"))]).
Proof.
  split; [set_solver|]. split; [reflexivity|]. eexists. reflexivity.
Qed.

End ClassifierRunSamples.

(* ===================================================================== *)
(** * Further properties of models/model.py *)
(* ===================================================================== *)

Section GatewayFurther.
Import PyStr Model Spec.

(** X1: A model name that is none of the three makes [glm] (and
    [get_glm_reply]) print one diagnostic and return the empty list without
    a single request to the gateway. *)
Theorem glm_unsupported_model (env : Env) (prompt model : string) (temperature : Q)
    (max_tokens seed : Z) (w : World) :
  model ∉ ["ChatGLM2"; "GLM4"; "GLM3"] →
  glm env prompt model temperature max_tokens seed w
  = (Returns [], log (Printed UnsupportedGlmModel) w)
  ∧ get_glm_reply env prompt model temperature max_tokens seed w
    = (Returns [], log (Printed UnsupportedGlmModel) w)
  ∧ post_attempts (trace (log (Printed UnsupportedGlmModel) w)) = post_attempts (trace w).
Proof.
  intros Hm. unfold glm, get_glm_reply.
  destruct (String.eqb_spec model "ChatGLM2") as [->|_]; [set_solver|].
  destruct (String.eqb_spec model "GLM4") as [->|_]; [set_solver|].
  destruct (String.eqb_spec model "GLM3") as [->|_]; [set_solver|].
  split; [done|]. split; [done|].
  rewrite log_logs, post_attempts_logs.
  change (post_attempts [Printed UnsupportedGlmModel]) with 0. lia.
Qed.

Lemma glm_unsupported_model_witness :
  (glm gateway_down "hello" "GLM5" (7 # 10) 1000 170 initial_world).1 = Returns [].
Proof.
  assert ("GLM5" ∉ ["ChatGLM2"; "GLM4"; "GLM3"]) as Hm.
  { intros Hin. repeat (apply elem_of_cons in Hin as [Hin|Hin]; [discriminate Hin|]).
    by apply elem_of_nil in Hin. }
  rewrite (proj1 (glm_unsupported_model gateway_down "hello" "GLM5" (7 # 10) 1000 170
                    initial_world Hm)).
  reflexivity.
Defined.

Lemma after_failed_posts_cons (req : PostRequest) (e : Exn) (es : list Exn) (w : World) :
  after_failed_posts req (e :: es) w
  = after_failed_posts req es (logs (failed_post req e) w).
Proof. unfold after_failed_posts. simpl. by rewrite logs_logs. Qed.

Lemma post_attempts_after_failed (req : PostRequest) (es : list Exn) (w : World) :
  post_attempts (trace (after_failed_posts req es w))
  = post_attempts (trace w) + length es.
Proof.
  revert w. induction es as [|e es IH]; intros w.
  - change (after_failed_posts req [] w) with (logs [] w). rewrite logs_nil. simpl. lia.
  - rewrite after_failed_posts_cons, IH, post_attempts_logs.
    change (post_attempts (failed_post req e)) with 1. simpl length. lia.
Qed.

(** The loop around [requests.post] stops at the first answer. *)
Lemma post_loop_first_answer (env : Env) (tol : nat) (req : PostRequest)
    (es : list Exn) (response : HttpResponse) (w : World) :
  length es < tol →
  fails_then_answers env req es response w →
  post_loop env tol req w
  = (Returns (Some response),
     log (PostCall req (Returns response)) (after_failed_posts req es w)).
Proof.
  revert tol w. induction es as [|e es IH]; intros tol w Hlen [Hfail Hok].
  - destruct tol as [|tol]; [simpl in Hlen; lia|].
    change (after_failed_posts req [] w) with (logs [] w) in *.
    rewrite logs_nil in *. by rewrite post_loop_S, Hok.
  - destruct tol as [|tol]; [simpl in Hlen; lia|].
    rewrite post_loop_S.
    pose proof (Hfail 0 e eq_refl) as H0.
    change (after_failed_posts req (take 0 (e :: es)) w) with (logs [] w) in H0.
    rewrite logs_nil in H0. rewrite H0.
    rewrite after_failed_posts_cons. apply IH; [simpl in Hlen; lia|]. split.
    + intros i e' Hi. rewrite <- after_failed_posts_cons.
      apply (Hfail (S i) e'). exact Hi.
    + by rewrite <- after_failed_posts_cons.
Qed.

Lemma get_glm_reply_glm_decode (env : Env) (query model : string) (temperature : Q)
    (max_tokens seed : Z) (w : World) :
  model ∈ ["ChatGLM2"; "GLM4"; "GLM3"] →
  get_glm_reply env query model temperature max_tokens seed w
  = bind (post_loop env 3 (glm_request model query temperature max_tokens seed))
         (glm_decode model) w.
Proof.
  intros Hm. repeat (apply elem_of_cons in Hm as [->|Hm]); try reflexivity.
  by apply elem_of_nil in Hm.
Qed.

(** X2: When the gateway fails fewer than 3 times in a row and then answers,
    [get_glm_reply] asks it once more than it failed and not again, and
    goes on with that answer. *)
Theorem get_glm_reply_first_answer (env : Env) (query model : string)
    (temperature : Q) (max_tokens seed : Z) (es : list Exn)
    (response : HttpResponse) (w : World) :
  model ∈ ["ChatGLM2"; "GLM4"; "GLM3"] →
  length es < 3 →
  fails_then_answers env (glm_request model query temperature max_tokens seed)
    es response w →
  let req := glm_request model query temperature max_tokens seed in
  let w1 := log (PostCall req (Returns response)) (after_failed_posts req es w) in
  get_glm_reply env query model temperature max_tokens seed w
  = glm_decode model (Some response) w1
  ∧ post_attempts (trace w1) = post_attempts (trace w) + length es + 1
  ∧ post_attempts (trace (glm_decode model (Some response) w1).2)
    = post_attempts (trace w) + length es + 1.
Proof.
  intros Hm Hlen Hgw req w1.
  rewrite (get_glm_reply_glm_decode _ _ _ _ _ _ _ Hm).
  unfold bind at 1. fold req. rewrite (post_loop_first_answer env 3 req es response w Hlen Hgw).
  fold w1.
  assert (post_attempts (trace w1) = post_attempts (trace w) + length es + 1) as Hw1.
  { unfold w1. rewrite log_logs, post_attempts_logs, post_attempts_after_failed.
    change (post_attempts [PostCall req (Returns response)]) with 1. lia. }
  split; [done|]. split; [done|].
  rewrite <- Hw1.
  assert (∀ d, post_attempts (trace (log (Printed d) w1)) = post_attempts (trace w1)) as Hp.
  { intros d. rewrite log_logs, post_attempts_logs.
    change (post_attempts [Printed d]) with 0. lia. }
  repeat (apply elem_of_cons in Hm as [->|Hm]); [| | |by apply elem_of_nil in Hm].
  - change (glm_decode "ChatGLM2") with ChatGLM2_decode.
    unfold ChatGLM2_decode, bind, lift_outcome.
    by destruct (decode_utf8 (resp_content response)).
  - change (glm_decode "GLM4") with GLM4_decode.
    unfold GLM4_decode, bind, lift_outcome.
    destruct (decode_utf8 (resp_content response)) as [reply|]; [|done].
    destruct (GLM4_content reply); [done|apply Hp].
  - change (glm_decode "GLM3") with GLM3_decode.
    unfold GLM3_decode, bind, lift_outcome.
    destruct (decode_utf8 (resp_content response)) as [reply|]; [|done].
    destruct (GLM3_content reply); [done|apply Hp].
Qed.

Lemma get_glm_reply_first_answer_witness :
  (get_glm_reply (flaky_gateway 2 complete_body) "q" "GLM4" (7 # 10) 1000 175
     initial_world).1 = Returns ["one"; "two"]
  ∧ post_attempts
      (trace (get_glm_reply (flaky_gateway 2 complete_body) "q" "GLM4" (7 # 10) 1000 175
                initial_world).2) = 3.
Proof.
  destruct (get_glm_reply_first_answer (flaky_gateway 2 complete_body) "q" "GLM4"
              (7 # 10) 1000 175
              [OtherException "ConnectionError"; OtherException "ConnectionError"]
              {| resp_content := complete_body |} initial_world)
    as (Hrun & _ & Hcount).
  - set_solver.
  - simpl. lia.
  - split; [|reflexivity].
    intros i e Hi. destruct i as [|[|i]]; simpl in Hi; try discriminate;
      injection Hi as <-; reflexivity.
  - rewrite Hrun. split; [reflexivity|exact Hcount].
Defined.

(** X3: A body that is not UTF-8 makes [get_glm_reply] raise to its caller: the
    decoding of the body (lines 186, 219, 257) stands outside every [try]. *)
Theorem get_glm_reply_body_not_utf8 (env : Env) (query model : string)
    (temperature : Q) (max_tokens seed : Z) (response : HttpResponse) (w w' : World) :
  model ∈ ["ChatGLM2"; "GLM4"; "GLM3"] →
  post_loop env 3 (glm_request model query temperature max_tokens seed) w
  = (Returns (Some response), w') →
  decode_utf8 (resp_content response) = Raises UnicodeDecodeError →
  get_glm_reply env query model temperature max_tokens seed w
  = (Raises UnicodeDecodeError, w').
Proof.
  intros Hm Hpost Hdec. rewrite (get_glm_reply_glm_decode _ _ _ _ _ _ _ Hm).
  unfold bind at 1. rewrite Hpost.
  repeat (apply elem_of_cons in Hm as [->|Hm]); [| | |by apply elem_of_nil in Hm].
  - change (glm_decode "ChatGLM2") with ChatGLM2_decode.
    unfold ChatGLM2_decode, bind, lift_outcome. by rewrite Hdec.
  - change (glm_decode "GLM4") with GLM4_decode.
    unfold GLM4_decode, bind, lift_outcome. by rewrite Hdec.
  - change (glm_decode "GLM3") with GLM3_decode.
    unfold GLM3_decode, bind, lift_outcome. by rewrite Hdec.
Qed.

Lemma get_glm_reply_body_not_utf8_witness :
  (get_glm_reply (gateway_answering broken_body) "q" "ChatGLM2" (7 # 10) 1000 175
     initial_world).1 = Raises UnicodeDecodeError.
Proof.
  rewrite (get_glm_reply_body_not_utf8 (gateway_answering broken_body) "q" "ChatGLM2"
             (7 # 10) 1000 175 {| resp_content := broken_body |} initial_world
             (log (PostCall (ChatGLM2_request "q" (7 # 10) 1000 175)
                     (Returns {| resp_content := broken_body |})) initial_world)
             ltac:(set_solver) eq_refl eq_refl).
  reflexivity.
Defined.

End GatewayFurther.

Section DecodersFurther.
Import PyStr Model Spec.

(** The text in front of the first separator holds no separator. *)
Lemma before_first_no_sep (sep s : string) :
  sep ≠ EmptyString → ¬ occurs sep (before_first sep s).
Proof.
  intros Hsep. unfold before_first.
  destruct (find_sep sep s) as [[a b]|] eqn:Hf; [|by apply find_sep_None].
  intros (x & y & Ha).
  pose proof (find_sep_first sep s a b x (y +:+ sep +:+ b) Hf) as Hlen.
  apply find_sep_Some in Hf. rewrite Hf, Ha, !str_app_assoc in Hlen.
  specialize (Hlen eq_refl). rewrite !len_app in Hlen.
  destruct sep; [done|]. unfold len in Hlen. simpl in Hlen. lia.
Qed.

(** X4: With both markers in place the GLM4 and GLM3 branches return, split on
    newlines, the text [content] that stands between the first leading
    marker and the first terminating marker behind it; the search for the
    terminating marker ends at the next leading marker. *)
Theorem glm_reply_between_markers (env : Env) (model query : string)
    (temperature : Q) (max_tokens seed : Z) (w w' : World)
    (response : HttpResponse) (reply pre rest content tail : string) :
  model = "GLM4" ∨ model = "GLM3" →
  post_loop env 3 (chat_request model query temperature max_tokens) w
  = (Returns (Some response), w') →
  decode_utf8 (resp_content response) = Returns reply →
  find_sep content_marker reply = Some (pre, rest) →
  find_sep role_marker (before_first content_marker rest) = Some (content, tail) →
  get_glm_reply env query model temperature max_tokens seed w
  = (Returns (split content nl), w')
  ∧ (∃ suffix,
       reply = pre +:+ content_marker +:+ content +:+ role_marker +:+ suffix)
  ∧ ¬ occurs content_marker (content +:+ role_marker +:+ tail)
  ∧ ¬ occurs role_marker content.
Proof.
  intros Hmodel Hpost Hdec Hlead Hterm.
  assert (GLM4_content reply = Returns content) as Hcontent.
  { unfold GLM4_content.
    rewrite (split_unfold reply) by apply content_marker_not_empty. rewrite Hlead.
    rewrite (split_unfold rest) by apply content_marker_not_empty.
    unfold before_first in Hterm.
    destruct (find_sep content_marker rest) as [[a b]|]; simpl;
      rewrite split_unfold by apply role_marker_not_empty; by rewrite Hterm. }
  split; [|split; [|split]].
  - rewrite (get_glm_reply_chat _ _ _ _ _ _ _ Hmodel).
    unfold bind at 1. rewrite Hpost. unfold GLM4_decode, bind, lift_outcome.
    by rewrite Hdec, Hcontent.
  - apply find_sep_Some in Hlead as ->. pose proof (find_sep_Some _ _ _ _ Hterm) as Hseg.
    unfold before_first in Hseg.
    destruct (find_sep content_marker rest) as [[a b]|] eqn:Hnext.
    + apply find_sep_Some in Hnext as ->. subst a.
      exists (tail +:+ content_marker +:+ b). by rewrite !str_app_assoc.
    + subst rest. by exists tail.
  - rewrite <- (find_sep_Some _ _ _ _ Hterm).
    apply before_first_no_sep, content_marker_not_empty.
  - pose proof (before_first_no_sep role_marker (before_first content_marker rest)
                  role_marker_not_empty) as Hno.
    unfold before_first at 1 in Hno. by rewrite Hterm in Hno.
Qed.

Lemma glm_reply_between_markers_witness :
  (get_glm_reply (gateway_answering complete_body) "q" "GLM3" (7 # 10) 1000 175
     initial_world).1 = Returns ["one"; "two"].
Proof.
  destruct (glm_reply_between_markers (gateway_answering complete_body) "GLM3" "q"
              (7 # 10) 1000 175 initial_world
              (log (PostCall (GLM3_request "q" (7 # 10) 1000)
                      (Returns {| resp_content := complete_body |})) initial_world)
              {| resp_content := complete_body |} complete_body
              "{" ("one" +:+ nl +:+ "two" +:+ role_marker +:+ "}")
              ("one" +:+ nl +:+ "two") "}"
              (or_intror eq_refl) eq_refl eq_refl eq_refl eq_refl)
    as (Hrun & _).
  rewrite Hrun. reflexivity.
Defined.

(** X5: Whatever the text, each string that [extract_data] returns is the
    non-empty remainder of a line of the text that starts with [data: ]; and
    there are fewer strings than lines. *)
Theorem extract_data_elements (text : string) :
  (∀ x, x ∈ extract_data text →
        x ≠ EmptyString
        ∧ ∃ line, line ∈ split text nl ∧ line = "data: " +:+ x)
  ∧ length (extract_data text) < length (split text nl).
Proof.
  unfold extract_data. rewrite extract_loop_waiting. simpl app.
  assert (∀ (lines : list string) x, x ∈ omap data_payload lines →
            x ≠ EmptyString ∧ ∃ line, line ∈ lines ∧ line = "data: " +:+ x) as Hel.
  { intros lines x (line & Hin & Hp)%list_elem_of_omap.
    unfold data_payload in Hp.
    destruct (startswith line "data: ") eqn:Hs; [|done]. rewrite andb_true_l in Hp.
    destruct (0 <? len (slice_from 6 line)) eqn:Hl; [|done]. injection Hp as <-.
    split.
    - intros Hx. apply (f_equal len) in Hx. apply Nat.ltb_lt in Hl.
      change (len (slice_from 6 line) = 0) in Hx. lia.
    - exists line. split; [done|]. by apply startswith_cut in Hs. }
  assert (∀ lines : list string, ∀ l, l ∈ after_finish lines → l ∈ lines) as Hsub.
  { induction lines as [|line rest IH]; intros l Hl; simpl in Hl; [done|].
    apply elem_of_cons. right.
    destruct (startswith line "event: finish"); [done|by apply IH]. }
  assert (∀ lines : list string,
            lines ≠ [] → length (after_finish lines) < length lines) as Hlen.
  { induction lines as [|line rest IH]; intros Hne; [done|]. simpl.
    destruct (startswith line "event: finish"); [lia|].
    destruct rest; [simpl; lia|]. specialize (IH ltac:(done)). simpl in *. lia. }
  split.
  - intros x Hx. destruct (Hel _ _ Hx) as (Hne & line & Hin & Hline).
    split; [done|]. exists line. split; [by apply Hsub|done].
  - eapply Nat.le_lt_trans; [|apply Hlen, split_not_nil].
    generalize (after_finish (split text nl)). intros lines.
    induction lines as [|line rest IH]; [done|].
    rewrite omap_payload_cons. destruct (data_payload line); simpl; lia.
Qed.

Lemma extract_data_elements_witness :
  "abc" ≠ EmptyString
  ∧ ∃ line, line ∈ split finish_stream nl ∧ line = "data: " +:+ "abc".
Proof.
  apply (proj1 (extract_data_elements finish_stream) "abc").
  change (extract_data finish_stream) with ["abc"; "def"].
  apply elem_of_cons. by left.
Defined.

End DecodersFurther.

Section HostedApiFurther.
Import PyStr Model Spec.

Context (env : Env).

Lemma completion_attempts_app (a b : list Event) :
  completion_attempts (a ++ b) = completion_attempts a + completion_attempts b.
Proof. unfold completion_attempts. by rewrite List.filter_app, List.length_app. Qed.

Lemma gpt_failures_app (a b : list Event) :
  gpt_failures (a ++ b) = gpt_failures a + gpt_failures b.
Proof. unfold gpt_failures. by rewrite List.filter_app, List.length_app. Qed.

(** One call of [chatgpt] asks the provider at most [ceiling (n / 20)]
    times, and prints nothing. *)
Lemma chatgpt_loop_attempts (fuel : nat) (messages : list ChatMessage) (model : string)
    (temperature : Q) (max_tokens : Z) (stop : option string) (n : Z)
    (outputs : list string) (w : World) :
  ∃ new,
    trace (chatgpt_loop env fuel messages model temperature max_tokens stop n outputs w).2
    = trace w ++ new
    ∧ completion_attempts new ≤ Z.to_nat (ceil_div20 n)
    ∧ gpt_failures new = 0.
Proof.
  revert n outputs w. induction fuel as [|fuel IH]; intros n outputs w.
  - exists []. simpl. rewrite app_nil_r. split; [done|].
    split; [unfold completion_attempts; simpl; lia|done].
  - destruct (Z_le_gt_dec n 0) as [Hle|Hgt].
    + rewrite chatgpt_loop_done by done. exists []. simpl. rewrite app_nil_r.
      split; [done|]. split; [unfold completion_attempts; simpl; lia|done].
    + rewrite chatgpt_loop_round by lia. rewrite (ceil_div20_step n) by lia.
      destruct (env_completions env (trace w) _) as [res|e] eqn:Hcall.
      * match goal with
        | |- context [chatgpt_loop env fuel _ _ _ _ _ ?n' ?o' ?w'] =>
            destruct (IH n' o' w') as (new & Ht & Hc & Hf)
        end.
        eexists (_ :: new). rewrite Ht. simpl trace. rewrite <- app_assoc.
        split; [reflexivity|]. split.
        -- change (completion_attempts (?ev :: new))
             with (S (completion_attempts new)). lia.
        -- exact Hf.
      * eexists [_]. split; [reflexivity|]. split; [|done].
        change (completion_attempts [?ev]) with 1. lia.
Qed.

(** The rounds of [gpt], for the calls of [completions_with_backoff] that
    come back. *)
Lemma gpt_rounds (prompt model : string) (temperature : Q)
    (max_tokens n : Z) (stop : option string) (w : World) :
  ∃ out new w',
    gpt env prompt model temperature max_tokens n stop w = (Returns out, w')
    ∧ trace w' = trace w ++ new
    ∧ gpt_failures new ≤ 5
    ∧ completion_attempts new ≤ 5 * Z.to_nat (ceil_div20 n)
    ∧ (gpt_failures new = 5 → out = []).
Proof.
  unfold gpt. generalize 5 as cnt. intros cnt. revert w.
  induction cnt as [|cnt IH]; intros w.
  - exists [], [], w. simpl. rewrite app_nil_r.
    change (gpt_failures []) with 0. change (completion_attempts []) with 0.
    repeat split; try done; lia.
  - rewrite gpt_loop_round.
    destruct (chatgpt_loop_attempts (Z.to_nat n) [{| role := "user"; content := prompt |}]
                model temperature max_tokens stop n [] w) as (new1 & Ht1 & Hc1 & Hf1).
    fold (chatgpt env [{| role := "user"; content := prompt |}] model temperature
            max_tokens n stop) in Ht1.
    destruct (chatgpt env [{| role := "user"; content := prompt |}] model temperature
                max_tokens n stop w) as [[[|first others]|e] w1]; simpl in Ht1.
    + destruct (IH (log (Printed (GptReplyError IndexError)) w1))
        as (out & new & w' & Hrun & Ht & Hf & Hc & Hall).
      exists out, (new1 ++ Printed (GptReplyError IndexError) :: new), w'.
      rewrite Hrun, Ht. simpl trace. rewrite Ht1, <- !app_assoc.
      split; [done|]. split; [done|].
      rewrite gpt_failures_app, completion_attempts_app.
      change (gpt_failures (Printed (GptReplyError IndexError) :: new))
        with (S (gpt_failures new)).
      change (completion_attempts (Printed (GptReplyError IndexError) :: new))
        with (completion_attempts new).
      split; [lia|]. split; [lia|]. intros H. apply Hall. lia.
    + exists (split first nl), new1, w1. split; [done|]. split; [done|].
      split; [lia|]. split; [lia|]. intros H. lia.
    + destruct (IH (log (Printed (GptReplyError e)) w1))
        as (out & new & w' & Hrun & Ht & Hf & Hc & Hall).
      exists out, (new1 ++ Printed (GptReplyError e) :: new), w'.
      rewrite Hrun, Ht. simpl trace. rewrite Ht1, <- !app_assoc.
      split; [done|]. split; [done|].
      rewrite gpt_failures_app, completion_attempts_app.
      change (gpt_failures (Printed (GptReplyError e) :: new))
        with (S (gpt_failures new)).
      change (completion_attempts (Printed (GptReplyError e) :: new))
        with (completion_attempts new).
      split; [lia|]. split; [lia|]. intros H. apply Hall. lia.
Qed.

(** X6: No fault leaves [gpt].  A call of [gpt] that comes back (it does not
    while the decorator of line 92 goes on retrying) comes back with a
    list, not with an exception; by then it has gone through at most 5
    failed rounds, at most [5 * ceiling (n / 20)] calls of
    [completions_with_backoff] have come back, and after 5 failed rounds
    the list is empty. *)
Theorem gpt_lets_no_fault_out (prompt model : string) (temperature : Q)
    (max_tokens n : Z) (stop : option string) (w w' : World)
    (o : Outcome (list string)) :
  gpt env prompt model temperature max_tokens n stop w = (o, w') →
  ∃ out new,
    o = Returns out
    ∧ trace w' = trace w ++ new
    ∧ gpt_failures new ≤ 5
    ∧ completion_attempts new ≤ 5 * Z.to_nat (ceil_div20 n)
    ∧ (gpt_failures new = 5 → out = []).
Proof.
  intros Hcall.
  destruct (gpt_rounds prompt model temperature max_tokens n stop w)
    as (out & new & w1 & Hrun & Hrest).
  rewrite Hrun in Hcall. injection Hcall as <- <-. by exists out, new.
Qed.

(** X7: Asked for no sample ([n <= 0]), [chatgpt] returns the empty list
    without asking the provider, so [gpt] finds no first output in any of
    its 5 rounds: it prints 5 diagnostics and returns the empty list, and
    the provider is never asked. *)
Theorem gpt_no_samples (prompt model : string) (temperature : Q)
    (max_tokens n : Z) (stop : option string) (w : World) :
  (n ≤ 0)%Z →
  chatgpt env [{| role := "user"; content := prompt |}] model temperature max_tokens n
    stop w = (Returns [], w)
  ∧ gpt env prompt model temperature max_tokens n stop w
    = (Returns [], logs (replicate 5 (Printed (GptReplyError IndexError))) w).
Proof.
  intros Hn.
  assert (∀ w0, chatgpt env [{| role := "user"; content := prompt |}] model temperature
                  max_tokens n stop w0 = (Returns [], w0)) as Hchat.
  { intros w0. unfold chatgpt. by apply chatgpt_loop_done. }
  split; [apply Hchat|]. unfold gpt. generalize 5 as cnt. intros cnt. revert w.
  induction cnt as [|cnt IH]; intros w.
  - simpl. by rewrite logs_nil.
  - rewrite gpt_loop_round, Hchat, IH, log_logs, logs_logs. reflexivity.
Qed.

End HostedApiFurther.

Section HostedApiFurtherSamples.
Import PyStr Model Spec.

Lemma gpt_lets_no_fault_out_witness :
  (gpt gateway_down "hello" BASE_MODEL_GPT (7 # 10) 1000 3 None initial_world).1
  = Returns [].
Proof.
  destruct (gpt_lets_no_fault_out gateway_down "hello" BASE_MODEL_GPT (7 # 10) 1000 3 None
              initial_world _ _ (surjective_pairing _))
    as (out & new & Hout & Ht & _ & _ & Hall).
  rewrite Hout. f_equal. apply Hall.
  vm_compute in Ht. injection Ht as Ht. subst new. reflexivity.
Defined.

Lemma gpt_no_samples_witness :
  (gpt (echo_api "hi") "hello" BASE_MODEL_GPT (7 # 10) 1000 0 None initial_world).1
  = Returns []
  ∧ completion_attempts
      (trace (gpt (echo_api "hi") "hello" BASE_MODEL_GPT (7 # 10) 1000 0 None
                initial_world).2) = 0.
Proof.
  rewrite (proj2 (gpt_no_samples (echo_api "hi") "hello" BASE_MODEL_GPT (7 # 10) 1000 0 None
                    initial_world ltac:(lia))).
  split; reflexivity.
Defined.

End HostedApiFurtherSamples.

Section ProviderFaults.
Import PyStr Model Spec.

Lemma chatgpt_loop_raises (env : Env) (fuel : nat) (messages : list ChatMessage)
    (model : string) (temperature : Q) (max_tokens : Z) (stop : option string)
    (n : Z) (outputs : list string) (w w' : World) (e : Exn) :
  chatgpt_loop env fuel messages model temperature max_tokens stop n outputs w
  = (Raises e, w') →
  ∃ served req,
    trace w' = trace w ++ served ++ [CompletionCall req (Raises e)]
    ∧ Forall (fun ev => ∃ rq rs, ev = CompletionCall rq (Returns rs)) served
    ∧ completion_tokens w' = (completion_tokens w + completion_sum served)%N
    ∧ prompt_tokens w' = (prompt_tokens w + prompt_sum served)%N
    ∧ (1 ≤ cr_n req ≤ 20)%Z.
Proof.
  revert n outputs w. induction fuel as [|fuel IH]; intros n outputs w; [done|].
  destruct (Z_le_gt_dec n 0) as [Hle|Hgt].
  { by rewrite chatgpt_loop_done. }
  rewrite chatgpt_loop_round by lia.
  destruct (env_completions env (trace w) _) as [res|e0] eqn:Hcall.
  - intros Hrun. destruct (IH _ _ _ Hrun) as (served & req & Ht & Hall & Hc & Hp & Hn).
    simpl in Ht, Hc, Hp. rewrite <- app_assoc in Ht.
    eexists (_ :: served), req. split; [exact Ht|].
    split; [constructor; [by eexists _, _|done]|].
    simpl. split; [lia|split; [lia|done]].
  - intros [= <- <-]. eexists [], _. simpl.
    split; [reflexivity|]. split; [constructor|].
    unfold chat_completion_request. simpl. repeat split; lia.
Qed.

(** X8: [chatgpt] has no handler: when it raises, it raises what the provider
    raised at its last call (a call for 1 to 20 samples); the calls before
    that one were successful and their usage stays in the counters, while
    their outputs are lost with the exception. *)
Theorem chatgpt_raises_provider_fault (env : Env) (messages : list ChatMessage)
    (model : string) (temperature : Q) (max_tokens n : Z) (stop : option string)
    (w w' : World) (e : Exn) :
  chatgpt env messages model temperature max_tokens n stop w = (Raises e, w') →
  ∃ served req,
    trace w' = trace w ++ served ++ [CompletionCall req (Raises e)]
    ∧ Forall (fun ev => ∃ rq rs, ev = CompletionCall rq (Returns rs)) served
    ∧ completion_tokens w' = (completion_tokens w + completion_sum served)%N
    ∧ prompt_tokens w' = (prompt_tokens w + prompt_sum served)%N
    ∧ (1 ≤ cr_n req ≤ 20)%Z.
Proof.
  unfold chatgpt. intros Hrun.
  exact (chatgpt_loop_raises env (Z.to_nat n) messages model temperature max_tokens stop
           n [] w w' e Hrun).
Qed.

Lemma chatgpt_raises_provider_fault_witness :
  ∃ served req,
    trace (chatgpt (tiring_api 2 "hi") [] BASE_MODEL_GPT (7 # 10) 1000 45 None
             initial_world).2
    = trace initial_world ++ served ++ [CompletionCall req (Raises (OtherException "RateLimit"))]
    ∧ length served = 2
    ∧ completion_tokens (chatgpt (tiring_api 2 "hi") [] BASE_MODEL_GPT (7 # 10) 1000 45 None
                           initial_world).2 = 14%N.
Proof.
  destruct (chatgpt_raises_provider_fault (tiring_api 2 "hi") [] BASE_MODEL_GPT (7 # 10)
              1000 45 None initial_world
              (chatgpt (tiring_api 2 "hi") [] BASE_MODEL_GPT (7 # 10) 1000 45 None
                 initial_world).2
              (OtherException "RateLimit") eq_refl)
    as (served & req & Ht & _ & Hc & _).
  exists served, req. split; [exact Ht|].
  vm_compute in Ht. injection Ht as Ht.
  apply (app_inj_tail [_; _] served) in Ht as [<- _].
  split; [reflexivity|]. rewrite Hc. reflexivity.
Defined.

(** X9: After any sequence of calls into the module, [gpt_usage] reports the
    token counts that the successful hosted-API calls of the trace add up
    to, changes nothing, and for a back end other than [gpt-4] and
    [gpt-3.5-turbo] gives the cost -1. *)
Theorem gpt_usage_reports_trace (env : Env) (calls : list Call) (backend : string) :
  ∃ report,
    gpt_usage backend (run_calls env calls initial_world)
    = (Returns report, run_calls env calls initial_world)
    ∧ report_completion_tokens report
      = completion_sum (trace (run_calls env calls initial_world))
    ∧ report_prompt_tokens report
      = prompt_sum (trace (run_calls env calls initial_world))
    ∧ (backend ≠ "gpt-4" → backend ≠ "gpt-3.5-turbo" → report_cost report = (-1)%Q).
Proof.
  assert (accounted (run_calls env calls initial_world)) as [Hc Hp].
  { apply (accounted_advances initial_world); [done|apply advances_run_calls]. }
  eexists. split; [reflexivity|]. simpl. split; [done|]. split; [done|].
  intros H4 H35.
  destruct (String.eqb_spec backend "gpt-4") as [|_]; [done|].
  by destruct (String.eqb_spec backend "gpt-3.5-turbo") as [|_].
Qed.

Lemma gpt_usage_reports_trace_witness :
  ∃ report,
    (gpt_usage "gpt-4o" (run_calls (flaky_api 1 "hi") sample_session initial_world)).1
    = Returns report
    ∧ report_completion_tokens report = 28%N
    ∧ report_cost report = (-1)%Q.
Proof.
  destruct (gpt_usage_reports_trace (flaky_api 1 "hi") sample_session "gpt-4o")
    as (report & Hrun & Hc & _ & Hcost).
  exists report. rewrite Hrun. split; [reflexivity|]. split.
  - rewrite Hc. reflexivity.
  - apply Hcost; discriminate.
Defined.

End ProviderFaults.

(* ===================================================================== *)
(** * Further properties of QuestionDifficultyClassifier.py *)
(* ===================================================================== *)

Section ClassifierInitFurther.
Import PyStr Classifier ClassifierSpec.

Context {G : Type} (env : Env G).

(** X10: Without an input file or without an output file (missing or empty) the
    construction raises the [ValueError] of line 23 before it looks at the
    generator type: no generator is built, whatever the type. *)
Theorem init_requires_files (config : gmap string string) (w : World G) :
  truthy (config !! "input_file") = false ∨ truthy (config !! "output_file") = false →
  __init__ env config w
  = (Raises (ValueError "Both input_file and output_file must be specified in the config."
               []), w).
Proof.
  intros H. unfold __init__.
  destruct (truthy (config !! "input_file")), (truthy (config !! "output_file"));
    try reflexivity.
  by destruct H.
Qed.

(** X11: With both files configured and a generator type that, in lower case, is
    the name of a generator class ([local] when no type is configured), the
    construction calls the constructor of that class once, with the whole
    configuration; a fault of the constructor reaches the caller; otherwise
    the object reads the column [question] and has the output key
    [classification_result] unless the configuration names others. *)
Theorem init_builds_configured_generator (config : gmap string string)
    (kind : GeneratorKind) (w : World G) :
  truthy (config !! "input_file") = true →
  truthy (config !! "output_file") = true →
  lower (configured_generator_type config) = kind_name kind →
  __init__ env config w =
    match env_generator_init env (trace w) kind config with
    | Returns g =>
        (Returns {| config := config;
                    input_file := default EmptyString (config !! "input_file");
                    output_file := default EmptyString (config !! "output_file");
                    input_key := default "question" (config !! "input_key");
                    output_key := default "classification_result" (config !! "output_key");
                    model := g |},
         log (GeneratorInit kind config (Returns g)) w)
    | Raises e => (Raises e, log (GeneratorInit kind config (Raises e)) w)
    end.
Proof.
  intros Hin Hout Hkind. unfold __init__. rewrite Hin, Hout. simpl negb. cbv iota.
  unfold bind, __init_model__. fold (configured_generator_type config). rewrite Hkind.
  destruct kind; simpl; unfold new_generator, call;
    by destruct (env_generator_init env (trace w) _ config).
Qed.

End ClassifierInitFurther.

Section ClassifierInitFurtherSamples.
Import PyStr Classifier ClassifierSpec.

Lemma init_requires_files_witness :
  __init__ (sample_env []) {["generator_type" := "local"; "input_file" := "in.jsonl"]}
    initial_world
  = (Raises (ValueError "Both input_file and output_file must be specified in the config."
               []), initial_world).
Proof.
  apply init_requires_files. right. reflexivity.
Defined.

Lemma init_builds_configured_generator_witness :
  ∃ self,
    __init__ (sample_env []) (sample_config "AiSuite" "label") initial_world
    = (Returns self,
       log (GeneratorInit APIGenerator_aisuite (sample_config "AiSuite" "label")
              (Returns tt)) initial_world)
    ∧ input_key self = "question" ∧ output_key self = "label".
Proof.
  eexists. split.
  - exact (init_builds_configured_generator (sample_env []) (sample_config "AiSuite" "label")
             APIGenerator_aisuite initial_world eq_refl eq_refl eq_refl).
  - split; reflexivity.
Defined.

End ClassifierInitFurtherSamples.

Section ReformatPrompt.
Import PyStr Classifier ClassifierSpec.

Lemma skip_spaces_cons (backwards : bool) (a : ascii) (bs1 : list ascii) :
  skip_spaces backwards (a :: bs1) =
    if space1 a then skip_spaces backwards bs1
    else
      match bs1 with
      | [] => a :: bs1
      | b :: bs2 =>
          if (if backwards then space2 b a else space2 a b)
          then skip_spaces backwards bs2
          else
            match bs2 with
            | [] => a :: bs1
            | c :: bs3 =>
                if (if backwards then space3 c b a else space3 a b c)
                then skip_spaces backwards bs3
                else a :: bs1
            end
      end.
Proof. reflexivity. Qed.

(** Bytes without white space at their head are left as they are. *)
Lemma skip_spaces_fixed (backwards : bool) (bs : list ascii) :
  no_space_ahead backwards bs = true → skip_spaces backwards bs = bs.
Proof.
  destruct bs as [|a bs1]; [done|]. rewrite skip_spaces_cons.
  cbn [no_space_ahead]. destruct (space1 a); [done|].
  destruct bs1 as [|b bs2]; [done|].
  destruct (if backwards then space2 b a else space2 a b); [done|].
  destruct bs2 as [|c bs3]; [done|].
  by destruct (if backwards then space3 c b a else space3 a b c).
Qed.

(** What [skip_spaces] leaves is the end of the bytes, and has no white
    space at its head. *)
Lemma skip_spaces_sound (backwards : bool) (n : nat) (bs : list ascii) :
  length bs ≤ n →
  no_space_ahead backwards (skip_spaces backwards bs) = true
  ∧ ∃ dropped, bs = dropped ++ skip_spaces backwards bs.
Proof.
  revert bs. induction n as [|n IH]; intros bs Hlen.
  { destruct bs; [|simpl in Hlen; lia]. split; [done|by exists []]. }
  destruct bs as [|a bs1]; [split; [done|by exists []]|].
  rewrite skip_spaces_cons. simpl in Hlen. destruct (space1 a) eqn:H1.
  { destruct (IH bs1) as [Hc [p Hp]]; [lia|]. split; [done|].
    exists (a :: p). simpl. by rewrite <- Hp. }
  destruct bs1 as [|b bs2].
  { split; [cbn [no_space_ahead]; by rewrite H1|by exists []]. }
  simpl in Hlen. destruct (if backwards then space2 b a else space2 a b) eqn:H2.
  { destruct (IH bs2) as [Hc [p Hp]]; [lia|]. split; [done|].
    exists (a :: b :: p). simpl. by rewrite <- Hp. }
  destruct bs2 as [|c bs3].
  { split; [cbn [no_space_ahead]; by rewrite H1, H2|by exists []]. }
  simpl in Hlen. destruct (if backwards then space3 c b a else space3 a b c) eqn:H3.
  { destruct (IH bs3) as [Hc [p Hp]]; [lia|]. split; [done|].
    exists (a :: b :: c :: p). simpl. by rewrite <- Hp. }
  split; [cbn [no_space_ahead]; by rewrite H1, H2, H3|by exists []].
Qed.

(** Cutting bytes off the end brings no white space to the head. *)
Lemma no_space_ahead_prefix (backwards : bool) (front cut : list ascii) :
  no_space_ahead backwards (front ++ cut) = true → no_space_ahead backwards front = true.
Proof.
  destruct front as [|a [|b [|c front]]]; [done| | |by simpl].
  - cbn [app no_space_ahead]. by destruct (space1 a).
  - cbn [app no_space_ahead]. destruct (space1 a); [done|].
    by destruct (if backwards then space2 b a else space2 a b).
Qed.

(** [strip] leaves no white space at either end. *)
Lemma strip_stripped (s : string) : stripped (strip s).
Proof.
  unfold stripped, strip, rstrip, lstrip.
  rewrite !list_ascii_of_string_of_list_ascii.
  set (t := skip_spaces false (list_ascii_of_string s)).
  destruct (skip_spaces_sound false _ (list_ascii_of_string s) (le_n _)) as [Ht _].
  fold t in Ht.
  destruct (skip_spaces_sound true _ (rev t) (le_n _)) as [Hu [p Hp]].
  set (u := skip_spaces true (rev t)) in *.
  split; f_equal.
  - apply skip_spaces_fixed, (no_space_ahead_prefix false (rev u) (rev p)).
    by rewrite <- rev_app_distr, <- Hp, rev_involutive.
  - rewrite rev_involutive. f_equal. by apply skip_spaces_fixed.
Qed.

Context {G : Type} (env : Env G).

Lemma format_loop_spec (texts : list (option Json)) (acc : list string) :
  (∀ text, ∃ p, env_question_synthesis_prompt env text = Returns p) →
  ∃ prompts,
    format_loop env texts acc = Returns (acc ++ prompts)
    ∧ length prompts = length texts
    ∧ (∀ i text, texts !! i = Some text →
         ∃ p, env_question_synthesis_prompt env text = Returns p
              ∧ prompts !! i = Some (strip p)).
Proof.
  intros Htpl. revert acc. induction texts as [|text texts IH]; intros acc.
  - exists []. simpl. rewrite app_nil_r. split; [done|]. split; [done|]. by intros i t.
  - simpl. destruct (Htpl text) as [p Hp]. rewrite Hp. simpl.
    destruct (IH (acc ++ [strip p])) as (prompts & Hrun & Hlen & Hall).
    exists (strip p :: prompts). rewrite Hrun, <- app_assoc.
    split; [done|]. split; [simpl; by rewrite Hlen|].
    intros [|i] t Hi; simpl in Hi.
    + injection Hi as <-. by exists p.
    + by apply Hall.
Qed.

(** X12: [_reformat_prompt] refuses a frame without the column [input_key],
    naming the columns there are.  On a frame with the column, and with a
    template that builds a prompt from every cell, it returns one prompt per
    row, in the order of the rows: the template's prompt for the row's cell,
    without the white space at its ends. *)
Theorem reformat_prompt_one_per_row (self : QuestionCategoryClassifier G) (df : DataFrame) :
  (input_key self ∉ columns df →
   _reformat_prompt env self df
   = Raises (ValueError "input_key: {} not found in the dataframe. Available keys: {}"
               [ArgStr (input_key self); ArgList (columns df)]))
  ∧ (input_key self ∈ columns df →
     (∀ text, ∃ p, env_question_synthesis_prompt env text = Returns p) →
     ∃ prompts,
       _reformat_prompt env self df = Returns prompts
       ∧ length prompts = length (rows df)
       ∧ (∀ i row, rows df !! i = Some row →
            ∃ p, env_question_synthesis_prompt env (row !! input_key self) = Returns p
                 ∧ prompts !! i = Some (strip p))
       ∧ Forall stripped prompts).
Proof.
  unfold _reformat_prompt. split.
  - intros Hno. by rewrite bool_decide_eq_false_2.
  - intros Hin Htpl. rewrite bool_decide_eq_true_2 by done. simpl negb. cbv iota.
    destruct (format_loop_spec (map (fun r => r !! input_key self) (rows df)) [] Htpl)
      as (prompts & Hrun & Hlen & Hall).
    exists prompts. split; [exact Hrun|]. split; [by rewrite Hlen, length_map|].
    assert (∀ i row, rows df !! i = Some row →
              ∃ p, env_question_synthesis_prompt env (row !! input_key self) = Returns p
                   ∧ prompts !! i = Some (strip p)) as Hrows.
    { intros i row Hi. apply (Hall i). rewrite list_lookup_fmap, Hi. reflexivity. }
    split; [exact Hrows|].
    apply Forall_lookup. intros i x Hx.
    assert (i < length (rows df)) as Hlt.
    { rewrite <- (length_map (fun r => r !! input_key self)), <- Hlen.
      by apply lookup_lt_Some in Hx. }
    destruct (lookup_lt_is_Some_2 _ _ Hlt) as [row Hrow].
    destruct (Hrows i row Hrow) as (p & _ & Hp). rewrite Hp in Hx. injection Hx as <-.
    apply strip_stripped.
Qed.

End ReformatPrompt.

Section ReformatPromptSamples.
Import PyStr Classifier ClassifierSpec.

Lemma reformat_prompt_one_per_row_witness :
  _reformat_prompt framed_env (sample_classifier "label") sample_frame
  = Returns ["Classify the question."; "Classify the question."]
  ∧ ∃ e, _reformat_prompt (sample_env []) (sample_classifier_reading "prompt") sample_frame
         = Raises e.
Proof.
  split.
  - destruct (proj2 (reformat_prompt_one_per_row framed_env (sample_classifier "label")
                       sample_frame))
      as (prompts & Hrun & _).
    + set_solver.
    + intros text. by eexists.
    + rewrite Hrun. vm_compute in Hrun. congruence.
  - eexists.
    apply (proj1 (reformat_prompt_one_per_row (sample_env [])
                    (sample_classifier_reading "prompt") sample_frame)).
    intros Hin. apply list_elem_of_singleton in Hin. discriminate Hin.
Defined.

End ReformatPromptSamples.

Section ClassifierLoopFurther.
Import PyStr Classifier ClassifierSpec.

Context {G : Type} (env : Env G).

Lemma columns_at_set (df : DataFrame) (idx : nat) (col : string) (v : Json) :
  col ∈ columns (at_set df idx col v)
  ∧ ∃ added, columns (at_set df idx col v) = columns df ++ added
             ∧ ∀ c, c ∈ added → c = col.
Proof.
  unfold at_set. simpl. case_bool_decide as Hin.
  - split; [done|]. exists []. rewrite app_nil_r. split; [done|]. by intros c Hc%elem_of_nil.
  - split; [apply elem_of_app; right; by apply list_elem_of_singleton|].
    exists [col]. split; [done|]. by intros c Hc%list_elem_of_singleton.
Qed.

Lemma primary_is_category : "primary_category" ∈ category_columns.
Proof. apply elem_of_cons. by left. Qed.

Lemma secondary_is_category : "secondary_category" ∈ category_columns.
Proof. apply elem_of_cons. right. apply elem_of_cons. by left. Qed.

Lemma kept_refl (df : DataFrame) : kept df df.
Proof.
  split; [done|]. split; [done|]. exists []. rewrite app_nil_r.
  split; [done|]. by intros c Hc%elem_of_nil.
Qed.

Lemma kept_trans (df1 df2 df3 : DataFrame) : kept df1 df2 → kept df2 df3 → kept df1 df3.
Proof.
  intros (Hl1 & Hk1 & a1 & Hc1 & Ha1) (Hl2 & Hk2 & a2 & Hc2 & Ha2).
  split; [by rewrite Hl2|]. split.
  - intros k col Hcol. by rewrite Hk2, Hk1.
  - exists (a1 ++ a2). rewrite Hc2, Hc1, app_assoc. split; [done|].
    intros c [Hc|Hc]%elem_of_app; [by apply Ha1|by apply Ha2].
Qed.

Lemma kept_at_set (df : DataFrame) (idx : nat) (col : string) (v : Json) :
  col ∈ category_columns → kept df (at_set df idx col v).
Proof.
  intros Hcol. split; [apply length_rows_at_set|]. split.
  - intros k c Hc. apply cell_at_set_other. by intros ->.
  - destruct (columns_at_set df idx col v) as (_ & added & Hc & Ha).
    exists added. split; [done|]. intros c Hin. by rewrite (Ha c Hin).
Qed.

Lemma kept_add_column (df : DataFrame) (col : string) :
  col ∈ category_columns → kept df (add_column df col).
Proof.
  intros Hcol. split; [done|]. split; [done|].
  unfold add_column. simpl. case_bool_decide.
  - exists []. rewrite app_nil_r. split; [done|]. by intros c Hc%elem_of_nil.
  - exists [col]. split; [done|]. by intros c ->%list_elem_of_singleton.
Qed.

(** What one row's step leaves of the frame. *)
Lemma classify_row_keeps (idx : nat) (s : string) (w : World G) :
  kept (dataframe w) (dataframe (classify_row env idx s w).2).
Proof.
  rewrite classify_row_cases.
  destruct (parsed env s) as [[| | | | | |fields]|e]; try apply kept_refl.
  destruct (env_at_set env (trace w) (dataframe w) idx "primary_category" _)
    as [primary|e [|]]; cbv zeta.
  - destruct (env_at_set env _ _ idx "secondary_category" _) as [secondary|e [|]];
      cbn [snd dataframe set_dataframe log].
    + eapply kept_trans; [apply kept_at_set, primary_is_category|].
      apply kept_at_set, secondary_is_category.
    + eapply kept_trans; [apply kept_at_set, primary_is_category|].
      apply kept_add_column, secondary_is_category.
    + apply kept_at_set, primary_is_category.
  - apply kept_add_column, primary_is_category.
  - apply kept_refl.
Qed.

Lemma classify_loop_keeps (idx : nat)
    (pairs : list (gmap string Json * string)) (w : World G) :
  ∃ w' ds,
    classify_loop env idx pairs w = (Returns tt, w')
    ∧ trace w' = trace w ++ map Printed ds
    ∧ length (rows (dataframe w')) = length (rows (dataframe w))
    ∧ (∀ k col, col ∉ category_columns →
          cell (dataframe w') k col = cell (dataframe w) k col)
    ∧ (∃ added, columns (dataframe w') = columns (dataframe w) ++ added
                ∧ ∀ c, c ∈ added → c ∈ category_columns).
Proof.
  revert idx w. induction pairs as [|[row s] rest IH]; intros idx w.
  - exists w, []. simpl. rewrite app_nil_r. split; [done|]. split; [done|].
    apply kept_refl.
  - rewrite classify_loop_cons.
    destruct (classify_row_frame env idx s w) as (w1 & ds1 & Hrow & Ht1 & _).
    pose proof (classify_row_keeps idx s w) as Hk1.
    rewrite Hrow in *. cbn [snd] in *.
    destruct (IH (S idx) w1) as (w2 & ds2 & Hrun & Ht2 & Hk2).
    exists w2, (ds1 ++ ds2). split; [done|].
    split; [by rewrite Ht2, Ht1, map_app, app_assoc|].
    exact (kept_trans _ _ _ Hk1 Hk2).
Qed.

Lemma classify_loop_object_cells (idx : nat)
    (pre post : list (gmap string Json * string)) (row : gmap string Json)
    (classification_str : string) (fields : list (string * Json)) (w : World G) :
  is_object env classification_str fields →
  stores env (default (JStr EmptyString) (assoc_get "primary_category" fields)) →
  stores env (default (JStr EmptyString) (assoc_get "secondary_category" fields)) →
  idx + length pre < length (rows (dataframe w)) →
  let w' := (classify_loop env idx (pre ++ (row, classification_str) :: post) w).2 in
  cell (dataframe w') (idx + length pre) "primary_category"
  = Some (default (JStr EmptyString) (assoc_get "primary_category" fields))
  ∧ cell (dataframe w') (idx + length pre) "secondary_category"
    = Some (default (JStr EmptyString) (assoc_get "secondary_category" fields))
  ∧ "primary_category" ∈ columns (dataframe w')
  ∧ "secondary_category" ∈ columns (dataframe w').
Proof.
  intros Hobj Hst1 Hst2 Hlt. cbv zeta.
  rewrite classify_loop_app, classify_loop_cons.
  destruct (classify_loop_keeps idx pre w)
    as (w1 & ds1 & Hpre & _ & Hl1 & _).
  rewrite Hpre. cbn [snd].
  rewrite classify_row_cases. unfold is_object in Hobj. rewrite Hobj.
  rewrite Hst1. cbv zeta. rewrite Hst2. cbn [snd].
  match goal with
  | |- context [classify_loop env ?i post ?W] =>
      destruct (classify_loop_frame env i post W) as (w2 & ds2 & Hpost & _ & Hc2 & Hr2)
  end.
  rewrite Hpost. cbn [snd]. cbn [dataframe set_dataframe] in Hc2, Hr2.
  unfold cell. rewrite Hr2 by lia.
  fold (cell (at_set
                (at_set (dataframe w1) (idx + length pre) "primary_category"
                   (default (JStr EmptyString) (assoc_get "primary_category" fields)))
                (idx + length pre) "secondary_category"
                (default (JStr EmptyString) (assoc_get "secondary_category" fields)))
          (idx + length pre) "primary_category").
  fold (cell (at_set
                (at_set (dataframe w1) (idx + length pre) "primary_category"
                   (default (JStr EmptyString) (assoc_get "primary_category" fields)))
                (idx + length pre) "secondary_category"
                (default (JStr EmptyString) (assoc_get "secondary_category" fields)))
          (idx + length pre) "secondary_category").
  split; [|split; [|split]].
  - rewrite cell_at_set_other by done. apply cell_at_set_same. by rewrite Hl1.
  - apply cell_at_set_same. rewrite length_rows_at_set. by rewrite Hl1.
  - apply Hc2, at_set_columns. apply columns_at_set.
  - apply Hc2. apply columns_at_set.
Qed.

(** X13: The loop of [run] keeps the rows of the frame and every cell outside
    the columns [primary_category] and [secondary_category], and the columns
    it adds behind the old ones are among these two; it leaves nothing but
    diagnostics in the trace and it returns. *)
Theorem classify_loop_keeps_other_columns (idx : nat)
    (pairs : list (gmap string Json * string)) (w : World G) :
  ∃ w' ds,
    classify_loop env idx pairs w = (Returns tt, w')
    ∧ trace w' = trace w ++ map Printed ds
    ∧ length (rows (dataframe w')) = length (rows (dataframe w))
    ∧ (∀ k col, col ∉ category_columns →
          cell (dataframe w') k col = cell (dataframe w) k col)
    ∧ (∃ added, columns (dataframe w') = columns (dataframe w) ++ added
                ∧ ∀ c, c ∈ added → c ∈ category_columns).
Proof. apply classify_loop_keeps. Qed.

(** X14: A row whose response yields a dict gets, in each of the two category
    columns, the dict's value under that key, or the empty string when the
    key is missing (so an empty response gives two empty strings), when the
    frame stores these two values as they are given (pandas refuses a list
    for a cell); what the loop does to the rows behind it does not change
    these cells. *)
Theorem classify_loop_assigns_object (idx : nat)
    (pre post : list (gmap string Json * string)) (row : gmap string Json)
    (classification_str : string) (fields : list (string * Json)) (w : World G) :
  is_object env classification_str fields →
  stores env (default (JStr EmptyString) (assoc_get "primary_category" fields)) →
  stores env (default (JStr EmptyString) (assoc_get "secondary_category" fields)) →
  idx + length pre < length (rows (dataframe w)) →
  let w' := (classify_loop env idx (pre ++ (row, classification_str) :: post) w).2 in
  cell (dataframe w') (idx + length pre) "primary_category"
  = Some (default (JStr EmptyString) (assoc_get "primary_category" fields))
  ∧ cell (dataframe w') (idx + length pre) "secondary_category"
    = Some (default (JStr EmptyString) (assoc_get "secondary_category" fields))
  ∧ "primary_category" ∈ columns (dataframe w')
  ∧ "secondary_category" ∈ columns (dataframe w').
Proof. apply classify_loop_object_cells. Qed.

Lemma length_zip_le {A B} (a : list A) (b : list B) : length (zip a b) ≤ length b.
Proof.
  revert b. induction a as [|x a IH]; intros [|y b]; simpl; try lia.
  specialize (IH b). lia.
Qed.

Lemma zip_surplus {A B} (a : list A) (b extra : list B) :
  length a ≤ length b → zip a (b ++ extra) = zip a b.
Proof.
  revert b. induction a as [|x a IH]; intros [|y b] Hlen; simpl in *; try done; try lia.
  f_equal. apply IH. lia.
Qed.

(** X16: The loop pairs rows and responses one to one from the top: with fewer
    responses than rows the rows from number [length responses] on are left
    as they were, and responses beyond the number of rows change nothing. *)
Theorem classify_loop_pairs_rows (rws : list (gmap string Json))
    (responses extra : list string) (w : World G) :
  (∀ k, length responses ≤ k →
        rows (dataframe (classify_loop env 0 (zip rws responses) w).2) !! k
        = rows (dataframe w) !! k)
  ∧ (length rws ≤ length responses →
     classify_loop env 0 (zip rws (responses ++ extra)) w
     = classify_loop env 0 (zip rws responses) w).
Proof.
  split.
  - intros k Hk.
    destruct (classify_loop_frame env 0 (zip rws responses) w)
      as (w' & ds & Hrun & _ & _ & Hrows).
    rewrite Hrun. apply Hrows. right. pose proof (length_zip_le rws responses). simpl. lia.
  - intros Hlen. by rewrite zip_surplus.
Qed.

(** X15: A row whose response yields no dict (text that is not JSON, or JSON
    that is a list, a number, a string, a boolean or null) costs one
    diagnostic; its cells are after the loop what they were before it, and
    the rows behind it are worked on. *)
Theorem classify_loop_skips_faulty_row (idx : nat)
    (pre post : list (gmap string Json * string)) (row : gmap string Json)
    (classification_str : string) (w : World G) :
  no_object env classification_str →
  ∃ w1 d w2,
    classify_loop env idx pre w = (Returns tt, w1)
    ∧ classify_row env (idx + length pre) classification_str w1
      = (Returns tt, log (Printed d) w1)
    ∧ classify_loop env idx (pre ++ (row, classification_str) :: post) w
      = classify_loop env (S (idx + length pre)) post (log (Printed d) w1)
    ∧ classify_loop env idx (pre ++ (row, classification_str) :: post) w
      = (Returns tt, w2)
    ∧ rows (dataframe w2) !! (idx + length pre) = rows (dataframe w) !! (idx + length pre).
Proof.
  intros Hno.
  destruct (classify_loop_frame env idx pre w) as (w1 & ds1 & Hpre & _ & _ & Hr1).
  assert (∃ d, classify_row env (idx + length pre) classification_str w1
               = (Returns tt, log (Printed d) w1)) as [d Hrow].
  { rewrite classify_row_cases. unfold no_object in Hno.
    destruct (parsed env classification_str) as [[| | | | | |fields]|e];
      try by eexists.
    by destruct (Hno fields). }
  destruct (classify_loop_frame env (S (idx + length pre)) post (log (Printed d) w1))
    as (w2 & ds2 & Hpost & _ & _ & Hr2).
  exists w1, d, w2. split; [done|]. split; [done|].
  assert (classify_loop env idx (pre ++ (row, classification_str) :: post) w
          = classify_loop env (S (idx + length pre)) post (log (Printed d) w1)) as Hrun.
  { rewrite classify_loop_app, Hpre. cbn [snd]. by rewrite classify_loop_cons, Hrow. }
  split; [done|]. split; [by rewrite Hrun|].
  rewrite Hr2 by lia. simpl. apply Hr1. lia.
Qed.

End ClassifierLoopFurther.

Section ClassifierRunFurther.
Import PyStr Classifier ClassifierSpec.

Context {G : Type} (env : Env G).

Lemma trace_log (ev : Event G) (w : World G) : trace (log ev w) = trace w ++ [ev].
Proof. reflexivity. Qed.

(** X17: [run] never raises: whatever the collaborators do, it returns, and the
    last thing it does is print, either that the results were saved or the
    fault that ended the work.  That the results were saved is printed only
    right behind a successful [to_json] to the output file. *)
Theorem run_never_raises (self : QuestionCategoryClassifier G) (w : World G) :
  ∃ w' new d,
    run env self w = (Returns tt, w')
    ∧ trace w' = trace w ++ new ++ [Printed d]
    ∧ ((∃ e, d = RunError e)
       ∨ (d = ResultsSaved (output_file self)
          ∧ ∃ before df u,
              new = before ++ [ToJson df (output_file self) (Returns u)])).
Proof.
  rewrite run_cases.
  destruct (env_read_json env (trace w) (input_file self)) as [df|e].
  2: { eexists _, [_], _. split; [reflexivity|]. split; [|left; by eexists].
       rewrite !trace_log, <- app_assoc. reflexivity. }
  cbv zeta. destruct (_reformat_prompt env self df) as [prompts|e].
  2: { eexists _, [_], _. split; [reflexivity|]. split; [|left; by eexists].
       rewrite !trace_log. cbn [trace set_dataframe]. rewrite trace_log, <- app_assoc.
       reflexivity. }
  destruct (env_generate_text_from_input env _ (model self) prompts) as [responses|e].
  2: { eexists _, [_; _], _. split; [reflexivity|]. split; [|left; by eexists].
       rewrite !trace_log. cbn [trace set_dataframe]. rewrite trace_log, <- !app_assoc.
       reflexivity. }
  match goal with
  | |- context [classify_loop env 0 ?p ?W] =>
      destruct (classify_loop_frame env 0 p W) as (w2 & ds & Hloop & Ht & _)
  end.
  rewrite Hloop. cbn [snd]. rewrite trace_log in Ht. cbn [trace set_dataframe] in Ht.
  rewrite trace_log, <- !app_assoc in Ht. simpl app in Ht.
  match type of Ht with
  | _ = _ ++ ?b => set (base := b) in *
  end.
  case_bool_decide.
  { exists (log (Printed (RunError (output_key_fault (output_key self)))) w2), base,
      (RunError (output_key_fault (output_key self))).
    split; [reflexivity|]. split; [|left; by eexists].
    by rewrite trace_log, Ht, <- app_assoc. }
  set (dir := os_path_dirname (output_file self)).
  destruct (env_makedirs env (trace w2) dir) as [u|e] eqn:Hmk.
  2: { exists (log (Printed (RunError e)) (log (MakeDirs dir (Raises e)) w2)),
         (base ++ [MakeDirs dir (Raises e)]), (RunError e).
       split; [reflexivity|]. split; [|left; by eexists].
       by rewrite !trace_log, Ht, <- !app_assoc. }
  destruct (env_to_json env _ _ _) as [u'|e] eqn:Hjs.
  - eexists _, (base ++ [MakeDirs dir (Returns u);
                         ToJson (dataframe w2) (output_file self) (Returns u')]),
      (ResultsSaved (output_file self)).
    split; [reflexivity|]. split.
    + by rewrite !trace_log, Ht, <- !app_assoc.
    + right. split; [done|].
      exists (base ++ [MakeDirs dir (Returns u)]), (dataframe w2), u'.
      by rewrite <- app_assoc.
  - eexists _, (base ++ [MakeDirs dir (Returns u);
                         ToJson (dataframe w2) (output_file self) (Raises e)]),
      (RunError e).
    split; [reflexivity|]. split; [|left; by eexists].
    by rewrite !trace_log, Ht, <- !app_assoc.
Qed.

(** X18: When the input file cannot be read, or the frame read from it has no
    column [input_key], [run] prints the fault and returns at once: the back
    end is not asked to generate, no directory is made and no file is
    written. *)
Theorem run_stops_before_backend (self : QuestionCategoryClassifier G) (w : World G) :
  (∀ e, env_read_json env (trace w) (input_file self) = Raises e →
        run env self w
        = (Returns tt,
           log (Printed (RunError e)) (log (ReadJson (input_file self) (Raises e)) w)))
  ∧ (∀ df, env_read_json env (trace w) (input_file self) = Returns df →
           input_key self ∉ columns df →
           run env self w
           = (Returns tt,
              log (Printed (RunError
                     (ValueError "input_key: {} not found in the dataframe. Available keys: {}"
                        [ArgStr (input_key self); ArgList (columns df)])))
                (set_dataframe df (log (ReadJson (input_file self) (Returns df)) w)))).
Proof.
  split.
  - intros e Hread. by rewrite run_cases, Hread.
  - intros df Hread Hno. rewrite run_cases, Hread. cbv zeta.
    unfold _reformat_prompt. by rewrite bool_decide_eq_false_2.
Qed.

(** X19: When every collaborator works and [output_key] is neither a column of
    the input nor one of the two category columns, [run] makes the directory
    of the output file, writes the frame to the output file once, and
    reports it.  The frame written has the rows of the input, and outside
    the two category columns every cell of the input as it was read. *)
Theorem run_saves_frame (self : QuestionCategoryClassifier G) (w : World G)
    (df : DataFrame) (prompts responses : list string) :
  env_read_json env (trace w) (input_file self) = Returns df →
  _reformat_prompt env self df = Returns prompts →
  env_generate_text_from_input env
    (trace w ++ [ReadJson (input_file self) (Returns df)]) (model self) prompts
  = Returns responses →
  output_key self ∉ columns df →
  output_key self ∉ category_columns →
  (∀ tr dir, env_makedirs env tr dir = Returns tt) →
  (∀ tr frame path, env_to_json env tr frame path = Returns tt) →
  ∃ w' ds frame,
    run env self w = (Returns tt, w')
    ∧ trace w'
      = trace w
        ++ [ReadJson (input_file self) (Returns df);
            GenerateText prompts (Returns responses)]
        ++ map Printed ds
        ++ [MakeDirs (os_path_dirname (output_file self)) (Returns tt);
            ToJson frame (output_file self) (Returns tt);
            Printed (ResultsSaved (output_file self))]
    ∧ length (rows frame) = length (rows df)
    ∧ (∀ k col, col ∉ category_columns → cell frame k col = cell df k col)
    ∧ (∀ c, c ∈ columns df → c ∈ columns frame).
Proof.
  intros Hread Hfmt Hgen Hout Hcat Hmk Hjson.
  rewrite run_cases, Hread. cbv zeta. rewrite Hfmt.
  cbn [trace set_dataframe log]. rewrite Hgen.
  match goal with
  | |- context [classify_loop env 0 ?p ?W] =>
      destruct (classify_loop_keeps env 0 p W)
        as (w2 & ds & Hloop & Ht & Hlen & Hcell & added & Hcols & Hadded)
  end.
  rewrite Hloop. cbn [snd]. cbn [trace dataframe set_dataframe log] in Ht, Hlen, Hcell, Hcols.
  rewrite bool_decide_eq_false_2.
  2: { rewrite Hcols. intros [Hin|Hin]%elem_of_app; [done|]. by apply Hcat, Hadded. }
  rewrite Hmk, Hjson.
  eexists _, ds, (dataframe w2). split; [reflexivity|].
  split; [|split; [done|split; [done|]]].
  - rewrite !trace_log, Ht, <- !app_assoc. reflexivity.
  - intros c Hc. rewrite Hcols. apply elem_of_app. by left.
Qed.

(** X20: An [output_key] that is one of the two category columns ends the run in
    the schema fault as soon as one row of the frame has a response that
    yields a dict whose two values the frame stores: the loop itself makes
    the column, and nothing is written. *)
Theorem run_output_key_is_category (self : QuestionCategoryClassifier G) (w : World G)
    (df : DataFrame) (prompts responses : list string) (k : nat)
    (classification_str : string) (fields : list (string * Json)) :
  env_read_json env (trace w) (input_file self) = Returns df →
  _reformat_prompt env self df = Returns prompts →
  env_generate_text_from_input env
    (trace w ++ [ReadJson (input_file self) (Returns df)]) (model self) prompts
  = Returns responses →
  output_key self ∈ category_columns →
  k < length (rows df) →
  responses !! k = Some classification_str →
  is_object env classification_str fields →
  stores env (default (JStr EmptyString) (assoc_get "primary_category" fields)) →
  stores env (default (JStr EmptyString) (assoc_get "secondary_category" fields)) →
  ∃ w' ds,
    run env self w = (Returns tt, w')
    ∧ trace w'
      = trace w
        ++ [ReadJson (input_file self) (Returns df);
            GenerateText prompts (Returns responses)]
        ++ map Printed ds
        ++ [Printed (RunError (output_key_fault (output_key self)))].
Proof.
  intros Hread Hfmt Hgen Hout Hk Hresp Hobj Hst1 Hst2.
  rewrite run_cases, Hread. cbv zeta. rewrite Hfmt.
  cbn [trace set_dataframe log]. rewrite Hgen.
  destruct (lookup_lt_is_Some_2 _ _ Hk) as [row Hrow].
  assert (zip (rows df) responses !! k = Some (row, classification_str)) as Hpair.
  { apply lookup_zip_with_Some. by eexists _, _. }
  apply list_elem_of_split_length in Hpair as (pre & post & Hzip & Hlen).
  match goal with
  | |- context [classify_loop env 0 ?p ?W] =>
      destruct (classify_loop_frame env 0 p W) as (w2 & ds & Hloop & Ht & _);
      pose proof (classify_loop_object_cells env 0 pre post row classification_str
                    fields W Hobj Hst1 Hst2) as Hcells
  end.
  rewrite <- Hzip, Hloop in Hcells. cbn [snd dataframe set_dataframe log] in Hcells.
  destruct Hcells as (_ & _ & Hp & Hs); [simpl; lia|].
  rewrite Hloop. cbn [snd]. cbn [trace set_dataframe log] in Ht.
  rewrite bool_decide_eq_true_2.
  2: { repeat (apply elem_of_cons in Hout as [->|Hout]); [done|done|].
       by apply elem_of_nil in Hout. }
  eexists _, ds. split; [reflexivity|].
  rewrite trace_log, Ht, <- !app_assoc. reflexivity.
Qed.

End ClassifierRunFurther.

Section ClassifierFurtherSamples.
Import PyStr Classifier ClassifierSpec.

Local Abbreviation loaded := (set_dataframe sample_frame (initial_world (Generator := unit))).

Lemma question_not_category : "question" ∉ category_columns.
Proof.
  intros Hin. repeat (apply elem_of_cons in Hin as [Hin|Hin]; [discriminate Hin|]).
  by apply elem_of_nil in Hin.
Qed.

Lemma classify_loop_keeps_other_columns_witness :
  cell (dataframe (classify_loop (sample_env []) 0
                     [(first_row, "oops"); (second_row, math_json)] loaded).2)
       1 "question" = Some (JStr "3*3?").
Proof.
  destruct (classify_loop_keeps_other_columns (sample_env []) 0
              [(first_row, "oops"); (second_row, math_json)] loaded)
    as (w' & ds & Hrun & _ & _ & Hcell & _).
  rewrite Hrun. cbn [snd]. rewrite (Hcell 1 "question" question_not_category).
  reflexivity.
Defined.

Lemma classify_loop_assigns_object_witness :
  cell (dataframe (classify_loop (sample_env []) 0
                     ([(first_row, "oops")] ++ (second_row, math_json) :: []) loaded).2)
       1 "secondary_category" = Some (JStr "arithmetic")
  ∧ cell (dataframe (classify_loop (sample_env []) 0
                       ([] ++ (first_row, EmptyString) :: [(second_row, "oops")]) loaded).2)
         0 "primary_category" = Some (JStr EmptyString).
Proof.
  split.
  - exact (proj1 (proj2 (classify_loop_assigns_object (sample_env []) 0
                           [(first_row, "oops")] [] second_row math_json
                           [("primary_category", JStr "math");
                            ("secondary_category", JStr "arithmetic")]
                           loaded eq_refl (fun _ _ _ _ => eq_refl)
                           (fun _ _ _ _ => eq_refl) ltac:(simpl; lia)))).
  - exact (proj1 (classify_loop_assigns_object (sample_env []) 0
                    [] [(second_row, "oops")] first_row EmptyString []
                    loaded eq_refl (fun _ _ _ _ => eq_refl)
                    (fun _ _ _ _ => eq_refl) ltac:(simpl; lia))).
Defined.

Lemma classify_loop_skips_faulty_row_witness :
  rows (dataframe (classify_loop (listing_env []) 0
                     ([] ++ (first_row, "[1, 2]") :: [(second_row, math_json)]) loaded).2)
    !! 0 = Some first_row
  ∧ classify_row (listing_env []) 0 "[1, 2]" loaded
    = (Returns tt, log (Printed (ClassificationParseError AttributeError)) loaded).
Proof.
  destruct (classify_loop_skips_faulty_row (listing_env []) 0 []
              [(second_row, math_json)] first_row "[1, 2]" loaded)
    as (w1 & d & w2 & Hpre & Hrow & _ & Hrun & Hrows).
  - intros fields. discriminate.
  - split.
    + rewrite Hrun. cbn [snd]. etrans; [exact Hrows|reflexivity].
    + reflexivity.
Defined.

Lemma classify_loop_pairs_rows_witness :
  rows (dataframe (classify_loop (sample_env []) 0 (zip (rows sample_frame) [math_json])
                     loaded).2) !! 1 = Some second_row
  ∧ classify_loop (sample_env []) 0
      (zip (rows sample_frame) ([math_json; "oops"] ++ ["{}"; "{}"])) loaded
    = classify_loop (sample_env []) 0 (zip (rows sample_frame) [math_json; "oops"]) loaded.
Proof.
  destruct (classify_loop_pairs_rows (sample_env []) (rows sample_frame) [math_json] []
              loaded) as [Hshort _].
  destruct (classify_loop_pairs_rows (sample_env []) (rows sample_frame)
              [math_json; "oops"] ["{}"; "{}"] loaded) as [_ Hlong].
  split.
  - rewrite (Hshort 1) by (simpl; lia). reflexivity.
  - apply Hlong. simpl. lia.
Defined.

Lemma run_stops_before_backend_witness :
  run (unreadable_env []) (sample_classifier "label") initial_world
  = (Returns tt,
     log (Printed (RunError (OtherException "FileNotFoundError")))
       (log (ReadJson "in/questions.jsonl" (Raises (OtherException "FileNotFoundError")))
          initial_world))
  ∧ trace (run (sample_env []) (sample_classifier_reading "prompt") initial_world).2
    = [ReadJson "in/questions.jsonl" (Returns sample_frame);
       Printed (RunError
         (ValueError "input_key: {} not found in the dataframe. Available keys: {}"
            [ArgStr "prompt"; ArgList ["question"]]))].
Proof.
  split.
  - exact (proj1 (run_stops_before_backend (unreadable_env []) (sample_classifier "label")
                    initial_world) _ eq_refl).
  - rewrite (proj2 (run_stops_before_backend (sample_env [])
                      (sample_classifier_reading "prompt") initial_world)
               sample_frame eq_refl).
    + reflexivity.
    + intros Hin. apply list_elem_of_singleton in Hin. discriminate Hin.
Defined.

Lemma label_not_in_frame : "label" ∉ columns sample_frame.
Proof. intros Hin. apply list_elem_of_singleton in Hin. discriminate Hin. Qed.

Lemma label_not_category : "label" ∉ category_columns.
Proof.
  intros Hin. repeat (apply elem_of_cons in Hin as [Hin|Hin]; [discriminate Hin|]).
  by apply elem_of_nil in Hin.
Qed.

Lemma run_saves_frame_witness :
  ∃ w' ds frame,
    run (sample_env ["oops"; math_json]) (sample_classifier "label") initial_world
    = (Returns tt, w')
    ∧ trace w'
      = [ReadJson "in/questions.jsonl" (Returns sample_frame);
         GenerateText ["Classify the question."; "Classify the question."]
           (Returns ["oops"; math_json])]
        ++ map Printed ds
        ++ [MakeDirs "out" (Returns tt);
            ToJson frame "out/labels.jsonl" (Returns tt);
            Printed (ResultsSaved "out/labels.jsonl")]
    ∧ length (rows frame) = 2.
Proof.
  destruct (run_saves_frame (sample_env ["oops"; math_json]) (sample_classifier "label")
              initial_world sample_frame
              ["Classify the question."; "Classify the question."] ["oops"; math_json]
              eq_refl eq_refl eq_refl label_not_in_frame label_not_category
              (fun _ _ => eq_refl) (fun _ _ _ => eq_refl))
    as (w' & ds & frame & Hrun & Ht & Hlen & _).
  exists w', ds, frame. split; [exact Hrun|]. split; [exact Ht|exact Hlen].
Defined.

Lemma run_output_key_is_category_witness :
  ∃ w' ds,
    run (sample_env ["oops"; math_json]) (sample_classifier "primary_category") initial_world
    = (Returns tt, w')
    ∧ trace w'
      = [ReadJson "in/questions.jsonl" (Returns sample_frame);
         GenerateText ["Classify the question."; "Classify the question."]
           (Returns ["oops"; math_json])]
        ++ map Printed ds
        ++ [Printed (RunError (output_key_fault "primary_category"))].
Proof.
  exact (run_output_key_is_category (sample_env ["oops"; math_json])
           (sample_classifier "primary_category") initial_world sample_frame
           ["Classify the question."; "Classify the question."] ["oops"; math_json]
           1 math_json
           [("primary_category", JStr "math"); ("secondary_category", JStr "arithmetic")]
           eq_refl eq_refl eq_refl primary_is_category ltac:(simpl; lia) eq_refl eq_refl
           (fun _ _ _ _ => eq_refl) (fun _ _ _ _ => eq_refl)).
Defined.

End ClassifierFurtherSamples.
